(** * Code Quality Predictor: the scoring and prediction core

    A shallow embedding of the analytical core of the extension and of
    the backend's [analyzeCode]:

    - [Js]: the fragment of the host language the code relies on
      (numbers, strings as UTF-16 code units, backtracking regular
      expressions, [String.prototype.match] with the [g] flag);
    - [Extension]: the metric extractors and the scorer of the
      extension entry file ([calculateComplexity], [findDuplicateLines],
      [findLongFunctions], [analyzeCodeQuality]);
    - [Backend]: [analyzeCode] of the serverless backend;
    - [LinearRegressionModel], [TimeSeriesModel], [AnalysisEngine]:
      the two models and their orchestrator;
    - [DataStorage]: the persistence adapter over the editor's
      key-value store;
    - [QualityTracker], [CodePatternDetector]: the session tracker and
      the detector that feeds it;
    - [ProjectAnalyzer]: the project metrics, their cache and the
      cascade heuristic;
    - [Server]: [performCodeAnalysis] of the API server.

    Numbers are exact rationals ([Q]): every statement about a number is
    a statement about the real-number value the source expression
    denotes, compared with [==]. *)

From Stdlib Require Import ZArith QArith Qround Qminmax Lqa Lia List String Ascii.
From stdpp Require Import gmap list strings.

Open Scope Q_scope.

(** ** The host language fragment *)

Module Js.

(** *** Numbers *)

Definition Math_min (x y : Q) : Q := Qmin x y.
Definition Math_max (x y : Q) : Q := Qmax x y.

(** [Math.round]: the integer nearest to [x], ties towards +infinity. *)
Definition Math_round (x : Q) : Q := inject_Z (Qfloor (x + (1 # 2))).

(** [x > y] and [x < y] on numbers. *)
Definition gt (x y : Q) : bool := negb (Qle_bool x y).
Definition lt (x y : Q) : bool := negb (Qle_bool y x).

(** A number that is the length of an array or a counter. *)
Definition num (n : nat) : Q := inject_Z (Z.of_nat n).

(** A number that is an integer. *)
Definition isInteger (x : Q) : Prop := exists z : Z, x == inject_Z z.

(** [xs.reduce((sum, x) => sum + f x, 0)] *)
Definition sumOf {A} (f : A -> Q) (xs : list A) : Q :=
  fold_left (fun sum x => sum + f x) xs 0.

(** [xs.slice(-n)]: the last [n] elements (all of them when there are
    fewer). *)
Definition slice_last {A} (n : nat) (xs : list A) : list A :=
  skipn (length xs - n) xs.

(** *** Dates

    [LocalTZA] is the host's offset of local time from UTC at a time
    value, in milliseconds. *)
Section Dates.
Variable LocalTZA : Z -> Z.

Definition LocalTime (t : Z) : Z := (t + LocalTZA t)%Z.

(** [new Date(t).getHours()] *)
Definition getHours (t : Z) : Z := ((LocalTime t / 3600000) mod 24)%Z.

(** [new Date(t).getDay()], 0 is Sunday; time value 0 falls on a
    Thursday. *)
Definition getDay (t : Z) : Z := ((LocalTime t / 86400000 + 4) mod 7)%Z.
End Dates.

(** *** Strings

    A string is its sequence of UTF-16 code units. *)

Definition jsstring := list N.

(** The code units of an ASCII literal. *)
Fixpoint str (s : string) : jsstring :=
  match s with
  | EmptyString => []
  | String a s' => N_of_ascii a :: str s'
  end.

Definition LF : N := 10%N.

(** WhiteSpace and LineTerminator code points: what [trim] strips and
    what [\s] matches. *)
Definition isSpace (c : N) : bool :=
  ((9 <=? c) && (c <=? 13) || (c =? 32) || (c =? 160) || (c =? 5760)
   || (8192 <=? c) && (c <=? 8202) || (c =? 8232) || (c =? 8233)
   || (c =? 8239) || (c =? 8287) || (c =? 12288) || (c =? 65279))%N.

(** [\w]: [A-Za-z0-9_] *)
Definition isWord (c : N) : bool :=
  ((65 <=? c) && (c <=? 90) || (97 <=? c) && (c <=? 122)
   || (48 <=? c) && (c <=? 57) || (c =? 95))%N.

(** [.] matches everything but the four line terminators. *)
Definition isDot (c : N) : bool :=
  negb ((c =? 10) || (c =? 13) || (c =? 8232) || (c =? 8233))%N.

Fixpoint trimStart (s : jsstring) : jsstring :=
  match s with
  | c :: s' => if isSpace c then trimStart s' else s
  | [] => []
  end.

Definition trimEnd (s : jsstring) : jsstring := rev (trimStart (rev s)).

Definition trim (s : jsstring) : jsstring := trimEnd (trimStart s).

(** [s.split('\n')]: never empty, [''.split('\n')] is [['']]. *)
Fixpoint split_lines (s : jsstring) : list jsstring :=
  match s with
  | [] => [[]]
  | c :: s' =>
      if (c =? LF)%N then [] :: split_lines s'
      else match split_lines s' with
           | l :: ls => (c :: l) :: ls
           | [] => [[c]]
           end
  end.

(** *** Regular expressions

    The constructs the source's patterns use, matched by backtracking
    in the order the language prescribes: alternatives left to right,
    a greedy star tries one more iteration before it stops, a lazy
    star stops before it tries one more. *)

Inductive regex :=
| Eps
| Chr (p : N -> bool)
| Seq (r1 r2 : regex)
| Alt (r1 r2 : regex)
| Star (greedy : bool) (r : regex)
| WordB.

Definition orElse {A} (x y : option A) : option A :=
  match x with Some _ => x | None => y end.

Definition isWordAt (c : option N) : bool :=
  match c with Some c => isWord c | None => false end.

(** [rmatch r prev s k]: match [r] at the head of [s], where [prev] is
    the code unit before it, and hand the position after the match to
    the continuation [k]; the result is the rest of the input after
    the whole match.  An iteration of a star that consumes nothing is
    rejected, as in the language, so a star over [s] iterates at most
    [length s] times. *)
Fixpoint rmatch (r : regex) (prev : option N) (s : jsstring)
    (k : option N -> jsstring -> option jsstring) {struct r}
    : option jsstring :=
  match r with
  | Eps => k prev s
  | Chr p =>
      match s with
      | c :: s' => if p c then k (Some c) s' else None
      | [] => None
      end
  | Seq r1 r2 => rmatch r1 prev s (fun prev' s' => rmatch r2 prev' s' k)
  | Alt r1 r2 => orElse (rmatch r1 prev s k) (rmatch r2 prev s k)
  | Star greedy r1 =>
      (fix loop (n : nat) (prev : option N) (s : jsstring) : option jsstring :=
         match n with
         | O => k prev s
         | S n' =>
             let again :=
               rmatch r1 prev s (fun prev' s' =>
                 if (length s' <? length s)%nat then loop n' prev' s' else None) in
             if greedy then orElse again (k prev s)
             else orElse (k prev s) again
         end) (length s) prev s
  | WordB =>
      if xorb (isWordAt prev) (isWordAt (head s)) then k prev s else None
  end.

(** Derived forms. *)
Definition lit1 (c : N) : regex := Chr (N.eqb c).

Fixpoint lit (s : jsstring) : regex :=
  match s with
  | [] => Eps
  | [c] => lit1 c
  | c :: s' => Seq (lit1 c) (lit s')
  end.

Definition seqs (rs : list regex) : regex := fold_right Seq Eps rs.
Definition star (r : regex) : regex := Star true r.
Definition lazy_star (r : regex) : regex := Star false r.
Definition plus (r : regex) : regex := Seq r (star r).
Definition opt (r : regex) : regex := Alt r Eps.

(** [r{n,}] *)
Fixpoint atLeast (n : nat) (r : regex) : regex :=
  match n with
  | O => star r
  | S n' => Seq r (atLeast n' r)
  end.

Definition space : regex := Chr isSpace.
Definition word : regex := Chr isWord.
Definition dot : regex := Chr isDot.
Definition notChr (c : N) : regex := Chr (fun x => negb (x =? c)%N).

(** One attempt at one position: the rest of the input after the
    match. *)
Definition exec_at (r : regex) (prev : option N) (s : jsstring) : option jsstring :=
  rmatch r prev s (fun _ s' => Some s').

(** [s.match(r)] for a pattern with the [g] flag: the matched
    substrings, left to right; the search resumes where the last match
    ended, one code unit further after an empty match.  [skip] counts
    the code units of the current match still to be passed over. *)
Fixpoint scan (r : regex) (prev : option N) (s : jsstring) (skip : nat)
    : list jsstring :=
  match skip with
  | S n =>
      match s with
      | c :: s' => scan r (Some c) s' n
      | [] => []
      end
  | O =>
      match exec_at r prev s with
      | Some rest =>
          let len := (length s - length rest)%nat in
          take len s ::
            match s with
            | c :: s' => scan r (Some c) s' (len - 1)
            | [] => []
            end
      | None =>
          match s with
          | c :: s' => scan r (Some c) s' 0
          | [] => []
          end
      end
  end.

(** The array [s.match(r)] yields, with [null] as the empty array:
    the source reads only its length or guards it with [|| []]. *)
Definition matchAll (r : regex) (s : jsstring) : list jsstring := scan r None s 0.

(** [s.startsWith(p)] *)
Fixpoint startsWith (s p : jsstring) : bool :=
  match p, s with
  | [], _ => true
  | a :: p', b :: s' => (a =? b)%N && startsWith s' p'
  | _ :: _, [] => false
  end.

(** [s.includes(needle)] *)
Fixpoint includes (s needle : jsstring) : bool :=
  startsWith s needle
  || match s with
     | [] => false
     | _ :: s' => includes s' needle
     end.

End Js.

(** ** The extension's metric extractors and scorer *)

Module Extension.
Import Js.

(** [/\bKEYWORD\s*\(/g] *)
Definition keywordCall (kw : string) : regex :=
  seqs [WordB; lit (str kw); star space; lit1 40%N].

(** [/\?\s*.*?\s*:/g] *)
Definition ternary : regex :=
  seqs [lit1 63%N; star space; lazy_star dot; star space; lit1 58%N].

(** The entries of [complexityPatterns], in insertion order. *)
Definition complexityPatterns : list regex :=
  [keywordCall "if"; keywordCall "for"; keywordCall "while";
   keywordCall "switch"; keywordCall "catch"; ternary].

(** The body of the loop of [calculateComplexity]: a pattern with
    matches adds their number. *)
Definition addMatches (text : jsstring) (complexity : nat) (pattern : regex) : nat :=
  match matchAll pattern text with
  | [] => complexity
  | matches => (complexity + length matches)%nat
  end.

(** The loop itself: [complexity] starts at the base value 1. *)
Definition complexityCount (text : jsstring) : nat :=
  fold_left (addMatches text) complexityPatterns 1%nat.

Definition calculateComplexity (text : jsstring) : Q :=
  Math_min 10 (num (complexityCount text) / 10).

(** The total count of matches of the six patterns in the text. *)
Definition totalMatches (text : jsstring) : nat :=
  list_sum (map (fun pattern => length (matchAll pattern text)) complexityPatterns).

(** The complexity metric in the specification's words: the total
    count of matches, divided by 10 and clamped to [[0,10]]. *)
Definition complexity_spec (text : jsstring) : Q :=
  Math_max 0 (Math_min 10 (num (totalMatches text) / 10)).

(** One step of the [forEach] of [findDuplicateLines] over the state
    ([lineMap], [duplicates]). *)
Definition dupStep (st : gmap jsstring nat * nat) (line : jsstring)
    : gmap jsstring nat * nat :=
  let '(lineMap, duplicates) := st in
  let trimmed := trim line in
  if (10 <? length trimmed)%nat then
    let count := default 0%nat (lineMap !! trimmed) in
    (<[trimmed := S count]> lineMap,
     if (count =? 1)%nat then S duplicates else duplicates)
  else st.

Definition findDuplicateLines (lines : list jsstring) : nat :=
  snd (fold_left dupStep lines (∅, 0%nat)).

(** How many of the lines have the trimmed text [t]. *)
Definition occurrences (t : jsstring) (lines : list jsstring) : nat :=
  length (filter (fun line : list N => trim line = t) lines).

(** [findDuplicatePatterns] of the pattern detector: the same count
    over the lines of the text. *)
Definition findDuplicatePatterns (text : jsstring) : nat :=
  let lines := split_lines text in
  snd (fold_left
         (fun (st : gmap jsstring nat * nat) line =>
            let '(lineMap, duplicates) := st in
            let trimmed := trim line in
            if (10 <? length trimmed)%nat then
              let count := default 0%nat (lineMap !! trimmed) in
              (<[trimmed := S count]> lineMap,
               if (count =? 1)%nat then S duplicates else duplicates)
            else st)
         lines (∅, 0%nat)).

(** The file extension, by the entry of [functionPatterns] it selects;
    [ExtOther] is every extension that selects none. *)
Inductive ext := ExtJs | ExtTs | ExtPy | ExtOther.

Definition lparen := lit1 40%N.
Definition rparen := lit1 41%N.
Definition lbrace := lit1 123%N.
Definition rbrace := lit1 125%N.
Definition colon := lit1 58%N.

(** [function\s+\w+] *)
Definition functionHead : regex := seqs [lit (str "function"); plus space; plus word].

(** [\s*\([^)]*\)] *)
Definition paramList : regex := seqs [star space; lparen; star (notChr 41%N); rparen].

(** [/function\s+\w+\s*\([^)]*\)\s*{[^}]*}/g] *)
Definition jsFunction : regex :=
  seqs [functionHead; paramList; star space; lbrace; star (notChr 125%N); rbrace].

(** [/(function\s+\w+|\w+\s*:\s*\([^)]*\)\s*=>)[^}]*}/g] *)
Definition tsFunction : regex :=
  seqs [Alt functionHead
            (seqs [plus word; star space; colon; paramList; star space; lit (str "=>")]);
        star (notChr 125%N); rbrace].

(** [/def\s+\w+\s*\([^)]*\):[^\n]*(?:\n(?:\s{4,}[^\n]*|\s*\n))*\n?/g] *)
Definition pyFunction : regex :=
  seqs [lit (str "def"); plus space; plus word; paramList; colon;
        star (notChr LF);
        star (Seq (lit1 LF)
                  (Alt (Seq (atLeast 4 space) (star (notChr LF)))
                       (Seq (star space) (lit1 LF))));
        opt (lit1 LF)].

Definition functionPatterns (extension : ext) : option regex :=
  match extension with
  | ExtJs => Some jsFunction
  | ExtTs => Some tsFunction
  | ExtPy => Some pyFunction
  | ExtOther => None
  end.

Definition findLongFunctions (text : jsstring) (extension : ext) : nat :=
  match functionPatterns extension with
  | None => 0%nat
  | Some pattern =>
      length (filter (fun func => (20 <? length (split_lines func))%nat)
                     (matchAll pattern text))
  end.

(** The scoring expressions of [analyzeCodeQuality], over the three
    metrics. *)
Section Scorer.
Variables (complexity : Q) (duplicateLines longFunctions : nat).

(** [100 - (complexity * 10) - (duplicateLines * 5) - (longFunctions * 15)] *)
Definition rawQuality : Q :=
  100 - complexity * 10 - num duplicateLines * 5 - num longFunctions * 15.

(** The local [qualityScore]. *)
Definition scoreQuality : Q := Math_max 0 (Math_min 100 rawQuality).

Definition scoreBugRisk : Q :=
  Math_min 100 (complexity * 15 + num duplicateLines * 3 + num longFunctions * 20).

Definition scoreMaintainability : Q :=
  Math_max 1 (Math_min 10 (10 - complexity * 2)).

Definition scorePerformance : Q :=
  Math_max 1 (Math_min 10 (10 - num longFunctions * 3)).
End Scorer.

Record Analysis := {
  qualityScore : Q;
  bugRisk : Q;
  maintainability : Q;
  performance : Q;
  linesOfCode : nat;
  complexity : Q;
  issues : list string
}.

(** The body of [analyzeCodeQuality] once the three metrics are known. *)
Definition score (linesOfCode : nat) (complexity : Q)
    (duplicateLines longFunctions : nat) : Analysis :=
  {| qualityScore := Math_round (scoreQuality complexity duplicateLines longFunctions);
     bugRisk := scoreBugRisk complexity duplicateLines longFunctions;
     maintainability := scoreMaintainability complexity;
     performance := scorePerformance longFunctions;
     linesOfCode := linesOfCode;
     complexity := complexity;
     issues :=
       (if (0 <? duplicateLines)%nat then ["Code duplication detected"%string] else [])
       ++ (if (0 <? longFunctions)%nat then ["Long functions found"%string] else [])
       ++ (if gt complexity 5 then ["High complexity detected"%string] else []) |}.

(** [analyzeCodeQuality], on the text and the extension of the
    document. *)
Definition analyzeCodeQuality (text : jsstring) (extension : ext) : Analysis :=
  let lines := split_lines text in
  let linesOfCode := length (filter (fun line => (0 <? length (trim line))%nat) lines) in
  score linesOfCode
        (calculateComplexity text)
        (findDuplicateLines lines)
        (findLongFunctions text extension).

End Extension.

(** ** The backend's analysis *)

Module Backend.
Import Js.

(** [/\bKEYWORD\b/g] *)
Definition keyword (kw : string) : regex := seqs [WordB; lit (str kw); WordB].

Definition complexityPatterns : list regex :=
  [keyword "if"; keyword "else"; keyword "for"; keyword "while";
   keyword "switch"; keyword "catch"; keyword "try"].

(** [/function\s+\w+\s*\([^)]*\)\s*\{[^}]{200,}\}/g] *)
Definition longFunction : regex :=
  seqs [Extension.functionHead; Extension.paramList; star space;
        Extension.lbrace; atLeast 200 (notChr 125%N); Extension.rbrace].

(** The properties every object literal inherits whose names are
    longer than 10 code units: [lineGroups[name]] is then a function,
    which is truthy and has no [push]. *)
Definition inheritedNames : list jsstring :=
  map str ["constructor"; "__defineGetter__"; "__defineSetter__";
           "hasOwnProperty"; "__lookupGetter__"; "__lookupSetter__";
           "isPrototypeOf"; "propertyIsEnumerable"; "toLocaleString"]%string.

(** One step of the [forEach] that fills [lineGroups]; [None] when the
    step throws a [TypeError]. *)
Definition groupStep (lineGroups : gmap jsstring (list nat))
    (line : jsstring) (index : nat) : option (gmap jsstring (list nat)) :=
  let trimmed := trim line in
  if (10 <? length trimmed)%nat then
    if bool_decide (trimmed ∈ inheritedNames) then None
    else
      let group := default [] (lineGroups !! trimmed) in
      Some (<[trimmed := group ++ [S index]]> lineGroups)
  else Some lineGroups.

Fixpoint groupLines (lineGroups : gmap jsstring (list nat))
    (lines : list jsstring) (index : nat) : option (gmap jsstring (list nat)) :=
  match lines with
  | [] => Some lineGroups
  | line :: rest =>
      match groupStep lineGroups line index with
      | Some lineGroups' => groupLines lineGroups' rest (S index)
      | None => None
      end
  end.

(** [Object.values(lineGroups).filter(...).reduce(...)] *)
Definition countDuplicates (lineGroups : gmap jsstring (list nat)) : nat :=
  fold_left (fun sum group => (sum + length group - 1)%nat)
            (filter (fun group => (1 <? length group)%nat)
                    (map snd (map_to_list lineGroups)))
            0%nat.

(** The repeats of a group: its lines beyond the first. *)
Definition repeats (entry : jsstring * list nat) : nat := (length entry.2 - 1)%nat.


Inductive grade := A | B | C | D.

Record Metrics := {
  totalLines : nat;
  nonEmptyLines : nat;
  complexity : nat;
  longFunctions : nat;
  duplicateLines : nat
}.

(** The result of [analyzeCode]; of each issue only its [type] is
    kept, and the suggestions, one per issue, are left out. *)
Record Analysis := {
  qualityScore : Q;
  metrics : Metrics;
  issues : list string;
  analysisGrade : grade
}.

Definition scoreQuality (complexity duplicateLines longFunctions : nat) : Q :=
  Math_max 0 (Math_min 100
    (100 - num complexity * 8 - num duplicateLines * 3 - num longFunctions * 12)).

Definition ge (x y : Q) : bool := Qle_bool y x.

(** [analyzeCode]; [None] when it throws. *)
Definition analyzeCode (code : jsstring) : option Analysis :=
  let lines := split_lines code in
  let totalLines := length lines in
  let nonEmptyLines := length (filter (fun line => (0 <? length (trim line))%nat) lines) in
  let complexity :=
    fold_left (fun complexity pattern => (complexity + length (matchAll pattern code))%nat)
              complexityPatterns 0%nat in
  let longFunctions := length (matchAll longFunction code) in
  match groupLines ∅ lines 0 with
  | None => None
  | Some lineGroups =>
      let duplicateLines := countDuplicates lineGroups in
      let qualityScore := scoreQuality complexity duplicateLines longFunctions in
      Some {| qualityScore := qualityScore;
              metrics := {| totalLines := totalLines;
                            nonEmptyLines := nonEmptyLines;
                            complexity := complexity;
                            longFunctions := longFunctions;
                            duplicateLines := duplicateLines |};
              issues :=
                (if (10 <? complexity)%nat then ["high_complexity"%string] else [])
                ++ (if (0 <? longFunctions)%nat then ["long_function"%string] else [])
                ++ (if (5 <? duplicateLines)%nat then ["code_duplication"%string] else []);
              analysisGrade :=
                if ge qualityScore 80 then A
                else if ge qualityScore 60 then B
                else if ge qualityScore 40 then C
                else D |}
  end.

End Backend.

(** ** Shared records *)

Module QualityPattern.
Record t := {
  timestamp : Z;
  qualityScore : Q;
  sessionDuration : Q;
  linesAnalyzed : Q;
  filesModified : Q;
  issuesFound : Q;
  projectType : string;
  complexity : Q
}.
End QualityPattern.

Module ProjectMetrics.
Record t := {
  fileCount : Q;
  totalLines : Q;
  complexity : Q;
  projectType : string;
  languages : list string;
  hasTests : bool;
  hasDependencies : bool;
  gitActivity : Q
}.
End ProjectMetrics.

(** ** The regression model *)

Module LinearRegressionModel.
Import Js.

Record RiskFactors := { bugProbability : Q }.

Record PredictionOutput := {
  daily : Q;
  weekly : Q;
  confidence : Q;
  riskFactors : RiskFactors
}.

Record t := {
  weights : list Q;
  bias : Q;
  isTrained : bool
}.

(** The field initialisers of the class. *)
Definition init : t := {| weights := []; bias := 0; isTrained := false |}.

(** [typeMap[projectType] || 0], for the project types the analyzer
    produces. *)
Definition encodeProjectType (projectType : string) : Q :=
  if String.eqb projectType "JavaScript" then 1
  else if String.eqb projectType "TypeScript" then 2
  else if String.eqb projectType "Python" then 3
  else if String.eqb projectType "Java" then 4
  else if String.eqb projectType "C++" then 5
  else if String.eqb projectType "C#" then 6
  else if String.eqb projectType "Go" then 7
  else if String.eqb projectType "Rust" then 8
  else 0.

Definition calculatePredictionConfidence (dataPoints : nat) : Q :=
  if (dataPoints =? 0)%nat then 3 # 10
  else if (dataPoints <? 10)%nat then 5 # 10
  else if (dataPoints <? 50)%nat then 7 # 10
  else 9 # 10.

(** [predictValue]: the weight vector is either empty or as long as
    the feature vector, so the indexed loop pairs them up. *)
Definition predictValue (m : t) (features : list Q) : Q :=
  match weights m with
  | [] => 75
  | ws =>
      let prediction :=
        fold_left (fun prediction wf => prediction + fst wf * snd wf)
                  (combine ws features) (bias m) in
      Math_max 0 (Math_min 100 prediction)
  end.

(** Two models with the same weights and bias. *)
Definition sameParameters (a b : t) : Prop :=
  weights a = weights b /\ bias a = bias b.

Definition learningRate : Q := 1 # 100.
Definition epochs : nat := 100.

(** The body of the inner loop of [trainLinearRegression] for one
    example; every feature vector has [numFeatures] entries, as many as
    the weight vector. *)
Definition trainExample (m : t) (example : list Q * Q) : t :=
  let '(features_i, target) := example in
  let prediction := predictValue m features_i in
  let error := target - prediction in
  {| weights := map (fun wf => fst wf + learningRate * error * snd wf)
                    (combine (weights m) features_i);
     bias := bias m + learningRate * error;
     isTrained := isTrained m |}.

Definition trainLinearRegression (m : t) (features : list (list Q))
    (targets : list Q) : t :=
  let numFeatures := length (hd [] features) in
  let m0 := {| weights := repeat 0 numFeatures; bias := 0; isTrained := isTrained m |} in
  Nat.iter epochs (fun m => fold_left trainExample (combine features targets) m) m0.

(** [fallbackPrediction] *)
Definition fallbackPrediction (recentQuality : list QualityPattern.t) : PredictionOutput :=
  match recentQuality with
  | [] =>
      {| daily := 75; weekly := 75; confidence := 3 # 10;
         riskFactors := {| bugProbability := 20 |} |}
  | _ =>
      let avgQuality :=
        sumOf QualityPattern.qualityScore recentQuality / num (length recentQuality) in
      let avgIssues :=
        sumOf QualityPattern.issuesFound recentQuality / num (length recentQuality) in
      {| daily := Math_round avgQuality; weekly := Math_round avgQuality;
         confidence := 5 # 10;
         riskFactors := {| bugProbability := Math_min 100 (avgIssues * 15) |} |}
  end.

Section WithClock.
Variable LocalTZA : Z -> Z.

Definition getTimeOfDay (timestamp : Z) : Q :=
  inject_Z (getHours LocalTZA timestamp) / 24.

Definition getDayOfWeek (timestamp : Z) : Q :=
  inject_Z (getDay LocalTZA timestamp) / 7.

Definition extractFeatures (qualityHistory : list QualityPattern.t) : list (list Q) :=
  map (fun quality =>
         [QualityPattern.sessionDuration quality;
          QualityPattern.linesAnalyzed quality;
          QualityPattern.filesModified quality;
          QualityPattern.issuesFound quality;
          QualityPattern.complexity quality;
          encodeProjectType (QualityPattern.projectType quality);
          getTimeOfDay (QualityPattern.timestamp quality);
          getDayOfWeek (QualityPattern.timestamp quality)])
      qualityHistory.

(** [extractFeaturesFromCurrent]; [now] is the reading of the clock. *)
Definition extractFeaturesFromCurrent (now : Z)
    (recentQuality : list QualityPattern.t) (projectMetrics : ProjectMetrics.t)
    : list Q :=
  match recentQuality with
  | [] =>
      let c := ProjectMetrics.complexity projectMetrics in
      [0; 0; 0; 0; if Qeq_bool c 0 then 1 # 2 else c; 0; 0; 0]
  | _ =>
      let n := num (length recentQuality) in
      let latestProjectType :=
        match last recentQuality with
        | Some q =>
            if String.eqb (QualityPattern.projectType q) EmptyString then "Unknown"%string
            else QualityPattern.projectType q
        | None => "Unknown"%string
        end in
      [sumOf QualityPattern.sessionDuration recentQuality / n;
       sumOf QualityPattern.linesAnalyzed recentQuality / n;
       sumOf QualityPattern.filesModified recentQuality / n;
       sumOf QualityPattern.issuesFound recentQuality / n;
       sumOf QualityPattern.complexity recentQuality / n;
       encodeProjectType latestProjectType;
       getTimeOfDay now;
       getDayOfWeek now]
  end.

(** [train] *)
Definition train (m : t) (qualityHistory : list QualityPattern.t) : t :=
  if (length qualityHistory <? 5)%nat then m
  else
    let features := extractFeatures qualityHistory in
    let targets := map QualityPattern.qualityScore qualityHistory in
    let m' := trainLinearRegression m features targets in
    {| weights := weights m'; bias := bias m'; isTrained := true |}.

(** [predict] *)
Definition predict (m : t) (now : Z) (recentQuality : list QualityPattern.t)
    (projectMetrics : ProjectMetrics.t) : PredictionOutput :=
  if negb (isTrained m) || (length recentQuality =? 0)%nat then
    fallbackPrediction recentQuality
  else
    let features := extractFeaturesFromCurrent now recentQuality projectMetrics in
    let prediction := predictValue m features in
    let bugProbability := Math_max 0 (Math_min 100 ((100 - prediction) * (8 # 10))) in
    {| daily := Math_max 0 (Math_round prediction);
       weekly := Math_max 0 (Math_round prediction);
       confidence := calculatePredictionConfidence (length recentQuality);
       riskFactors := {| bugProbability := bugProbability |} |}.
End WithClock.

End LinearRegressionModel.

(** ** The time series model *)

Module TimeSeriesModel.
Import Js.

Inductive trendLabel := improving | declining | stable.

Record TimeSeriesPrediction := {
  daily : Q;
  weekly : Q;
  trend : trendLabel;
  seasonality : Q;
  confidence : Q
}.

Record t := {
  trendCoefficient : Q;
  seasonalFactors : list Q;
  isInitialized : bool
}.

Definition init : t :=
  {| trendCoefficient := 0; seasonalFactors := []; isInitialized := false |}.

(** The accumulators of [analyzeTrend]. *)
Record sums := { sumX : Q; sumY : Q; sumXY : Q; sumXX : Q }.

(** The [forEach] of [analyzeTrend], from the given [index] on. *)
Fixpoint accumulate (acc : sums) (index : nat) (scores : list Q) : sums :=
  match scores with
  | [] => acc
  | y :: rest =>
      accumulate {| sumX := sumX acc + num index;
                    sumY := sumY acc + y;
                    sumXY := sumXY acc + num index * y;
                    sumXX := sumXX acc + num index * num index |}
                 (S index) rest
  end.

(** The slope [analyzeTrend] stores in [trendCoefficient]. *)
Definition slope (scores : list Q) : Q :=
  if (length scores <? 2)%nat then 0
  else
    let n := num (length scores) in
    let acc := accumulate {| sumX := 0; sumY := 0; sumXY := 0; sumXX := 0 |} 0 scores in
    (n * sumXY acc - sumX acc * sumY acc) / (n * sumXX acc - sumX acc * sumX acc).

(** Scores that grow linearly with the index: the score at index [j]
    is [a + b * j], for the indices from [i] on. *)
Fixpoint linearFrom (a b : Q) (i : nat) (scores : list Q) : Prop :=
  match scores with
  | [] => True
  | y :: rest => y == a + b * num i /\ linearFrom a b (S i) rest
  end.

(** The sums of [j] and of [j * j] over the [n] indices from [i] on,
    in closed form. *)
Definition indexSum (i n : nat) : Q :=
  num n * num i + num n * (num n - 1) * (1 # 2).

Definition indexSquareSum (i n : nat) : Q :=
  num n * num i * num i + num i * num n * (num n - 1)
  + (num n - 1) * num n * (2 * num n - 1) * (1 # 6).

Definition analyzeTrend (m : t) (qualityHistory : list QualityPattern.t) : t :=
  {| trendCoefficient := slope (map QualityPattern.qualityScore qualityHistory);
     seasonalFactors := seasonalFactors m;
     isInitialized := isInitialized m |}.

Definition calculateConfidence (dataPoints : nat) : Q :=
  if (dataPoints <? 7)%nat then 3 # 10
  else if (dataPoints <? 30)%nat then 6 # 10
  else if (dataPoints <? 90)%nat then 8 # 10
  else 9 # 10.

Definition defaultPrediction : TimeSeriesPrediction :=
  {| daily := 75; weekly := 75; trend := stable; seasonality := 0;
     confidence := 3 # 10 |}.

Section WithClock.
Variable LocalTZA : Z -> Z.

Definition dayOfWeek (timestamp : Z) : nat := Z.to_nat (getDay LocalTZA timestamp).

(** The [forEach] of [analyzeSeasonality] over the two arrays of
    seven entries. *)
Definition seasonStep (st : list Q * list nat) (quality : QualityPattern.t)
    : list Q * list nat :=
  let '(factors, dailyCounts) := st in
  let d := dayOfWeek (QualityPattern.timestamp quality) in
  (<[d := default 0 (factors !! d) + QualityPattern.qualityScore quality]> factors,
   <[d := S (default 0%nat (dailyCounts !! d))]> dailyCounts).

Definition analyzeSeasonality (m : t) (qualityHistory : list QualityPattern.t) : t :=
  let '(factors, dailyCounts) :=
    fold_left seasonStep qualityHistory (repeat 0 7, repeat 0%nat 7) in
  {| trendCoefficient := trendCoefficient m;
     seasonalFactors :=
       imap (fun index sum =>
               let count := default 0%nat (dailyCounts !! index) in
               if (0 <? count)%nat then sum / num count else 75)
            factors;
     isInitialized := isInitialized m |}.

(** [train] *)
Definition train (m : t) (qualityHistory : list QualityPattern.t) : t :=
  if (length qualityHistory <? 7)%nat then m
  else
    let m1 := analyzeTrend m qualityHistory in
    let m2 := analyzeSeasonality m1 qualityHistory in
    {| trendCoefficient := trendCoefficient m2;
       seasonalFactors := seasonalFactors m2;
       isInitialized := true |}.

(** [calculateSeasonality]; [now] is the reading of the clock. *)
Definition calculateSeasonality (m : t) (now : Z) : Q :=
  match seasonalFactors m with
  | [] => 0
  | factors =>
      let avgSeasonal := sumOf (fun factor => factor) factors / 7 in
      default 0 (factors !! dayOfWeek now) - avgSeasonal
  end.

(** [predict] *)
Definition predict (m : t) (now : Z) (qualityHistory : list QualityPattern.t)
    : TimeSeriesPrediction :=
  if negb (isInitialized m) || (length qualityHistory =? 0)%nat then
    defaultPrediction
  else
    let recentQuality := slice_last 7 qualityHistory in
    let avgQuality :=
      sumOf QualityPattern.qualityScore recentQuality / num (length recentQuality) in
    let dailyPrediction := avgQuality + trendCoefficient m in
    let weeklyPrediction := avgQuality + trendCoefficient m * 7 in
    {| daily := Math_max 0 (Math_min 100 (Math_round dailyPrediction));
       weekly := Math_max 0 (Math_min 100 (Math_round weeklyPrediction));
       trend :=
         if gt (trendCoefficient m) 2 then improving
         else if lt (trendCoefficient m) (-2) then declining
         else stable;
       seasonality := calculateSeasonality m now;
       confidence := calculateConfidence (length qualityHistory) |}.
End WithClock.

End TimeSeriesModel.

(** ** The persistence adapter *)

Module DataStorage.
Import Js.

(** A value of type [any] that the store serialises. *)
Inductive json :=
| JNull
| JBool (b : bool)
| JNum (q : Q)
| JStr (s : string).

Inductive analysisDepth := fast | thorough | deep.

Record UserSettings := {
  qualityThreshold : Q;
  notificationThreshold : Q;
  enableAutoTracking : bool;
  enablePredictions : bool;
  depth : analysisDepth;
  lastSyncTime : Z
}.

Record ModelData := {
  regressionWeights : list Q;
  regressionBias : Q;
  timeSeriesData : json;
  lastTrainingTime : Z;
  trainingDataCount : Q
}.

Record SessionData := {
  id : string;
  startTime : Z;
  endTime : Z;
  qualityScore : Q;
  linesAnalyzed : Q;
  filesModified : list string;
  projectType : string;
  complexity : Q
}.

Record StoredData := {
  qualityHistory : list QualityPattern.t;
  userSettings : UserSettings;
  modelData : ModelData;
  sessionData : list SessionData
}.

(** What a key of the editor's [globalState] holds.  Each of the four
    keys of this class is written by its own save method only;
    [VOther] is the data of the keys this class only clears. *)
Inductive value :=
| VHistory (h : list QualityPattern.t)
| VSettings (s : UserSettings)
| VModel (m : ModelData)
| VSessions (s : list SessionData)
| VOther (j : json).

(** [context.globalState]; [update key undefined] removes the key. *)
Definition update (key : string) (v : option value)
    (globalState : gmap string value) : gmap string value :=
  match v with
  | Some v => <[key := v]> globalState
  | None => delete key globalState
  end.

Definition STORAGE_KEY : string := "codeQuality".
Definition MAX_HISTORY_ENTRIES : nat := 1000.
Definition MAX_SESSION_ENTRIES : nat := 100.

Definition key (name : string) : string := (STORAGE_KEY ++ "." ++ name)%string.

Definition saveQualityHistory (h : list QualityPattern.t)
    (globalState : gmap string value) : gmap string value :=
  let limitedHistory := slice_last MAX_HISTORY_ENTRIES h in
  update (key "qualityHistory") (Some (VHistory limitedHistory)) globalState.

Definition loadQualityHistory (globalState : gmap string value)
    : list QualityPattern.t :=
  match globalState !! key "qualityHistory" with
  | Some (VHistory history) => history
  | _ => []
  end.

Definition saveUserSettings (settings : UserSettings)
    (globalState : gmap string value) : gmap string value :=
  update (key "userSettings") (Some (VSettings settings)) globalState.

Definition defaultSettings : UserSettings :=
  {| qualityThreshold := 75; notificationThreshold := 50;
     enableAutoTracking := true; enablePredictions := true;
     depth := thorough; lastSyncTime := 0 |}.

(** The stored settings spread over the defaults: a stored record has
    every field, so it replaces every default. *)
Definition loadUserSettings (globalState : gmap string value) : UserSettings :=
  match globalState !! key "userSettings" with
  | Some (VSettings settings) => settings
  | _ => defaultSettings
  end.

Definition saveModelData (modelData : ModelData)
    (globalState : gmap string value) : gmap string value :=
  update (key "modelData") (Some (VModel modelData)) globalState.

(** [None] is [null]. *)
Definition loadModelData (globalState : gmap string value) : option ModelData :=
  match globalState !! key "modelData" with
  | Some (VModel modelData) => Some modelData
  | _ => None
  end.

Definition saveSessionData (sessionData : list SessionData)
    (globalState : gmap string value) : gmap string value :=
  let limitedSessions := slice_last MAX_SESSION_ENTRIES sessionData in
  update (key "sessionData") (Some (VSessions limitedSessions)) globalState.

Definition loadSessionData (globalState : gmap string value) : list SessionData :=
  match globalState !! key "sessionData" with
  | Some (VSessions sessions) => sessions
  | _ => []
  end.

Definition clearAllData (globalState : gmap string value) : gmap string value :=
  update (key "sessionData") None
    (update (key "modelData") None
      (update (key "userSettings") None
        (update (key "qualityHistory") None globalState))).

Definition defaultModelData : ModelData :=
  {| regressionWeights := []; regressionBias := 0; timeSeriesData := JNull;
     lastTrainingTime := 0; trainingDataCount := 0 |}.

Definition exportAllData (globalState : gmap string value) : StoredData :=
  let qualityHistory := loadQualityHistory globalState in
  let userSettings := loadUserSettings globalState in
  let modelData := loadModelData globalState in
  let sessionData := loadSessionData globalState in
  {| qualityHistory := qualityHistory;
     userSettings := userSettings;
     modelData := default defaultModelData modelData;
     sessionData := sessionData |}.

Definition importAllData (data : StoredData)
    (globalState : gmap string value) : gmap string value :=
  saveSessionData (sessionData data)
    (saveModelData (modelData data)
      (saveUserSettings (userSettings data)
        (saveQualityHistory (qualityHistory data) globalState))).

(** Truthiness of a stored value: records and arrays are objects. *)
Definition truthy (v : value) : bool :=
  match v with
  | VOther JNull => false
  | VOther (JBool b) => b
  | VOther (JNum q) => negb (Qeq_bool q 0)
  | VOther (JStr s) => negb (String.eqb s EmptyString)
  | _ => true
  end.

Definition migrateData (globalState : gmap string value) : gmap string value :=
  match globalState !! "windsuCredit.userSettings"%string with
  | Some oldSettings =>
      if truthy oldSettings then
        update "windsuCredit.modelData" None
          (update "windsuCredit.usageHistory" None
            (update "windsuCredit.userSettings" None globalState))
      else globalState
  | None => globalState
  end.

(** A store this class has not written to yet: none of its four keys
    is present. *)
Definition fresh (globalState : gmap string value) : Prop :=
  globalState !! key "qualityHistory" = None
  /\ globalState !! key "userSettings" = None
  /\ globalState !! key "modelData" = None
  /\ globalState !! key "sessionData" = None.

(** The size limits the save methods enforce, seen through the loads. *)
Definition bounded (globalState : gmap string value) : Prop :=
  (length (loadQualityHistory globalState) <= MAX_HISTORY_ENTRIES)%nat
  /\ (length (loadSessionData globalState) <= MAX_SESSION_ENTRIES)%nat.

(** The states of the store this class can bring about. *)
Inductive reachable : gmap string value -> Prop :=
| reach_fresh g : fresh g -> reachable g
| reach_migrate g : reachable g -> reachable (migrateData g)
| reach_history h g : reachable g -> reachable (saveQualityHistory h g)
| reach_settings s g : reachable g -> reachable (saveUserSettings s g)
| reach_model m g : reachable g -> reachable (saveModelData m g)
| reach_sessions s g : reachable g -> reachable (saveSessionData s g)
| reach_clear g : reachable g -> reachable (clearAllData g)
| reach_import d g : reachable g -> reachable (importAllData d g).

End DataStorage.

(** ** The session tracker *)

Module QualityTracker.
Import Js.

Record QualityActivity := {
  complexityIncreases : nat;
  duplicateCodeDetected : nat;
  longFunctionsAdded : bool;
  filesAnalyzed : nat;
  issuesFound : nat
}.

Record t := {
  isTracking : bool;
  sessionStart : Z;
  recentActivity : QualityActivity
}.

Definition noActivity : QualityActivity :=
  {| complexityIncreases := 0; duplicateCodeDetected := 0;
     longFunctionsAdded := false; filesAnalyzed := 0; issuesFound := 0 |}.

(** The tracker as its constructor leaves it; [now] is the reading of
    the clock. *)
Definition create (now : Z) : t :=
  {| isTracking := false; sessionStart := now; recentActivity := noActivity |}.

Definition startTracking (now : Z) (tr : t) : t :=
  {| isTracking := true; sessionStart := now; recentActivity := recentActivity tr |}.

Definition stopTracking (tr : t) : t :=
  {| isTracking := false; sessionStart := sessionStart tr;
     recentActivity := recentActivity tr |}.

Definition getRecentActivity (tr : t) : QualityActivity := recentActivity tr.

Definition recordQualityAnalysis (qualityScore : Q) (issues : nat) (tr : t) : t :=
  if negb (isTracking tr) then tr
  else
    let a := recentActivity tr in
    {| isTracking := isTracking tr; sessionStart := sessionStart tr;
       recentActivity :=
         {| complexityIncreases :=
              if lt qualityScore 50 then S (complexityIncreases a)
              else complexityIncreases a;
            duplicateCodeDetected := duplicateCodeDetected a;
            longFunctionsAdded := longFunctionsAdded a;
            filesAnalyzed := S (filesAnalyzed a);
            issuesFound := (issuesFound a + issues)%nat |} |}.

Definition recordDuplicateCode (count : nat) (tr : t) : t :=
  if negb (isTracking tr) then tr
  else
    let a := recentActivity tr in
    {| isTracking := isTracking tr; sessionStart := sessionStart tr;
       recentActivity :=
         {| complexityIncreases := complexityIncreases a;
            duplicateCodeDetected := (duplicateCodeDetected a + count)%nat;
            longFunctionsAdded := longFunctionsAdded a;
            filesAnalyzed := filesAnalyzed a;
            issuesFound := issuesFound a |} |}.

Definition recordLongFunction (tr : t) : t :=
  if negb (isTracking tr) then tr
  else
    let a := recentActivity tr in
    {| isTracking := isTracking tr; sessionStart := sessionStart tr;
       recentActivity :=
         {| complexityIncreases := complexityIncreases a;
            duplicateCodeDetected := duplicateCodeDetected a;
            longFunctionsAdded := true;
            filesAnalyzed := filesAnalyzed a;
            issuesFound := issuesFound a |} |}.

Definition resetSession (now : Z) (tr : t) : t :=
  {| isTracking := isTracking tr; sessionStart := now; recentActivity := noActivity |}.

(** [getSessionDuration]: whole minutes since the session started. *)
Definition getSessionDuration (now : Z) (tr : t) : Z :=
  ((now - sessionStart tr) / (1000 * 60))%Z.

(** [generateQualityPattern]; [now_d] and [now] are the readings of the
    clock for the duration and for the timestamp. *)
Definition generateQualityPattern (now_d now : Z) (projectType : string)
    (complexity : Q) (tr : t) : QualityPattern.t :=
  let a := recentActivity tr in
  {| QualityPattern.timestamp := now;
     QualityPattern.qualityScore := Math_max 0 (100 - num (issuesFound a) * 10);
     QualityPattern.sessionDuration := inject_Z (getSessionDuration now_d tr);
     QualityPattern.linesAnalyzed := num (filesAnalyzed a) * 50;
     QualityPattern.filesModified := num (filesAnalyzed a);
     QualityPattern.issuesFound := num (issuesFound a);
     QualityPattern.projectType := projectType;
     QualityPattern.complexity := complexity |}.

End QualityTracker.

(** ** The orchestrator *)

Module AnalysisEngine.
Import Js.

Record AnalysisResult := {
  overallQuality : Q;
  bugRisk : Q;
  maintainabilityScore : Q;
  performanceScore : Q;
  confidence : Q;
  recommendations : list string
}.

Record t := {
  regressionModel : LinearRegressionModel.t;
  timeSeriesModel : TimeSeriesModel.t;
  storage : gmap string DataStorage.value;
  qualityHistory : list QualityPattern.t
}.

(** The engine as its constructor leaves it, over the editor's store. *)
Definition init (globalState : gmap string DataStorage.value) : t :=
  {| regressionModel := LinearRegressionModel.init;
     timeSeriesModel := TimeSeriesModel.init;
     storage := globalState;
     qualityHistory := [] |}.

(** [loadHistoricalData]: the stored history, always an array, replaces
    the one in memory. *)
Definition loadHistoricalData (e : t) : t :=
  {| regressionModel := regressionModel e;
     timeSeriesModel := timeSeriesModel e;
     storage := storage e;
     qualityHistory := DataStorage.loadQualityHistory (storage e) |}.

(** [getRecentQuality]; [now] is the reading of the clock. *)
Definition getRecentQuality (e : t) (now : Z) : list QualityPattern.t :=
  let dayAgo := (now - 24 * 60 * 60 * 1000)%Z in
  filter (fun pattern => (dayAgo <? QualityPattern.timestamp pattern)%Z)
         (qualityHistory e).

Definition calculateQualityScore (recentQuality : list QualityPattern.t) : Q :=
  match recentQuality with
  | [] => 75
  | _ =>
      let avgQuality :=
        sumOf QualityPattern.qualityScore recentQuality / num (length recentQuality) in
      Math_round avgQuality
  end.

(** [riskFactors?.bugProbability || 0] is the probability itself. *)
Definition calculateBugRisk (riskFactors : LinearRegressionModel.RiskFactors)
    (complexity : Q) : Q :=
  let baseRisk := complexity * 30 in
  let factorRisk := LinearRegressionModel.bugProbability riskFactors in
  Math_min 100 (Math_max 0 (baseRisk + factorRisk)).

Definition calculateMaintainability (projectMetrics : ProjectMetrics.t)
    (recentQuality : list QualityPattern.t) : Q :=
  let complexityFactor := (1 - ProjectMetrics.complexity projectMetrics) * 10 in
  let qualityFactor := calculateQualityScore recentQuality / 10 in
  Math_round (Math_min 10 (Math_max 1 ((complexityFactor + qualityFactor) / 2))).

Definition calculatePerformance (projectMetrics : ProjectMetrics.t)
    (recentQuality : list QualityPattern.t) : Q :=
  let baseScore := 8 in
  let complexityPenalty := ProjectMetrics.complexity projectMetrics * 3 in
  Math_round (Math_min 10 (Math_max 1 (baseScore - complexityPenalty))).

Definition calculateConfidence (dataPoints : nat) : Q :=
  if (dataPoints =? 0)%nat then 5 # 10
  else if (dataPoints <? 10)%nat then 6 # 10
  else if (dataPoints <? 50)%nat then 8 # 10
  else 95 # 100.

Definition generateQualityRecommendations (recentQuality : list QualityPattern.t)
    (projectMetrics : ProjectMetrics.t) (bugRisk : Q) : list string :=
  (if gt bugRisk 50
   then ["High bug risk detected - consider refactoring complex functions"%string]
   else [])
  ++ (if gt (ProjectMetrics.complexity projectMetrics) (7 # 10)
      then ["Project complexity is high - break down large components"%string]
      else [])
  ++ (if existsb (fun q => gt (QualityPattern.issuesFound q) 5) recentQuality
      then ["Multiple issues found - implement stricter code review process"%string]
      else [])
  ++ ["Maintain consistent coding standards"%string;
      "Add comprehensive unit tests"%string].

Record QualityIssues := {
  probability : Q;
  severity : string;
  reason : jsstring
}.

(** [detectQualityIssues], on the project metrics and the tracker's
    recent activity: four checks in turn over [probability],
    [severity] and [reason]. *)
Definition detectQualityIssues (projectMetrics : ProjectMetrics.t)
    (recentActivity : QualityTracker.QualityActivity) : QualityIssues :=
  let '(probability, severity, reason) := (0, "low"%string, @nil N) in
  let '(probability, severity, reason) :=
    if (3 <? QualityTracker.complexityIncreases recentActivity)%nat
    then (probability + (3 # 10), severity, reason ++ str "Code complexity increasing. ")
    else (probability, severity, reason) in
  let '(probability, severity, reason) :=
    if (0 <? QualityTracker.duplicateCodeDetected recentActivity)%nat
    then (probability + (4 # 10), "medium"%string,
          reason ++ str "Code duplication detected. ")
    else (probability, severity, reason) in
  let '(probability, severity, reason) :=
    if QualityTracker.longFunctionsAdded recentActivity
    then (probability + (5 # 10), "high"%string, reason ++ str "Long functions added. ")
    else (probability, severity, reason) in
  let '(probability, severity, reason) :=
    if gt (ProjectMetrics.complexity projectMetrics) (7 # 10)
    then (probability + (3 # 10), severity, reason ++ str "High project complexity. ")
    else (probability, severity, reason) in
  {| probability := Math_min 1 (Math_max 0 probability);
     severity := severity;
     reason :=
       match trim reason with
       | [] => str "No specific quality issues detected"
       | trimmed => trimmed
       end |}.

(** [exportAnalytics] *)
Record Analytics := {
  totalAnalyses : nat;
  averageQuality : Q;
  analyticsTrend : string;
  lastAnalysis : Z
}.

Definition exportAnalytics (e : t) : Analytics :=
  {| totalAnalyses := length (qualityHistory e);
     averageQuality := calculateQualityScore (qualityHistory e);
     analyticsTrend :=
       if (1 <? length (qualityHistory e))%nat then "improving"%string
       else "stable"%string;
     lastAnalysis :=
       match last (qualityHistory e) with
       | Some pattern => QualityPattern.timestamp pattern
       | None => 0%Z
       end |}.

Section WithClock.
Variable LocalTZA : Z -> Z.

(** [generateAnalysis].  [projectMetrics] is what the project
    analyzer returns; [now], [now_r] and [now_t] are the readings of
    the clock taken by [getRecentQuality], by the regression model
    and by the time series model. *)
Definition generateAnalysis (e : t) (projectMetrics : ProjectMetrics.t)
    (now now_r now_t : Z) : AnalysisResult :=
  let recentQuality := getRecentQuality e now in
  let overallQuality := calculateQualityScore recentQuality in
  let regressionAnalysis :=
    LinearRegressionModel.predict LocalTZA (regressionModel e) now_r
      recentQuality projectMetrics in
  let trendAnalysis :=
    TimeSeriesModel.predict LocalTZA (timeSeriesModel e) now_t (qualityHistory e) in
  let bugRisk :=
    calculateBugRisk (LinearRegressionModel.riskFactors regressionAnalysis)
                     (ProjectMetrics.complexity projectMetrics) in
  let maintainabilityScore := calculateMaintainability projectMetrics recentQuality in
  let performanceScore := calculatePerformance projectMetrics recentQuality in
  let confidence := calculateConfidence (length recentQuality) in
  let recommendations :=
    generateQualityRecommendations recentQuality projectMetrics bugRisk in
  {| overallQuality := overallQuality;
     bugRisk := bugRisk;
     maintainabilityScore := maintainabilityScore;
     performanceScore := performanceScore;
     confidence := confidence;
     recommendations := recommendations |}.

(** [updateModels] *)
Definition updateModels (e : t) : t :=
  if (10 <? length (qualityHistory e))%nat then
    {| regressionModel :=
         LinearRegressionModel.train LocalTZA (regressionModel e) (qualityHistory e);
       timeSeriesModel :=
         TimeSeriesModel.train LocalTZA (timeSeriesModel e) (qualityHistory e);
       storage := storage e;
       qualityHistory := qualityHistory e |}
  else e.

(** [recordQuality] *)
Definition recordQuality (e : t) (pattern : QualityPattern.t) : t :=
  let pushed := qualityHistory e ++ [pattern] in
  let history :=
    if (1000 <? length pushed)%nat then slice_last 1000 pushed else pushed in
  updateModels
    {| regressionModel := regressionModel e;
       timeSeriesModel := timeSeriesModel e;
       storage := DataStorage.saveQualityHistory history (storage e);
       qualityHistory := history |}.

(** The engine after a sequence of [recordQuality] calls. *)
Definition recordAll (e : t) (patterns : list QualityPattern.t) : t :=
  fold_left recordQuality patterns e.
End WithClock.

End AnalysisEngine.

(** ** Sample data *)

Module Scenario.
Import Js.

(** A host on UTC. *)
Definition utc : Z -> Z := fun _ => 0%Z.

(** 2024-01-01T12:00:00Z *)
Definition day0 : Z := 1704110400000%Z.

(** Sample [i] of a run of daily samples whose scores rise by 30/11 a
    day, from 60 on day 0 to 90 on day 11. *)
Definition trendSample (i : nat) : QualityPattern.t :=
  {| QualityPattern.timestamp := (day0 + Z.of_nat i * 86400000)%Z;
     QualityPattern.qualityScore := 60 + (30 # 11) * num i;
     QualityPattern.sessionDuration := 45;
     QualityPattern.linesAnalyzed := 200;
     QualityPattern.filesModified := 3;
     QualityPattern.issuesFound := 1;
     QualityPattern.projectType := "TypeScript";
     QualityPattern.complexity := 1 # 2 |}.

Definition trendSamples (n : nat) : list QualityPattern.t := map trendSample (seq 0 n).

(** Sample [i] of a run of daily samples whose scores are the integers
    [a + b * i]. *)
Definition stepSample (a b : Z) (i : nat) : QualityPattern.t :=
  {| QualityPattern.timestamp := (day0 + Z.of_nat i * 86400000)%Z;
     QualityPattern.qualityScore := inject_Z (a + b * Z.of_nat i);
     QualityPattern.sessionDuration := 45;
     QualityPattern.linesAnalyzed := 200;
     QualityPattern.filesModified := 3;
     QualityPattern.issuesFound := 1;
     QualityPattern.projectType := "TypeScript";
     QualityPattern.complexity := 1 # 2 |}.

Definition stepSamples (a b : Z) (n : nat) : list QualityPattern.t :=
  map (stepSample a b) (seq 0 n).

(** A function of [n + 2] lines: the head, [n] statements, the closing
    brace. *)
Definition functionOfLines (n : nat) : jsstring :=
  str "function total(a, b) {" ++ [LF]
  ++ concat (repeat (str "  a += b;" ++ [LF]) n) ++ str "}".

(** [getDefaultMetrics] of the project analyzer. *)
Definition defaultMetrics : ProjectMetrics.t :=
  {| ProjectMetrics.fileCount := 1;
     ProjectMetrics.totalLines := 100;
     ProjectMetrics.complexity := 1 # 2;
     ProjectMetrics.projectType := "Unknown";
     ProjectMetrics.languages := ["Unknown"%string];
     ProjectMetrics.hasTests := false;
     ProjectMetrics.hasDependencies := false;
     ProjectMetrics.gitActivity := 1 # 2 |}.
End Scenario.

(** ** The pattern detector class *)

Module CodePatternDetector.
Import Js.

(** [hasLongFunctions] *)
Definition hasLongFunctions (text : jsstring) : bool :=
  existsb (fun func => (20 <? length (split_lines func))%nat)
          (matchAll Extension.jsFunction text).

(** [KEYWORD\s*\(] *)
Definition call (kw : string) : regex :=
  seqs [lit (str kw); star space; Extension.lparen].

(** [/if\s*\(|for\s*\(|while\s*\(/g] *)
Definition complexityIndicator : regex :=
  Alt (call "if") (Alt (call "for") (call "while")).

(** The [linesOfCode] of [calculateQualityScore]: the lines that are not
    blank. *)
Definition linesOfCode (text : jsstring) : nat :=
  let lines := split_lines text in
  length (filter (fun line => (0 <? length (trim line))%nat) lines).

(** [calculateQualityScore] of the class. *)
Definition calculateQualityScore (text : jsstring) : Q :=
  let linesOfCode := linesOfCode text in
  let score := 100 in
  let score := if (500 <? linesOfCode)%nat then score - 10 else score in
  let score := if (1000 <? linesOfCode)%nat then score - 20 else score in
  let complexityIndicators := length (matchAll complexityIndicator text) in
  let score := score - Math_min 30 (num complexityIndicators * 2) in
  Math_max 0 (Math_min 100 score).

(** [detectPatterns], on the text of the document and the tracker. *)
Definition detectPatterns (text : jsstring) (tracker : QualityTracker.t)
    : QualityTracker.t :=
  let issuesFound := 0%nat in
  let '(tracker, issuesFound) :=
    if hasLongFunctions text
    then (QualityTracker.recordLongFunction tracker, S issuesFound)
    else (tracker, issuesFound) in
  let duplicateCount := Extension.findDuplicatePatterns text in
  let '(tracker, issuesFound) :=
    if (0 <? duplicateCount)%nat
    then (QualityTracker.recordDuplicateCode duplicateCount tracker,
          (issuesFound + duplicateCount)%nat)
    else (tracker, issuesFound) in
  let qualityScore := calculateQualityScore text in
  QualityTracker.recordQualityAnalysis qualityScore issuesFound tracker.

(** The tracker after [detectPatterns] on each of the texts in turn. *)
Definition detectAll (texts : list jsstring) (tracker : QualityTracker.t)
    : QualityTracker.t :=
  fold_left (fun tracker text => detectPatterns text tracker) texts tracker.

(** [analyzeFileChanges]: an event without content changes is dropped. *)
Definition analyzeFileChanges (changes : nat) (text : jsstring)
    (tracker : QualityTracker.t) : QualityTracker.t :=
  if (changes =? 0)%nat then tracker else detectPatterns text tracker.

End CodePatternDetector.

(** ** The project analyzer *)

Module ProjectAnalyzer.
Import Js.

(** [table[key] || 0.5] *)
Fixpoint lookupOr (table : list (string * Q)) (key : string) : Q :=
  match table with
  | [] => 1 # 2
  | (k, v) :: rest => if String.eqb k key then v else lookupOr rest key
  end.

Definition languageComplexityMap : list (string * Q) :=
  [("TypeScript", 9 # 10); ("C++", 95 # 100); ("Java", 8 # 10); ("C#", 8 # 10);
   ("JavaScript", 6 # 10); ("Python", 5 # 10); ("Go", 7 # 10); ("Rust", 9 # 10);
   ("HTML", 2 # 10); ("CSS", 3 # 10); ("Unknown", 5 # 10)]%string.

Definition getLanguageComplexity (languages : list string) : Q :=
  sumOf (lookupOr languageComplexityMap) languages / num (length languages).

Definition projectTypeComplexityMap : list (string * Q) :=
  [("React", 8 # 10); ("Angular", 9 # 10); ("Vue.js", 7 # 10); ("Next.js", 8 # 10);
   ("TypeScript", 7 # 10); ("Node.js", 6 # 10); ("Python", 5 # 10); ("Java", 8 # 10);
   ("Unknown", 5 # 10)]%string.

Definition getProjectTypeComplexity (projectType : string) : Q :=
  lookupOr projectTypeComplexityMap projectType.

(** The argument of [calculateComplexity]. *)
Record Factors := {
  fileCount : nat;
  totalLines : nat;
  projectType : string;
  languages : list string;
  hasTests : bool;
  hasDependencies : bool;
  gitActivity : Q
}.

(** [calculateComplexity] *)
Definition calculateComplexity (factors : Factors) : Q :=
  let complexity := 0 in
  let complexity := complexity + Math_min (num (fileCount factors) / 100) (3 # 10) in
  let complexity := complexity + Math_min (num (totalLines factors) / 10000) (2 # 10) in
  let complexity := complexity + getLanguageComplexity (languages factors) * (25 # 100) in
  let complexity :=
    complexity + getProjectTypeComplexity (projectType factors) * (15 # 100) in
  let complexity :=
    if hasDependencies factors then complexity + (1 # 10) else complexity in
  Math_min complexity 1.

(** The record [performAnalysis] builds from the seven results of the
    traversal. *)
Definition metricsOf (factors : Factors) : ProjectMetrics.t :=
  {| ProjectMetrics.fileCount := num (fileCount factors);
     ProjectMetrics.totalLines := num (totalLines factors);
     ProjectMetrics.complexity := calculateComplexity factors;
     ProjectMetrics.projectType := projectType factors;
     ProjectMetrics.languages := languages factors;
     ProjectMetrics.hasTests := hasTests factors;
     ProjectMetrics.hasDependencies := hasDependencies factors;
     ProjectMetrics.gitActivity := gitActivity factors |}.

Definition getDefaultMetrics : ProjectMetrics.t := Scenario.defaultMetrics.

Definition normalizeFileCount (count : Q) : Q := Math_min (count / 200) 1.
Definition normalizeLineCount (lines : Q) : Q := Math_min (lines / 50000) 1.
Definition normalizeGitActivity (activity : Q) : Q := activity.

(** The factors of [getComplexityBreakdown]: name, score and weight. *)
Definition breakdownFactors (metrics : ProjectMetrics.t) : list (string * Q * Q) :=
  [("File Count", normalizeFileCount (ProjectMetrics.fileCount metrics), 15 # 100);
   ("Lines of Code", normalizeLineCount (ProjectMetrics.totalLines metrics), 10 # 100);
   ("Language Complexity", getLanguageComplexity (ProjectMetrics.languages metrics),
    25 # 100);
   ("Dependencies", if ProjectMetrics.hasDependencies metrics then 8 # 10 else 2 # 10,
    15 # 100);
   ("Testing Setup", if ProjectMetrics.hasTests metrics then 6 # 10 else 9 # 10,
    10 # 100);
   ("Git Activity", normalizeGitActivity (ProjectMetrics.gitActivity metrics), 15 # 100);
   ("Project Type", getProjectTypeComplexity (ProjectMetrics.projectType metrics),
    10 # 100)]%string.

(** The [overall] of [getComplexityBreakdown]. *)
Definition breakdownOverall (metrics : ProjectMetrics.t) : Q :=
  let overall := sumOf (fun factor => snd (fst factor) * snd factor)
                       (breakdownFactors metrics) in
  Math_round (overall * 100) / 100.

(** The cache of the analyzer. *)
Record t := {
  cachedMetrics : option ProjectMetrics.t;
  lastAnalysisTime : Z
}.

Definition init : t := {| cachedMetrics := None; lastAnalysisTime := 0 |}.

Definition cacheValidityMs : Z := (5 * 60 * 1000)%Z.

(** What the editor and the file system present to one call of
    [analyzeCurrentProject]: no workspace folder, a traversal that
    throws, or the metrics of the traversal. *)
Inductive workspace :=
| NoWorkspace
| AnalysisFails
| Analyzed (metrics : ProjectMetrics.t).

(** [analyzeCurrentProject]: the new state of the cache and the metrics
    returned; [now] is the reading of the clock. *)
Definition analyzeCurrentProject (now : Z) (ws : workspace) (a : t)
    : t * ProjectMetrics.t :=
  match cachedMetrics a with
  | Some cached =>
      if (now - lastAnalysisTime a <? cacheValidityMs)%Z then (a, cached)
      else
        match ws with
        | NoWorkspace => (a, getDefaultMetrics)
        | AnalysisFails => (a, getDefaultMetrics)
        | Analyzed metrics =>
            ({| cachedMetrics := Some metrics; lastAnalysisTime := now |}, metrics)
        end
  | None =>
      match ws with
      | NoWorkspace => (a, getDefaultMetrics)
      | AnalysisFails => (a, getDefaultMetrics)
      | Analyzed metrics =>
          ({| cachedMetrics := Some metrics; lastAnalysisTime := now |}, metrics)
      end
  end.

(** [shouldIgnoreDir] *)
Definition ignoreDirs : list jsstring :=
  map str ["node_modules"; ".git"; "dist"; "build"; "coverage"; "__pycache__";
           ".vscode"; ".idea"]%string.

Definition shouldIgnoreDir (dirName : jsstring) : bool :=
  bool_decide (dirName ∈ ignoreDirs) || startsWith dirName (str ".").

Record CascadePotential := {
  probability : Q;
  reasons : list string;
  estimatedFiles : Q
}.

(** One rule of [analyzeCascadePotential] over the state
    ([probability], [reasons], [estimatedFiles]): when it fires it
    adds its weight, pushes its reason and adds its files. *)
Definition rule (fires : bool) (weight : Q) (reason : string) (files : Q)
    (st : Q * list string * Q) : Q * list string * Q :=
  let '(probability, reasons, estimatedFiles) := st in
  if fires then (probability + weight, reasons ++ [reason], estimatedFiles + files)
  else st.

(** [/import.*from/g] and [/export/g] *)
Definition importFrom : regex := seqs [lit (str "import"); star dot; lit (str "from")].
Definition exportWord : regex := lit (str "export").

(** [analyzeCascadePotential], on the base name and the extension of
    the path and on the content read, [None] when the file could not be
    read or is larger than 1 MB. *)
Definition analyzeCascadePotential (fileName fileExtension : jsstring)
    (fileContent : option jsstring) : CascadePotential :=
  let st := (0, @nil string, 1) in
  let st := rule (bool_decide (fileName = str "package.json")) (8 # 10)
              "Package.json changes often trigger dependency updates" 15 st in
  let st := rule (includes fileName (str "config") || includes fileName (str "webpack")
                  || includes fileName (str "tsconfig")) (6 # 10)
              "Configuration files affect multiple files" 8 st in
  let st := rule (includes fileName (str "types.ts")
                  || includes fileName (str "interfaces.ts")) (5 # 10)
              "Type definitions affect multiple files" 10 st in
  let st :=
    match fileContent with
    | None | Some [] => st
    | Some content =>
        let importMatches := length (matchAll importFrom content) in
        let exportMatches := length (matchAll exportWord content) in
        let st := rule (5 <? importMatches)%nat (3 # 10)
                    "File has many imports - changes may affect dependencies"
                    (num importMatches * (5 # 10)) st in
        let st := rule (3 <? exportMatches)%nat (4 # 10)
                    "File exports many items - changes may affect consumers"
                    (num exportMatches * 2) st in
        let st := rule (includes content (str "interface ")
                        || includes content (str "type ")) (3 # 10)
                    "Type definitions can cascade to dependent files" 0 st in
        rule (includes content (str "const enum") || includes content (str "enum "))
             (4 # 10) "Enum changes often cascade to usage sites" 0 st
    end in
  let st :=
    if bool_decide (fileExtension ∈ map str [".ts"; ".tsx"; ".d.ts"]%string)
    then rule true (2 # 10) "TypeScript files have higher cascade potential" 0 st
    else rule (bool_decide (fileExtension
                            ∈ map str [".js"; ".jsx"; ".vue"; ".svelte"]%string))
              (1 # 10) "JavaScript files may affect dependent files" 0 st in
  let '(probability, reasons, estimatedFiles) := st in
  {| probability := Math_min probability 1;
     reasons := reasons;
     estimatedFiles := Math_round estimatedFiles |}.

(** [detectProjectType], on the names present in the root folder and
    on the names of the dependencies of [package.json] whose value is
    truthy ([None] when the file cannot be read or parsed). *)
Definition detectProjectType (rootFiles : list string) (allDeps : option (list string))
    : string :=
  if bool_decide ("package.json"%string ∈ rootFiles) then
    match allDeps with
    | Some allDeps =>
        if bool_decide ("react"%string ∈ allDeps) then "React"
        else if bool_decide ("vue"%string ∈ allDeps) then "Vue.js"
        else if bool_decide ("angular"%string ∈ allDeps)
                || bool_decide ("@angular/core"%string ∈ allDeps) then "Angular"
        else if bool_decide ("next"%string ∈ allDeps) then "Next.js"
        else if bool_decide ("nuxt"%string ∈ allDeps) then "Nuxt.js"
        else if bool_decide ("express"%string ∈ allDeps) then "Express.js"
        else if bool_decide ("typescript"%string ∈ allDeps) then "TypeScript"
        else "Node.js"
    | None => "Unknown"
    end
  else if bool_decide ("requirements.txt"%string ∈ rootFiles) then "Python"
  else if bool_decide ("Cargo.toml"%string ∈ rootFiles) then "Rust"
  else if bool_decide ("go.mod"%string ∈ rootFiles) then "Go"
  else if bool_decide ("pom.xml"%string ∈ rootFiles) then "Java"
  else "Unknown".

Definition languageMap : list (string * string) :=
  [(".js", "JavaScript"); (".ts", "TypeScript"); (".tsx", "TypeScript");
   (".jsx", "JavaScript"); (".py", "Python"); (".java", "Java"); (".cpp", "C++");
   (".c", "C"); (".cs", "C#"); (".go", "Go"); (".rs", "Rust"); (".php", "PHP");
   (".rb", "Ruby"); (".swift", "Swift"); (".kt", "Kotlin"); (".html", "HTML");
   (".css", "CSS"); (".scss", "SCSS"); (".less", "LESS"); (".vue", "Vue");
   (".svelte", "Svelte")]%string.

(** [languageMap[ext]], [None] for [undefined]. *)
Fixpoint languageOf (table : list (string * string)) (ext : string) : option string :=
  match table with
  | [] => None
  | (k, v) :: rest => if String.eqb k ext then Some v else languageOf rest ext
  end.

(** [detectLanguages], on the distinct extensions of the files as
    [path.extname] gives them, in the order met ([None] when the
    traversal throws). *)
Definition detectLanguages (extensions : option (list string)) : list string :=
  match extensions with
  | Some extensions =>
      let languages := omap (languageOf languageMap) extensions in
      if (0 <? length languages)%nat then languages else ["Unknown"%string]
  | None => ["Unknown"%string]
  end.

(** [checkForDependencies] *)
Definition dependencyFiles : list string :=
  ["package.json"; "requirements.txt"; "Cargo.toml"; "go.mod"; "pom.xml";
   "composer.json"]%string.

Definition checkForDependencies (rootFiles : list string) : bool :=
  existsb (fun file => bool_decide (file ∈ rootFiles)) dependencyFiles.

(** [analyzeGitActivity], on the number of sampled files modified in
    the last week; [None] when the folder is no git repository or the
    traversal throws. *)
Definition analyzeGitActivity (recentFiles : option nat) : Q :=
  match recentFiles with
  | Some recentFiles => Math_min (num recentFiles / 10) 1
  | None => 5 # 10
  end.

(** [performAnalysis], on what the traversal of the root folder finds. *)
Definition performAnalysis (fileCount totalLines : nat) (rootFiles : list string)
    (allDeps : option (list string)) (extensions : option (list string))
    (hasTests : bool) (recentFiles : option nat) : ProjectMetrics.t :=
  metricsOf {| fileCount := fileCount;
               totalLines := totalLines;
               projectType := detectProjectType rootFiles allDeps;
               languages := detectLanguages extensions;
               hasTests := hasTests;
               hasDependencies := checkForDependencies rootFiles;
               gitActivity := analyzeGitActivity recentFiles |}.

End ProjectAnalyzer.

(** ** The server's analysis *)

Module Server.
Import Js.

(** [/if\s*\(|for\s*\(|while\s*\(|switch\s*\(/g] *)
Definition complexityIndicator : regex :=
  Alt (CodePatternDetector.call "if")
      (Alt (CodePatternDetector.call "for")
           (Alt (CodePatternDetector.call "while") (CodePatternDetector.call "switch"))).

(** The server's own [findDuplicateLines]: the extension's loop. *)
Definition findDuplicateLines (lines : list jsstring) : nat :=
  snd (fold_left Extension.dupStep lines (∅, 0%nat)).

Record Analysis := {
  qualityScore : Q;
  bugRisk : Q;
  maintainability : Q;
  performance : Q;
  complexity : Q;
  linesOfCode : nat;
  issues : list string;
  recommendations : list string
}.

(** [performCodeAnalysis] *)
Definition performCodeAnalysis (code : jsstring) : Analysis :=
  let lines := split_lines code in
  let linesOfCode := length (filter (fun line => (0 <? length (trim line))%nat) lines) in
  let complexityIndicators := length (matchAll complexityIndicator code) in
  let complexity := Math_min 10 (num complexityIndicators / 10) in
  let duplicateLines := findDuplicateLines lines in
  let qualityScore :=
    Math_max 0 (Math_min 100 (100 - complexity * 10 - num duplicateLines * 5)) in
  {| qualityScore := Math_round qualityScore;
     bugRisk := Math_min 100 (complexity * 15 + num duplicateLines * 3);
     maintainability := Math_max 1 (Math_min 10 (10 - complexity * 2));
     performance := Math_max 1 (Math_min 10 (10 - complexity * (15 # 10)));
     complexity := complexity;
     linesOfCode := linesOfCode;
     issues :=
       (if (0 <? duplicateLines)%nat then ["Code duplication detected"%string] else [])
       ++ (if gt complexity 5 then ["High complexity detected"%string] else []);
     recommendations :=
       ["Keep functions under 20 lines"; "Avoid code duplication";
        "Use consistent naming conventions"]%string |}.

End Server.

(** * Verification *)

(** ** The matcher on sample texts *)

Section MatcherExamples.
Import Js.

Example complexity_counts :
  map (fun text => Extension.complexityCount (str text))
      ["if (x) { for(;;) {} } else { a ? b : c }"; EmptyString; "elif (x)"; "if
  (x)"; "a ? b
 : c"; "?:?:"; "? ? : :"; "a ?? b : c";
       "if(a)if (b) while (c) switch(d){} catch (e) {} iffy(x) _if(x) 9for(x)"]%string
  = [4; 1; 1; 2; 2; 3; 2; 2; 6]%nat.
Proof. vm_compute. reflexivity. Qed.

Example long_function_counts :
  Extension.findLongFunctions (Scenario.functionOfLines 19) Extension.ExtJs = 1%nat
  /\ Extension.findLongFunctions (Scenario.functionOfLines 18) Extension.ExtJs = 0%nat
  /\ Extension.findLongFunctions (Scenario.functionOfLines 19) Extension.ExtTs = 1%nat
  /\ Extension.findLongFunctions (Scenario.functionOfLines 19) Extension.ExtPy = 0%nat
  /\ Extension.findLongFunctions (Scenario.functionOfLines 19) Extension.ExtOther = 0%nat.
Proof. vm_compute. repeat split. Qed.

Example backend_metrics :
  option_map Backend.metrics
    (Backend.analyzeCode (str "if (a) else try {
hello world!!
  hello world!!
hello world!!
iffy for_ x.for y-while"))
  = Some {| Backend.totalLines := 5; Backend.nonEmptyLines := 5;
            Backend.complexity := 5; Backend.longFunctions := 0;
            Backend.duplicateLines := 2 |}.
Proof. vm_compute. reflexivity. Qed.

(** A line that is the name of an inherited property makes the backend
    throw. *)
Example backend_throws_on_inherited_name :
  Backend.analyzeCode (str "  constructor") = None.
Proof. vm_compute. reflexivity. Qed.
End MatcherExamples.

Section NumberFacts.
Import Js.

Lemma Math_round_comp (x y : Q) : x == y -> Math_round x = Math_round y.
Proof.
  intros H. unfold Math_round. f_equal. apply Qfloor_comp. rewrite H. reflexivity.
Qed.

Lemma Qfloor_half (z : Z) : Qfloor (inject_Z z + (1 # 2)) = z.
Proof.
  assert (Hlo : (z <= Qfloor (inject_Z z + (1 # 2)))%Z).
  { rewrite <- (Qfloor_Z z) at 1. apply Qfloor_resp_le. lra. }
  assert (Hhi : (Qfloor (inject_Z z + (1 # 2)) < z + 1)%Z).
  { rewrite Zlt_Qlt. eapply Qle_lt_trans; [apply Qfloor_le|].
    rewrite inject_Z_plus. change (inject_Z 1) with 1. lra. }
  lia.
Qed.

Lemma Math_round_inject (z : Z) : Math_round (inject_Z z) = inject_Z z.
Proof. unfold Math_round. now rewrite Qfloor_half. Qed.

Lemma Math_round_bounds (a b : Z) (x : Q) :
  inject_Z a <= x -> x <= inject_Z b ->
  inject_Z a <= Math_round x /\ Math_round x <= inject_Z b.
Proof.
  intros Ha Hb. unfold Math_round. split; rewrite <- Zle_Qle.
  - rewrite <- (Qfloor_half a). apply Qfloor_resp_le. lra.
  - rewrite <- (Qfloor_half b). apply Qfloor_resp_le. lra.
Qed.

Lemma num_nonneg (n : nat) : 0 <= num n.
Proof. unfold num. change 0 with (inject_Z 0). rewrite <- Zle_Qle. lia. Qed.

Lemma clamp_bounds (lo hi x : Q) :
  lo <= hi -> lo <= Math_max lo (Math_min hi x) /\ Math_max lo (Math_min hi x) <= hi.
Proof.
  intros H. unfold Math_max, Math_min. split.
  - apply Q.le_max_l.
  - apply Q.max_lub; [exact H | apply Q.le_min_l].
Qed.

Lemma clamp_id (lo hi x : Q) :
  lo <= x -> x <= hi -> Math_max lo (Math_min hi x) == x.
Proof.
  intros Hlo Hhi. unfold Math_max, Math_min.
  rewrite (Q.min_r hi x) by exact Hhi. apply Q.max_r. exact Hlo.
Qed.
End NumberFacts.

Section Integers.
Import Js.


Lemma isInteger_round (x : Q) : isInteger (Math_round x).
Proof. now exists (Qfloor (x + (1 # 2))). Qed.

Lemma round_of_integer (x : Q) : isInteger x -> Math_round x == x.
Proof.
  intros [z Hz]. rewrite (Math_round_comp _ _ Hz), Math_round_inject.
  symmetry. exact Hz.
Qed.

Lemma isInteger_min (x y : Q) : isInteger x -> isInteger y -> isInteger (Math_min x y).
Proof.
  intros [a Ha] [b Hb]. unfold Math_min.
  destruct (Q.min_spec x y) as [[_ H] | [_ H]]; [exists a | exists b]; now rewrite H.
Qed.

Lemma isInteger_max (x y : Q) : isInteger x -> isInteger y -> isInteger (Math_max x y).
Proof.
  intros [a Ha] [b Hb]. unfold Math_max.
  destruct (Q.max_spec x y) as [[_ H] | [_ H]]; [exists b | exists a]; now rewrite H.
Qed.

Lemma isInteger_Z (z : Z) : isInteger (inject_Z z).
Proof. now exists z. Qed.
End Integers.

Section ScorerFacts.
Import Js Extension.

Lemma rawQuality_integer (c : Q) (k d l : nat) :
  c == num k / 10 -> isInteger (rawQuality c d l).
Proof.
  intros Hc. exists (100 - Z.of_nat k - Z.of_nat d * 5 - Z.of_nat l * 15)%Z.
  unfold rawQuality, num. rewrite Hc.
  unfold Z.sub. rewrite !inject_Z_plus, !inject_Z_opp, !inject_Z_mult.
  change (inject_Z 100) with 100. change (inject_Z 5) with 5.
  change (inject_Z 15) with 15. unfold num. field.
Qed.

(** C1. For every metric bundle with complexity in [0,10] (the counts
  are natural numbers), the quality score the scorer computes adds up
  to 100 with the penalty whenever the unclamped value lies in
  [0,100], and it always lies in [0,100].  The score handed back to
  the caller is this value rounded: it lies in [0,100] too, and it is
  the same number for every complexity that is a count of tenths, as
  the complexity metric always is. *)
Theorem quality_score_identity (c : Q) (d l loc : nat) :
  0 <= c -> c <= 10 ->
  (0 <= rawQuality c d l -> rawQuality c d l <= 100 ->
     scoreQuality c d l + (c * 10 + num d * 5 + num l * 15) == 100)
  /\ (0 <= scoreQuality c d l /\ scoreQuality c d l <= 100)
  /\ (0 <= qualityScore (score loc c d l) /\ qualityScore (score loc c d l) <= 100)
  /\ (forall k : nat, c == num k / 10 ->
        qualityScore (score loc c d l) == scoreQuality c d l).
Proof.
  intros Hc0 Hc10. repeat split.
  - intros Hlo Hhi. unfold scoreQuality. rewrite clamp_id by assumption.
    unfold rawQuality. ring.
  - apply (clamp_bounds 0 100). lra.
  - apply (clamp_bounds 0 100). lra.
  - apply (Math_round_bounds 0 100); apply (clamp_bounds 0 100); lra.
  - apply (Math_round_bounds 0 100); apply (clamp_bounds 0 100); lra.
  - intros k Hk. simpl. apply round_of_integer. unfold scoreQuality.
    apply isInteger_max; [apply (isInteger_Z 0)|].
    apply isInteger_min; [apply (isInteger_Z 100)|].
    now apply rawQuality_integer with k.
Qed.

Lemma quality_score_identity_witness :
  scoreQuality (3 # 10) 2 1 + ((3 # 10) * 10 + num 2 * 5 + num 1 * 15) == 100
  /\ qualityScore (score 7 (3 # 10) 2 1) == 72.
Proof.
  destruct (quality_score_identity (3 # 10) 2 1 7) as (Hid & _ & _ & Hround);
    [vm_compute; discriminate | vm_compute; discriminate |].
  split.
  - apply Hid; vm_compute; discriminate.
  - rewrite (Hround 3%nat) by reflexivity. reflexivity.
Defined.
End ScorerFacts.

Section ComplexityFacts.
Import Js Extension.

Lemma addMatches_length (text : jsstring) (c : nat) (pattern : regex) :
  addMatches text c pattern = (c + length (matchAll pattern text))%nat.
Proof. unfold addMatches. destruct (matchAll pattern text); simpl; lia. Qed.

Lemma fold_addMatches (text : jsstring) (patterns : list regex) (c : nat) :
  fold_left (addMatches text) patterns c
  = (c + list_sum (map (fun pattern => length (matchAll pattern text)) patterns))%nat.
Proof.
  revert c. induction patterns as [|p ps IH]; intros c; simpl.
  - lia.
  - rewrite IH, addMatches_length. lia.
Qed.

Lemma complexityCount_total (text : jsstring) :
  complexityCount text = S (totalMatches text).
Proof. unfold complexityCount, totalMatches. now rewrite fold_addMatches. Qed.

Lemma num_S (n : nat) : num (S n) == num n + 1.
Proof. unfold num. rewrite Nat2Z.inj_succ, <- Z.add_1_r, inject_Z_plus. reflexivity. Qed.

Lemma calculateComplexity_tenths (text : jsstring) :
  exists k : nat, calculateComplexity text == num k / 10.
Proof.
  unfold calculateComplexity, Math_min.
  destruct (Q.min_spec 10 (num (complexityCount text) / 10)) as [[_ H] | [_ H]].
  - exists 100%nat. rewrite H. reflexivity.
  - exists (complexityCount text). exact H.
Qed.

(** C4 (as the code has it). For every text the complexity metric is
  one more than the total count of matches of the six patterns,
  divided by 10 and capped at 10: the count starts from the base
  value 1.  It lies in [0.1, 10], and for a text with no match it is
  0.1. *)
Theorem complexity_counts_from_one (text : jsstring) :
  calculateComplexity text == Math_min 10 ((num (totalMatches text) + 1) / 10)
  /\ (1 # 10) <= calculateComplexity text
  /\ calculateComplexity text <= 10
  /\ (totalMatches text = 0%nat -> calculateComplexity text == 1 # 10).
Proof.
  assert (Heq : calculateComplexity text
                == Math_min 10 ((num (totalMatches text) + 1) / 10)).
  { unfold calculateComplexity. rewrite complexityCount_total.
    unfold Math_min. now rewrite num_S. }
  pose proof (num_nonneg (totalMatches text)) as Hn.
  repeat split.
  - exact Heq.
  - rewrite Heq. unfold Math_min, Qdiv. change (/ 10) with (1 # 10).
    apply Q.min_glb; lra.
  - rewrite Heq. apply Q.le_min_l.
  - intros H0. rewrite Heq, H0. reflexivity.
Qed.

(** C4 as stated fails on a text without branches: no pattern matches,
    the stated value is 0, the metric is 0.1. *)
Lemma complexity_of_text_without_matches :
  totalMatches (str "const total = 1;") = 0%nat
  /\ complexity_spec (str "const total = 1;") == 0
  /\ calculateComplexity (str "const total = 1;") == 1 # 10
  /\ ~ calculateComplexity (str "const total = 1;")
       == complexity_spec (str "const total = 1;").
Proof. repeat split; vm_compute; discriminate. Qed.
End ComplexityFacts.

Section DuplicateFacts.
Import Js Extension.

Lemma dupStep_short (st : gmap jsstring nat * nat) (line : jsstring) :
  (length (trim line) <= 10)%nat -> dupStep st line = st.
Proof.
  intros H. unfold dupStep. destruct st as [m d].
  destruct (Nat.ltb_spec 10 (length (trim line))); [lia | reflexivity].
Qed.

Lemma dupStep_long (m : gmap jsstring nat) (d : nat) (line : jsstring) :
  (10 < length (trim line))%nat ->
  dupStep (m, d) line
  = (<[trim line := S (default 0%nat (m !! trim line))]> m,
     if (default 0%nat (m !! trim line) =? 1)%nat then S d else d).
Proof.
  intros H. unfold dupStep.
  destruct (Nat.ltb_spec 10 (length (trim line))); [reflexivity | lia].
Qed.

(** [n] more copies of a line that was seen [c] times before add one
    duplicate exactly when the count passes from 1 to 2 on the way. *)
Lemma dup_repeat (line : jsstring) (n : nat) :
  (10 < length (trim line))%nat ->
  forall (m : gmap jsstring nat) (d : nat),
    snd (fold_left dupStep (repeat line n) (m, d))
    = (d + if (default 0 (m !! trim line) <=? 1)
               && (2 <=? default 0 (m !! trim line) + n)
           then 1 else 0)%nat.
Proof.
  intros Hlen. induction n as [|n IH]; intros m d.
  - cbn [repeat fold_left snd].
    destruct (Nat.leb_spec (default 0%nat (m !! trim line)) 1);
      destruct (Nat.leb_spec 2 (default 0%nat (m !! trim line) + 0));
      cbn [andb]; lia.
  - cbn [repeat fold_left]. rewrite dupStep_long by exact Hlen.
    rewrite IH, lookup_insert_eq. cbn [default from_option id].
    generalize (default 0%nat (m !! trim line)). intros c.
    destruct (Nat.eqb_spec c 1);
      destruct (Nat.leb_spec (S c) 1);
      destruct (Nat.leb_spec 2 (S c + n));
      destruct (Nat.leb_spec c 1);
      destruct (Nat.leb_spec 2 (c + S n));
      cbn [andb]; lia.
Qed.

Lemma fold_dupStep_app (l1 l2 : list jsstring) (st : gmap jsstring nat * nat) :
  fold_left dupStep (l1 ++ l2) st = fold_left dupStep l2 (fold_left dupStep l1 st).
Proof. apply fold_left_app. Qed.

(** C3. Three identical lines whose trimmed text is longer than 10 count
  as one duplicate, and so do [n >= 2] copies of such a line: the
  count grows only when a line's running count passes from 1 to 2.
  A line whose trimmed text has at most 10 code units leaves the
  count as it is, wherever it stands.  The pattern detector's
  [findDuplicatePatterns] is the same count over the lines of the
  text. *)
Theorem three_identical_lines_count_once (x : jsstring) :
  (10 < length (trim x))%nat ->
  findDuplicateLines [x; x; x] = 1%nat
  /\ (forall n : nat, (2 <= n)%nat -> findDuplicateLines (repeat x n) = 1%nat)
  /\ findDuplicateLines [x] = 0%nat
  /\ (forall (short : jsstring) (before after : list jsstring),
        (length (trim short) <= 10)%nat ->
        findDuplicateLines (before ++ short :: after)
        = findDuplicateLines (before ++ after))
  /\ (forall text : jsstring,
        findDuplicatePatterns text = findDuplicateLines (split_lines text)).
Proof.
  intros Hlen.
  assert (Hrep : forall n, findDuplicateLines (repeat x n)
                           = if (2 <=? n)%nat then 1%nat else 0%nat).
  { intros n. unfold findDuplicateLines. rewrite dup_repeat by exact Hlen.
    rewrite lookup_empty. reflexivity. }
  repeat split.
  - exact (Hrep 3%nat).
  - intros n Hn. rewrite Hrep. destruct (Nat.leb_spec 2 n); [reflexivity | lia].
  - exact (Hrep 1%nat).
  - intros short before after Hshort. unfold findDuplicateLines.
    rewrite !fold_dupStep_app. cbn [fold_left].
    now rewrite dupStep_short.
Qed.

Lemma three_identical_lines_count_once_witness :
  findDuplicateLines
    [str "return total + 1;"; str "return total + 1;"; str "return total + 1;"]
  = 1%nat.
Proof.
  apply (three_identical_lines_count_once (str "return total + 1;")).
  vm_compute. lia.
Defined.
End DuplicateFacts.

Section SliceFacts.
Import Js.
Context {A : Type}.

Lemma slice_last_length (n : nat) (xs : list A) :
  length (slice_last n xs) = Nat.min n (length xs).
Proof. unfold slice_last. rewrite length_skipn. lia. Qed.

Lemma slice_last_all (n : nat) (xs : list A) :
  (length xs <= n)%nat -> slice_last n xs = xs.
Proof.
  intros H. unfold slice_last.
  replace (length xs - n)%nat with 0%nat by lia. reflexivity.
Qed.

Lemma slice_last_app (n : nat) (xs ys : list A) :
  slice_last n (slice_last n xs ++ ys) = slice_last n (xs ++ ys).
Proof.
  unfold slice_last. rewrite !length_app, length_skipn.
  destruct (Nat.le_gt_cases (length xs) n) as [Hle | Hgt].
  - replace (length xs - n)%nat with 0%nat by lia. cbn [skipn].
    now rewrite Nat.sub_0_r.
  - rewrite (skipn_app (length xs + length ys - n)).
    replace (length xs + length ys - n - length xs)%nat with (length ys - n)%nat by lia.
    rewrite (skipn_app (length xs - (length xs - n) + length ys - n)).
    rewrite length_skipn, skipn_skipn.
    f_equal; f_equal; lia.
Qed.

Lemma slice_last_cons (n : nat) (x : A) (xs : list A) :
  length xs = n -> slice_last n (x :: xs) = xs.
Proof.
  intros H. unfold slice_last. cbn [length].
  replace (S (length xs) - n)%nat with 1%nat by lia. reflexivity.
Qed.
End SliceFacts.

Section HistoryFacts.
Import Js AnalysisEngine.
Variable LocalTZA : Z -> Z.

Lemma updateModels_history (e : t) :
  qualityHistory (updateModels LocalTZA e) = qualityHistory e.
Proof. unfold updateModels. now destruct (10 <? length (qualityHistory e))%nat. Qed.

Lemma recordQuality_history (e : t) (p : QualityPattern.t) :
  qualityHistory (recordQuality LocalTZA e p)
  = slice_last 1000 (qualityHistory e ++ [p]).
Proof.
  unfold recordQuality. rewrite updateModels_history. cbn [qualityHistory].
  destruct (Nat.ltb_spec 1000 (length (qualityHistory e ++ [p]))) as [H | H].
  - reflexivity.
  - now rewrite slice_last_all.
Qed.

Lemma recordAll_history (ps : list QualityPattern.t) (e : t) :
  ps <> [] ->
  qualityHistory (recordAll LocalTZA e ps) = slice_last 1000 (qualityHistory e ++ ps).
Proof.
  induction ps as [|p ps IH] using rev_ind; intros Hne; [congruence|].
  unfold recordAll in *. rewrite fold_left_app. cbn [fold_left].
  rewrite recordQuality_history.
  destruct ps as [|q ps'].
  - reflexivity.
  - rewrite IH by discriminate. rewrite slice_last_app. now rewrite <- app_assoc.
Qed.

(** C2. The history an engine holds after any sequence of [recordQuality]
  calls has at most 1000 entries, provided it had at most 1000 to
  start with or at least one call was made; and eviction is
  oldest-first: when 1001 entries are appended to an empty history,
  the first is dropped and the second is the oldest one left. *)
Theorem history_capped_oldest_first (e : t) (ps : list QualityPattern.t) :
  ((length (qualityHistory e) <= 1000)%nat \/ ps <> []) ->
  (length (qualityHistory (recordAll LocalTZA e ps)) <= 1000)%nat
  /\ (forall (p1 p2 : QualityPattern.t) (rest : list QualityPattern.t),
        qualityHistory e = [] -> ps = p1 :: p2 :: rest -> length rest = 999%nat ->
        qualityHistory (recordAll LocalTZA e ps) = p2 :: rest
        /\ head (qualityHistory (recordAll LocalTZA e ps)) = Some p2
        /\ (p1 ∉ p2 :: rest -> p1 ∉ qualityHistory (recordAll LocalTZA e ps))).
Proof.
  intros Hstart. split.
  - destruct ps as [|p ps'].
    + destruct Hstart as [H | H]; [exact H | congruence].
    + rewrite recordAll_history by discriminate.
      rewrite slice_last_length. lia.
  - intros p1 p2 rest He Hps Hlen.
    assert (Heq : qualityHistory (recordAll LocalTZA e ps) = p2 :: rest).
    { rewrite recordAll_history by (subst ps; discriminate).
      rewrite He, Hps. cbn [app]. apply slice_last_cons. cbn [length]. lia. }
    rewrite Heq. auto.
Qed.
End HistoryFacts.

Section RegressionFacts.
Import Js LinearRegressionModel.
Variable LocalTZA : Z -> Z.

Lemma train_short (m : t) (h : list QualityPattern.t) :
  (length h < 5)%nat -> train LocalTZA m h = m.
Proof.
  intros H. unfold train.
  destruct (Nat.ltb_spec (length h) 5); [reflexivity | lia].
Qed.

Lemma train_trained (m : t) (h : list QualityPattern.t) :
  (5 <= length h)%nat -> isTrained (train LocalTZA m h) = true.
Proof.
  intros H. unfold train.
  destruct (Nat.ltb_spec (length h) 5); [lia | reflexivity].
Qed.

Lemma predict_untrained (m : t) (now : Z) (recent : list QualityPattern.t)
    (pm : ProjectMetrics.t) :
  isTrained m = false -> predict LocalTZA m now recent pm = fallbackPrediction recent.
Proof. intros H. unfold predict. now rewrite H. Qed.

Lemma predict_no_recent (m : t) (now : Z) (pm : ProjectMetrics.t) :
  predict LocalTZA m now [] pm = fallbackPrediction [].
Proof. unfold predict. cbn [length Nat.eqb]. now rewrite orb_true_r. Qed.

(** C5 (as the code has it). For every history of fewer than 5 samples,
  [train] leaves the model as it was, so a model that was not trained
  stays untrained and its [predict] takes the fallback path: quality
  75, bug probability 20 and confidence 0.3 when there are no recent
  samples, and otherwise the rounded average quality of the recent
  samples, with bug probability 15 times their average issue count,
  capped at 100, and confidence 0.5. *)
Theorem train_below_five_keeps_fallback (m : t) (h : list QualityPattern.t) :
  (length h < 5)%nat ->
  train LocalTZA m h = m
  /\ (isTrained m = false ->
      isTrained (train LocalTZA m h) = false
      /\ forall (now : Z) (recent : list QualityPattern.t) (pm : ProjectMetrics.t),
           predict LocalTZA (train LocalTZA m h) now recent pm
           = fallbackPrediction recent)
  /\ fallbackPrediction []
     = {| daily := 75; weekly := 75; confidence := 3 # 10;
          riskFactors := {| bugProbability := 20 |} |}
  /\ (forall (q : QualityPattern.t) (qs : list QualityPattern.t),
        let recent := q :: qs in
        let avgQuality :=
          sumOf QualityPattern.qualityScore recent / num (length recent) in
        let avgIssues :=
          sumOf QualityPattern.issuesFound recent / num (length recent) in
        fallbackPrediction recent
        = {| daily := Math_round avgQuality; weekly := Math_round avgQuality;
             confidence := 5 # 10;
             riskFactors := {| bugProbability := Math_min 100 (avgIssues * 15) |} |}).
Proof.
  intros Hlen. rewrite train_short by exact Hlen. repeat split.
  - assumption.
  - intros now recent pm. now apply predict_untrained.
Qed.
End RegressionFacts.

Section EngineFacts.
Import Js AnalysisEngine.
Variable LocalTZA : Z -> Z.

Lemma getRecentQuality_empty (e : t) (now : Z) :
  qualityHistory e = [] -> getRecentQuality e now = [].
Proof. intros H. unfold getRecentQuality. now rewrite H. Qed.

(** C6 (as the code has it). With an empty history [generateAnalysis]
  returns overall quality 75 and confidence 0.5, and its bug risk is
  the project complexity times 30 plus the fallback bug probability
  20, clamped to [0,100]. *)
Theorem analysis_of_empty_history (e : t) (pm : ProjectMetrics.t)
    (now now_r now_t : Z) :
  qualityHistory e = [] ->
  let r := generateAnalysis LocalTZA e pm now now_r now_t in
  overallQuality r = 75
  /\ bugRisk r = Math_min 100 (Math_max 0 (ProjectMetrics.complexity pm * 30 + 20))
  /\ confidence r = 5 # 10.
Proof.
  intros He. unfold generateAnalysis. cbn zeta.
  rewrite (getRecentQuality_empty e now He).
  cbn [overallQuality bugRisk confidence].
  rewrite predict_no_recent. repeat split.
Qed.

Lemma calculateConfidence_values (n : nat) :
  calculateConfidence n = 5 # 10 \/ calculateConfidence n = 6 # 10
  \/ calculateConfidence n = 8 # 10 \/ calculateConfidence n = 95 # 100.
Proof.
  unfold calculateConfidence.
  destruct (n =? 0)%nat; [auto|].
  destruct (n <? 10)%nat; [auto|].
  destruct (n <? 50)%nat; auto.
Qed.

Lemma rounded_clamp_1_10 (x : Q) :
  let y := Math_round (Math_min 10 (Math_max 1 x)) in
  isInteger y /\ 1 <= y /\ y <= 10.
Proof.
  cbn zeta. split; [apply isInteger_round|].
  apply (Math_round_bounds 1 10); unfold Math_min, Math_max.
  - apply Q.min_glb; [discriminate | apply Q.le_max_l].
  - apply Q.le_min_l.
Qed.

(** C10. For every engine state, project metrics and clock reading, the
  result of [generateAnalysis] has a confidence among 0.5, 0.6, 0.8
  and 0.95, hence at least 0.5, and its maintainability and
  performance scores are integers between 1 and 10. *)
Theorem analysis_result_ranges (e : t) (pm : ProjectMetrics.t)
    (now now_r now_t : Z) :
  let r := generateAnalysis LocalTZA e pm now now_r now_t in
  (confidence r = 5 # 10 \/ confidence r = 6 # 10
   \/ confidence r = 8 # 10 \/ confidence r = 95 # 100)
  /\ 5 # 10 <= confidence r
  /\ (isInteger (maintainabilityScore r)
      /\ 1 <= maintainabilityScore r /\ maintainabilityScore r <= 10)
  /\ (isInteger (performanceScore r)
      /\ 1 <= performanceScore r /\ performanceScore r <= 10).
Proof.
  cbn zeta. unfold generateAnalysis.
  cbn [confidence maintainabilityScore performanceScore].
  repeat apply conj.
  - apply calculateConfidence_values.
  - destruct (calculateConfidence_values (length (getRecentQuality e now)))
      as [H | [H | [H | H]]]; rewrite H; discriminate.
  - apply rounded_clamp_1_10.
  - apply rounded_clamp_1_10.
  - apply rounded_clamp_1_10.
  - apply rounded_clamp_1_10.
  - apply rounded_clamp_1_10.
  - apply rounded_clamp_1_10.
Qed.
End EngineFacts.

Section TrendFacts.
Import Js TimeSeriesModel.

Lemma accumulate_linear (a b : Q) (scores : list Q) :
  forall (i : nat) (acc : sums),
    linearFrom a b i scores ->
    let n := length scores in
    let r := accumulate acc i scores in
    sumX r == sumX acc + indexSum i n
    /\ sumXX r == sumXX acc + indexSquareSum i n
    /\ sumY r == sumY acc + (a * num n + b * indexSum i n)
    /\ sumXY r == sumXY acc + (a * indexSum i n + b * indexSquareSum i n).
Proof.
  induction scores as [|y rest IH]; intros i acc Hlin; cbn zeta.
  - cbn [accumulate length]. unfold indexSum, indexSquareSum.
    change (num 0) with 0. repeat split; ring.
  - destruct Hlin as [Hy Hrest]. cbn [accumulate length].
    match goal with
    | |- context [accumulate ?acc' (S i) rest] =>
        destruct (IH (S i) acc' Hrest) as (HX & HXX & HY & HXY)
    end.
    cbn zeta in HX, HXX, HY, HXY. rewrite HX, HXX, HY, HXY.
    cbn [sumX sumY sumXY sumXX]. unfold indexSum, indexSquareSum.
    rewrite !num_S, Hy. repeat split; ring.
Qed.

Lemma slope_linear (a b : Q) (scores : list Q) :
  (2 <= length scores)%nat -> linearFrom a b 0 scores -> slope scores == b.
Proof.
  intros Hlen Hlin. unfold slope.
  destruct (Nat.ltb_spec (length scores) 2) as [H | _]; [lia|].
  destruct (accumulate_linear a b scores 0 {| sumX := 0; sumY := 0; sumXY := 0; sumXX := 0 |} Hlin)
    as (HX & HXX & HY & HXY).
  cbn zeta in HX, HXX, HY, HXY. rewrite HX, HXX, HY, HXY.
  cbn [sumX sumY sumXY sumXX]. unfold indexSum, indexSquareSum. change (num 0) with 0.
  set (n := num (length scores)).
  assert (Hn : 2 <= n).
  { unfold n, num. change 2 with (inject_Z 2). rewrite <- Zle_Qle. lia. }
  assert (HD : ~ n * n * (n - 1) * (n + 1) == 0).
  { assert (0 < n * n * (n - 1) * (n + 1)); [|lra].
    repeat apply Qmult_lt_0_compat; lra. }
  field. intros Hz. apply HD. rewrite <- (Qmult_0_r 12), <- Hz. ring.
Qed.
End TrendFacts.

Section TimeSeriesFacts.
Import Js TimeSeriesModel.
Variable LocalTZA : Z -> Z.

Lemma analyzeSeasonality_trend (m : t) (h : list QualityPattern.t) :
  trendCoefficient (analyzeSeasonality LocalTZA m h) = trendCoefficient m.
Proof.
  unfold analyzeSeasonality.
  now destruct (fold_left (seasonStep LocalTZA) h (repeat 0 7, repeat 0%nat 7)).
Qed.

Lemma train_long (m : t) (h : list QualityPattern.t) :
  (7 <= length h)%nat ->
  isInitialized (train LocalTZA m h) = true
  /\ trendCoefficient (train LocalTZA m h) = slope (map QualityPattern.qualityScore h).
Proof.
  intros H. unfold train.
  destruct (Nat.ltb_spec (length h) 7); [lia|].
  cbn [isInitialized trendCoefficient]. split; [reflexivity|].
  now rewrite analyzeSeasonality_trend.
Qed.

Lemma gt_true (x y : Q) : y < x -> gt x y = true.
Proof.
  intros H. unfold gt. destruct (Qle_bool x y) eqn:E; [|reflexivity].
  apply Qle_bool_iff in E. lra.
Qed.

Lemma predict_trend_improving (m : t) (now : Z) (h : list QualityPattern.t) :
  isInitialized m = true -> h <> [] -> 2 < trendCoefficient m ->
  trend (predict LocalTZA m now h) = improving.
Proof.
  intros Hinit Hne Hgt. unfold predict. rewrite Hinit.
  destruct h as [|p h']; [congruence|].
  cbn [negb orb length Nat.eqb trend]. now rewrite gt_true.
Qed.

(** C8. After [train] on 12 samples whose scores rise linearly from 60
  at index 0 to 90 at index 11, whatever their timestamps and other
  fields and whatever the model held before, the trend coefficient is
  the least-squares slope of score against index over the whole
  history, 30/11, which exceeds 2, and [predict] labels the trend
  "improving". *)
Theorem linear_rise_is_improving (m : t) (now : Z) (h : list QualityPattern.t) :
  length h = 12%nat ->
  linearFrom 60 (30 # 11) 0 (map QualityPattern.qualityScore h) ->
  let m' := train LocalTZA m h in
  trendCoefficient m' = slope (map QualityPattern.qualityScore h)
  /\ trendCoefficient m' == 30 # 11
  /\ 2 < trendCoefficient m'
  /\ trend (predict LocalTZA m' now h) = improving.
Proof.
  intros Hlen Hlin. cbn zeta.
  destruct (train_long m h) as [Hinit Hcoef]; [lia|].
  assert (Hslope : trendCoefficient (train LocalTZA m h) == 30 # 11).
  { rewrite Hcoef. apply slope_linear with (a := 60); [|exact Hlin].
    rewrite length_map. lia. }
  assert (Hgt : 2 < trendCoefficient (train LocalTZA m h)).
  { rewrite Hslope. reflexivity. }
  repeat split; try assumption.
  apply predict_trend_improving; try assumption.
  destruct h; [discriminate Hlen | discriminate].
Qed.
End TimeSeriesFacts.

Lemma linear_rise_is_improving_witness :
  QualityPattern.qualityScore (Scenario.trendSample 11) == 90
  /\ TimeSeriesModel.trend
       (TimeSeriesModel.predict Scenario.utc
          (TimeSeriesModel.train Scenario.utc TimeSeriesModel.init (Scenario.trendSamples 12))
          (Scenario.day0 + 12 * 86400000) (Scenario.trendSamples 12))
     = TimeSeriesModel.improving.
Proof.
  split; [reflexivity|].
  apply (linear_rise_is_improving Scenario.utc TimeSeriesModel.init
           (Scenario.day0 + 12 * 86400000) (Scenario.trendSamples 12)).
  - reflexivity.
  - cbn. repeat split; reflexivity.
Defined.

Section StorageFacts.
Import Js DataStorage.

Ltac key_neq := let H := fresh in intros H; vm_compute in H; discriminate H.

Ltac store_simpl :=
  unfold importAllData, clearAllData, migrateData, saveQualityHistory,
    saveUserSettings, saveModelData, saveSessionData, loadQualityHistory,
    loadUserSettings, loadModelData, loadSessionData, update;
  repeat first
    [ rewrite lookup_insert_eq
    | rewrite lookup_delete_eq
    | rewrite lookup_insert_ne by key_neq
    | rewrite lookup_delete_ne by key_neq ].

Lemma load_after_import (d : StoredData) (g : gmap string value) :
  loadQualityHistory (importAllData d g) = slice_last 1000 (qualityHistory d)
  /\ loadUserSettings (importAllData d g) = userSettings d
  /\ loadModelData (importAllData d g) = Some (modelData d)
  /\ loadSessionData (importAllData d g) = slice_last 100 (sessionData d).
Proof. repeat split; store_simpl; reflexivity. Qed.

Lemma migrateData_loads (g : gmap string value) :
  loadQualityHistory (migrateData g) = loadQualityHistory g
  /\ loadSessionData (migrateData g) = loadSessionData g.
Proof.
  unfold migrateData.
  destruct (g !! "windsuCredit.userSettings"%string) as [v|]; [|done].
  destruct (truthy v); [|done].
  split; store_simpl; reflexivity.
Qed.

Lemma reachable_bounded (g : gmap string value) : reachable g -> bounded g.
Proof.
  unfold bounded, MAX_HISTORY_ENTRIES, MAX_SESSION_ENTRIES.
  induction 1 as [g (Hh & _ & _ & Hs) | g _ IH | h g _ IH | s g _ IH | m g _ IH
                  | s g _ IH | g _ IH | d g _ IH].
  - unfold loadQualityHistory, loadSessionData. rewrite Hh, Hs. simpl. lia.
  - destruct (migrateData_loads g) as [-> ->]. exact IH.
  - split.
    + store_simpl. rewrite slice_last_length.
      unfold MAX_HISTORY_ENTRIES. lia.
    + revert IH. store_simpl. tauto.
  - revert IH. store_simpl. tauto.
  - revert IH. store_simpl. tauto.
  - split.
    + revert IH. store_simpl. tauto.
    + store_simpl. rewrite slice_last_length. unfold MAX_SESSION_ENTRIES. lia.
  - store_simpl. simpl. lia.
  - destruct (load_after_import d g) as (-> & _ & _ & ->).
    rewrite !slice_last_length. lia.
Qed.

(** C9 (as the code has it). For every state of the store that the
  storage class can bring about, [exportAllData] followed by
  [importAllData] on any store, a fresh one in particular, yields a
  store whose quality history, user settings and session data load as
  in the original and whose export is the original's export.  The
  model data is reproduced when the original had any; when it had
  none, the copy holds the default model data that [exportAllData]
  puts in its place, so [loadModelData] returns that object on the
  copy where it returns [null] on the original. *)
Theorem export_import_roundtrip (g g' : gmap string value) :
  reachable g ->
  let g2 := importAllData (exportAllData g) g' in
  exportAllData g2 = exportAllData g
  /\ loadQualityHistory g2 = loadQualityHistory g
  /\ loadUserSettings g2 = loadUserSettings g
  /\ loadSessionData g2 = loadSessionData g
  /\ loadModelData g2 = Some (modelData (exportAllData g))
  /\ (forall md : ModelData, loadModelData g = Some md -> loadModelData g2 = Some md)
  /\ (loadModelData g = None -> loadModelData g2 = Some defaultModelData).
Proof.
  intros Hreach. cbn zeta.
  destruct (reachable_bounded g Hreach) as [Hh Hs].
  destruct (load_after_import (exportAllData g) g') as (Eh & Eu & Em & Es).
  cbn [exportAllData qualityHistory userSettings modelData sessionData] in Eh, Eu, Em, Es.
  rewrite slice_last_all in Eh by exact Hh.
  rewrite slice_last_all in Es by exact Hs.
  assert (Hexp : exportAllData (importAllData (exportAllData g) g') = exportAllData g).
  { unfold exportAllData at 1. rewrite Eh, Eu, Em, Es. reflexivity. }
  repeat split; try assumption.
  - intros md Hmd. rewrite Em, Hmd. reflexivity.
  - intros Hnone. rewrite Em, Hnone. reflexivity.
Qed.

Lemma export_import_roundtrip_witness :
  let g := saveQualityHistory (Scenario.trendSamples 3) ∅ in
  exportAllData (importAllData (exportAllData g) ∅) = exportAllData g.
Proof.
  cbn zeta.
  apply (export_import_roundtrip (saveQualityHistory (Scenario.trendSamples 3) ∅) ∅).
  apply reach_history, reach_fresh. repeat split; reflexivity.
Defined.

(** C9 as stated fails for a store without model data: the original
    loads no model data, the copy loads the default model data. *)
Lemma roundtrip_without_model_data :
  let g := saveQualityHistory (Scenario.trendSamples 3) ∅ in
  let g2 := importAllData (exportAllData g) ∅ in
  reachable g
  /\ loadModelData g = None
  /\ loadModelData g2 = Some defaultModelData
  /\ loadModelData g2 <> loadModelData g.
Proof.
  cbn zeta.
  assert (Hnone : loadModelData (saveQualityHistory (Scenario.trendSamples 3) ∅) = None)
    by (store_simpl; reflexivity).
  assert (Hcopy : loadModelData
                    (importAllData
                       (exportAllData (saveQualityHistory (Scenario.trendSamples 3) ∅)) ∅)
                  = Some defaultModelData).
  { destruct (load_after_import
                (exportAllData (saveQualityHistory (Scenario.trendSamples 3) ∅)) ∅)
      as (_ & _ & Em & _).
    rewrite Em. unfold exportAllData. cbn [modelData]. rewrite Hnone. reflexivity. }
  split; [apply reach_history, reach_fresh; repeat split; reflexivity|].
  split; [exact Hnone|]. split; [exact Hcopy|].
  rewrite Hcopy, Hnone. discriminate.
Qed.
End StorageFacts.

Section BackendFacts.
Import Js.

Lemma fold_repeats (l : list (list nat)) (acc : nat) :
  fold_left (fun sum group => (sum + length group - 1)%nat)
            (filter (fun group => (1 <? length group)%nat) l) acc
  = (acc + sum_list_with (fun group => (length group - 1)%nat) l)%nat.
Proof.
  revert acc. induction l as [|g l IH]; intros acc; [simpl; lia|].
  rewrite filter_cons. cbn [sum_list_with]. case_decide as Hg.
  - cbn [fold_left]. rewrite IH. apply Is_true_true, Nat.ltb_lt in Hg. lia.
  - rewrite IH. apply Is_true_false, Nat.ltb_ge in Hg. lia.
Qed.

Lemma countDuplicates_sum (g : gmap jsstring (list nat)) :
  Backend.countDuplicates g = sum_list_with Backend.repeats (map_to_list g).
Proof.
  unfold Backend.countDuplicates. rewrite fold_repeats. cbn [Nat.add].
  induction (map_to_list g) as [|kv l IH]; [reflexivity|].
  cbn [map sum_list_with]. now rewrite IH.
Qed.

Lemma countDuplicates_empty : Backend.countDuplicates ∅ = 0%nat.
Proof. now rewrite countDuplicates_sum, map_to_list_empty. Qed.

(** Adding a line to its group adds a repeat unless the group was
    empty. *)
Lemma countDuplicates_insert (g : gmap jsstring (list nat)) (t : jsstring) (i : nat) :
  let group := default [] (g !! t) in
  Backend.countDuplicates (<[t := group ++ [i]]> g)
  = (Backend.countDuplicates g + if (length group =? 0)%nat then 0 else 1)%nat.
Proof.
  cbn zeta. rewrite !countDuplicates_sum.
  destruct (g !! t) as [old|] eqn:Hg; cbn [default from_option id].
  - rewrite <- insert_delete_eq.
    rewrite map_to_list_insert by apply lookup_delete_eq.
    rewrite <- (map_to_list_delete g t old Hg).
    cbn [sum_list_with]. unfold Backend.repeats at 1 3. cbn [snd].
    rewrite length_app. cbn [length].
    destruct old; cbn [length Nat.eqb]; lia.
  - rewrite map_to_list_insert by exact Hg. cbn [sum_list_with]. unfold Backend.repeats at 1.
    simpl. lia.
Qed.





End BackendFacts.

Section PersistenceFacts.
Import Js AnalysisEngine.
Variable LocalTZA : Z -> Z.

Lemma updateModels_storage (e : t) :
  storage (updateModels LocalTZA e) = storage e.
Proof. unfold updateModels. now destruct (10 <? length (qualityHistory e))%nat. Qed.

(** What [recordQuality] leaves in memory is what it has stored. *)
Lemma recordQuality_persists (e : t) (p : QualityPattern.t) :
  DataStorage.loadQualityHistory (storage (recordQuality LocalTZA e p))
  = qualityHistory (recordQuality LocalTZA e p).
Proof.
  rewrite recordQuality_history. unfold recordQuality.
  rewrite updateModels_storage. cbn [storage].
  unfold DataStorage.saveQualityHistory, DataStorage.loadQualityHistory,
    DataStorage.update.
  rewrite lookup_insert_eq.
  destruct (Nat.ltb_spec 1000 (length (qualityHistory e ++ [p]))) as [H | H].
  - apply slice_last_all. rewrite slice_last_length.
    unfold DataStorage.MAX_HISTORY_ENTRIES. lia.
  - now rewrite !slice_last_all.
Qed.

(** The history an engine loads at start-up from a store written by the
    storage class has at most 1000 entries. *)
Lemma loaded_history_capped (e : t) :
  DataStorage.reachable (storage e) ->
  (length (qualityHistory (loadHistoricalData e)) <= 1000)%nat.
Proof. intros H. apply (reachable_bounded _ H). Qed.
End PersistenceFacts.

(** ** The claims on sample data *)

Section EndToEnd.
Import Js Extension.

(** The score [analyzeCodeQuality] hands back is the clamped value
    itself: the complexity metric is a count of tenths, so there is
    nothing to round. *)
Lemma analyzeCodeQuality_quality (text : jsstring) (extension : ext) :
  qualityScore (analyzeCodeQuality text extension)
  == scoreQuality (calculateComplexity text) (findDuplicateLines (split_lines text))
                  (findLongFunctions text extension).
Proof.
  destruct (calculateComplexity_tenths text) as [k Hk].
  unfold analyzeCodeQuality, score. cbn [qualityScore].
  apply round_of_integer. unfold scoreQuality.
  apply isInteger_max; [apply (isInteger_Z 0)|].
  apply isInteger_min; [apply (isInteger_Z 100)|].
  now apply rawQuality_integer with k.
Qed.
End EndToEnd.

Lemma complexity_counts_from_one_witness :
  Extension.calculateComplexity (Js.str "let x = 1;") == 1 # 10.
Proof.
  apply (complexity_counts_from_one (Js.str "let x = 1;")). reflexivity.
Defined.

Lemma history_capped_oldest_first_witness :
  let ps := Scenario.trendSamples 1001 in
  let e := AnalysisEngine.recordAll Scenario.utc (AnalysisEngine.init ∅) ps in
  (length (AnalysisEngine.qualityHistory e) <= 1000)%nat
  /\ head (AnalysisEngine.qualityHistory e) = Some (Scenario.trendSample 1).
Proof.
  cbn zeta.
  destruct (history_capped_oldest_first Scenario.utc (AnalysisEngine.init ∅)
              (Scenario.trendSamples 1001)) as [Hcap Hevict].
  - right. discriminate.
  - split; [exact Hcap|].
    apply (Hevict (Scenario.trendSample 0) (Scenario.trendSample 1)
             (map Scenario.trendSample (seq 2 999))); reflexivity.
Defined.

Lemma train_below_five_keeps_fallback_witness :
  let m := LinearRegressionModel.train Scenario.utc LinearRegressionModel.init
             (Scenario.trendSamples 4) in
  LinearRegressionModel.isTrained m = false
  /\ LinearRegressionModel.predict Scenario.utc m Scenario.day0 [] Scenario.defaultMetrics
     = LinearRegressionModel.fallbackPrediction [].
Proof.
  cbn zeta.
  destruct (train_below_five_keeps_fallback Scenario.utc LinearRegressionModel.init
              (Scenario.trendSamples 4)) as (_ & Hfallback & _).
  - simpl. lia.
  - destruct (Hfallback eq_refl) as [Huntrained Hpredict]. split.
    + exact Huntrained.
    + apply Hpredict.
Defined.

(** C5 as stated fails at length 5: [train] goes through and marks the
    model as trained. *)
Lemma train_on_five_samples :
  (length (Scenario.trendSamples 5) <= 5)%nat
  /\ LinearRegressionModel.isTrained
       (LinearRegressionModel.train Scenario.utc LinearRegressionModel.init
          (Scenario.trendSamples 5)) = true.
Proof.
  split.
  - simpl. lia.
  - apply train_trained. simpl. lia.
Qed.

Lemma analysis_of_empty_history_witness :
  AnalysisEngine.bugRisk
    (AnalysisEngine.generateAnalysis Scenario.utc (AnalysisEngine.init ∅)
       Scenario.defaultMetrics Scenario.day0 Scenario.day0 Scenario.day0)
  = Js.Math_min 100 (Js.Math_max 0 ((1 # 2) * 30 + 20)).
Proof.
  apply (analysis_of_empty_history Scenario.utc (AnalysisEngine.init ∅)
           Scenario.defaultMetrics Scenario.day0 Scenario.day0 Scenario.day0).
  reflexivity.
Defined.

(** C6 as stated fails for a fresh engine on the default project
    metrics: the bug risk is 35, the complexity times 30 is 15. *)
Lemma bug_risk_of_empty_history :
  let r := AnalysisEngine.generateAnalysis Scenario.utc (AnalysisEngine.init ∅)
             Scenario.defaultMetrics Scenario.day0 Scenario.day0 Scenario.day0 in
  AnalysisEngine.qualityHistory (AnalysisEngine.init ∅) = []
  /\ AnalysisEngine.bugRisk r == 35
  /\ Js.Math_min 100
       (Js.Math_max 0 (ProjectMetrics.complexity Scenario.defaultMetrics * 30)) == 15
  /\ ~ AnalysisEngine.bugRisk r
       == Js.Math_min 100
            (Js.Math_max 0 (ProjectMetrics.complexity Scenario.defaultMetrics * 30)).
Proof. cbn zeta. repeat split; vm_compute; discriminate. Qed.

(** * Further properties of the code *)
(** ** Matches are pieces of the text *)

Section MatchFacts.
Import Js.

(** A successful match hands its continuation a suffix of the input. *)
Lemma rmatch_suffix (r : regex) :
  forall (prev : option N) (s : jsstring)
         (k : option N -> jsstring -> option jsstring) (x : jsstring),
    rmatch r prev s k = Some x ->
    exists (prev' : option N) (s' : jsstring), s' `suffix_of` s /\ k prev' s' = Some x.
Proof.
  induction r as [|p|r1 IH1 r2 IH2|r1 IH1 r2 IH2|greedy r1 IH1|];
    intros prev s k x H; cbn [rmatch] in H.
  - exists prev, s. split; [reflexivity | exact H].
  - destruct s as [|c s']; [discriminate H|].
    destruct (p c); [|discriminate H].
    exists (Some c), s'. split; [apply suffix_cons_r; reflexivity | exact H].
  - destruct (IH1 _ _ _ _ H) as (p1 & s1 & Hs1 & H1).
    destruct (IH2 _ _ _ _ H1) as (p2 & s2 & Hs2 & H2).
    exists p2, s2. split; [etrans; eassumption | exact H2].
  - unfold orElse in H.
    destruct (rmatch r1 prev s k) as [y|] eqn:E.
    + injection H as ->. eauto.
    + eauto.
  - revert H. generalize (length s) at 1. intros n. revert prev s x.
    induction n as [|n IHn]; intros prev s x H.
    + exists prev, s. split; [reflexivity | exact H].
    + assert (Hagain :
        forall y, rmatch r1 prev s (fun prev' s' =>
                    if (length s' <? length s)%nat
                    then (fix loop (n : nat) (prev : option N) (s : jsstring)
                            : option jsstring :=
                            match n with
                            | O => k prev s
                            | S n' =>
                                let again :=
                                  rmatch r1 prev s (fun prev' s' =>
                                    if (length s' <? length s)%nat
                                    then loop n' prev' s' else None) in
                                if greedy then orElse again (k prev s)
                                else orElse (k prev s) again
                            end) n prev' s'
                    else None) = Some y ->
                  exists prev' s', s' `suffix_of` s /\ k prev' s' = Some y).
      { intros y Hy. destruct (IH1 _ _ _ _ Hy) as (p1 & s1 & Hs1 & H1).
        destruct (length s1 <? length s)%nat; [|discriminate H1].
        destruct (IHn _ _ _ H1) as (p2 & s2 & Hs2 & H2).
        exists p2, s2. split; [etrans; eassumption | exact H2]. }
      cbn zeta in H. unfold orElse in H.
      destruct greedy.
      * match type of H with
        | match ?a with _ => _ end = _ => destruct a as [y|] eqn:E
        end.
        -- injection H as ->. apply Hagain. exact E.
        -- exists prev, s. split; [reflexivity | exact H].
      * destruct (k prev s) as [y|] eqn:E.
        -- injection H as ->. exists prev, s. split; [reflexivity | exact E].
        -- apply Hagain. exact H.
  - destruct (xorb (isWordAt prev) (isWordAt (head s))); [|discriminate H].
    exists prev, s. split; [reflexivity | exact H].
Qed.

Lemma exec_at_suffix (r : regex) (prev : option N) (s rest : jsstring) :
  exec_at r prev s = Some rest -> rest `suffix_of` s.
Proof.
  intros H. destruct (rmatch_suffix r _ _ _ _ H) as (p' & s' & Hs & Hk).
  injection Hk as ->. exact Hs.
Qed.

(** Every match [scan] reports is a piece of the text it scans. *)
Lemma scan_sublist (r : regex) (s : jsstring) :
  forall (prev : option N) (skip : nat) (m : jsstring),
    m ∈ scan r prev s skip -> m `sublist_of` s.
Proof.
  induction s as [|c s IH]; intros prev skip m Hm.
  - destruct skip; cbn [scan] in Hm.
    + destruct (exec_at r prev []) as [rest|]; [|by apply elem_of_nil in Hm].
      cbn in Hm. apply list_elem_of_singleton in Hm. subst m. constructor.
    + by apply elem_of_nil in Hm.
  - destruct skip as [|n]; cbn [scan] in Hm.
    + destruct (exec_at r prev (c :: s)) as [rest|] eqn:E.
      * apply elem_of_cons in Hm as [-> | Hm].
        -- apply sublist_take.
        -- apply sublist_cons. eapply IH. exact Hm.
      * apply sublist_cons. eapply IH. exact Hm.
    + apply sublist_cons. eapply IH. exact Hm.
Qed.
End MatchFacts.

Section LongFunctionFacts.
Import Js.

Lemma split_lines_length (s : list N) :
  length (split_lines s) = S (length (filter (fun c => c = LF) s)).
Proof.
  induction s as [|c s IH]; [reflexivity|].
  cbn [split_lines]. rewrite filter_cons.
  destruct (N.eqb_spec c LF) as [-> | Hne].
  - rewrite decide_True by reflexivity. cbn [length]. now rewrite IH.
  - rewrite decide_False by exact Hne.
    destruct (split_lines s) as [|l ls]; [discriminate IH|]. exact IH.
Qed.

Lemma sublist_fewer_lines (m s : list N) :
  m `sublist_of` s -> (length (split_lines m) <= length (split_lines s))%nat.
Proof.
  intros H. rewrite !split_lines_length. apply le_n_S.
  induction H as [|x l1 l2 _ IH|x l1 l2 _ IH]; [reflexivity | |].
  - rewrite !filter_cons. case_decide; cbn [length]; lia.
  - rewrite filter_cons. case_decide; cbn [length]; lia.
Qed.

Lemma no_long_match (r : regex) (text : jsstring) :
  (length (split_lines text) <= 20)%nat ->
  filter (fun func => (20 <? length (split_lines func))%nat) (matchAll r text) = [].
Proof.
  intros Hshort. unfold matchAll.
  assert (Hall : forall m, m ∈ scan r None text 0 ->
                           (length (split_lines m) <= 20)%nat).
  { intros m Hm. etrans; [|exact Hshort].
    apply sublist_fewer_lines. eapply scan_sublist. exact Hm. }
  induction (scan r None text 0) as [|m ms IH]; [reflexivity|].
  rewrite filter_cons_False.
  - apply IH. intros m' Hm'. apply Hall. now right.
  - intros Hlong. apply Is_true_true, Nat.ltb_lt in Hlong.
    specialize (Hall m ltac:(left)). lia.
Qed.

(** X1. A text of at most 20 lines has no long function, whatever the
    extension, for [findLongFunctions] and for [hasLongFunctions]. *)
Theorem short_text_has_no_long_function (text : jsstring) :
  (length (split_lines text) <= 20)%nat ->
  (forall extension : Extension.ext, Extension.findLongFunctions text extension = 0%nat)
  /\ CodePatternDetector.hasLongFunctions text = false.
Proof.
  intros Hshort. split.
  - intros extension. unfold Extension.findLongFunctions.
    destruct (Extension.functionPatterns extension) as [pattern|]; [|reflexivity].
    now rewrite no_long_match.
  - unfold CodePatternDetector.hasLongFunctions.
    destruct (existsb _ _) eqn:E; [|reflexivity].
    apply existsb_exists in E as (m & Hm & Hlong).
    apply Nat.ltb_lt in Hlong. apply list_elem_of_In in Hm.
    pose proof (sublist_fewer_lines m text
                  (scan_sublist Extension.jsFunction text None 0 m Hm)). lia.
Qed.
End LongFunctionFacts.

Lemma short_text_has_no_long_function_witness :
  Extension.findLongFunctions (Scenario.functionOfLines 18) Extension.ExtJs = 0%nat.
Proof.
  apply (short_text_has_no_long_function (Scenario.functionOfLines 18)).
  vm_compute. lia.
Defined.

(** ** The duplicate count in closed form *)

Section DuplicateCharacterisation.
Import Js Extension.

Lemma occurrences_snoc (t : jsstring) (lines : list jsstring) (x : jsstring) :
  occurrences t (lines ++ [x])
  = (occurrences t lines + if decide (trim x = t) then 1 else 0)%nat.
Proof.
  unfold occurrences. rewrite filter_app, length_app, filter_cons, filter_nil.
  case_decide; reflexivity.
Qed.

(** The state of the loop after the lines: the tally holds the number
    of occurrences of every long text, and the count is the number of
    long texts seen at least twice. *)
Lemma dup_state (lines : list jsstring) :
  exists texts : list jsstring,
    NoDup texts
    /\ (forall t : jsstring,
          t ∈ texts <-> (10 < length t)%nat /\ (2 <= occurrences t lines)%nat)
    /\ (fold_left dupStep lines (∅, 0%nat)).2 = length texts
    /\ (forall t : jsstring,
          default 0%nat ((fold_left dupStep lines (∅, 0%nat)).1 !! t)
          = if (10 <? length t)%nat then occurrences t lines else 0%nat).
Proof.
  induction lines as [|x lines IH] using rev_ind.
  - exists []. split; [constructor|]. split; [|split].
    + intros t. split; [intros H; by apply elem_of_nil in H|].
      intros [_ H]. cbn in H. lia.
    + reflexivity.
    + intros t. cbn [fold_left fst]. rewrite lookup_empty.
      destruct (10 <? length t)%nat; reflexivity.
  - destruct IH as (texts & Hnodup & Hmem & Hcount & Htally).
    rewrite fold_left_app. cbn [fold_left].
    destruct (fold_left dupStep lines (∅, 0%nat)) as [m d] eqn:Hst.
    cbn [fst snd] in Hcount, Htally.
    pose proof (Htally (trim x)) as Hx.
    assert (Htally' : forall m' : gmap jsstring nat,
              (forall t, t <> trim x -> m' !! t = m !! t) ->
              (10 < length (trim x) ->
               default 0 (m' !! trim x) = S (default 0 (m !! trim x)))%nat ->
              ((length (trim x) <= 10)%nat -> m' = m) ->
              forall t : jsstring,
                default 0%nat (m' !! t)
                = if (10 <? length t)%nat then occurrences t (lines ++ [x]) else 0%nat).
    { intros m' Hother Hsame Hshort t. rewrite occurrences_snoc.
      destruct (Nat.ltb_spec 10 (length (trim x))) as [Hl | Hs].
      - destruct (decide (trim x = t)) as [<- | Hne].
        + rewrite (Hsame Hl), Htally.
          destruct (Nat.ltb_spec 10 (length (trim x))); lia.
        + rewrite Hother by congruence. rewrite Htally.
          destruct (10 <? length t)%nat; lia.
      - rewrite (Hshort Hs), Htally.
        destruct (decide (trim x = t)) as [<- | Hne].
        + destruct (Nat.ltb_spec 10 (length (trim x))); lia.
        + destruct (10 <? length t)%nat; lia. }
    destruct (Nat.ltb_spec 10 (length (trim x))) as [Hlong | Hshort].
    + rewrite dupStep_long by exact Hlong. cbn [fst snd].
      assert (Hnew : forall t : jsstring,
                default 0%nat (<[trim x := S (default 0%nat (m !! trim x))]> m !! t)
                = if (10 <? length t)%nat then occurrences t (lines ++ [x]) else 0%nat).
      { apply Htally'.
        - intros t Hne. now rewrite lookup_insert_ne.
        - intros _. now rewrite lookup_insert_eq.
        - lia. }
      destruct (Nat.eqb_spec (default 0%nat (m !! trim x)) 1) as [Hone | Hnot].
      * exists (trim x :: texts). split; [|split; [|split]].
        -- constructor; [|exact Hnodup]. intros Hin. apply Hmem in Hin. lia.
        -- intros t. rewrite occurrences_snoc, elem_of_cons, Hmem.
           destruct (decide (trim x = t)) as [<- | Hne].
           ++ split; [intros _; lia | intros _; now left].
           ++ split; [intros [-> | H]; [congruence | lia] | intros H; right; lia].
        -- cbn [length]. now rewrite Hcount.
        -- exact Hnew.
      * exists texts. split; [exact Hnodup | split; [|split]].
        -- intros t. rewrite occurrences_snoc, Hmem.
           destruct (decide (trim x = t)) as [<- | Hne]; lia.
        -- exact Hcount.
        -- exact Hnew.
    + rewrite dupStep_short by exact Hshort. cbn [fst snd].
      exists texts. split; [exact Hnodup | split; [|split]].
      * intros t. rewrite occurrences_snoc, Hmem.
        destruct (decide (trim x = t)) as [<- | Hne]; lia.
      * exact Hcount.
      * apply Htally'; [reflexivity | lia | reflexivity].
Qed.

(** X2. The duplicate count is the number of distinct trimmed texts longer
    than 10 code units that occur on at least two lines. *)
Theorem duplicate_count_is_repeated_texts (lines : list jsstring) :
  exists texts : list jsstring,
    NoDup texts
    /\ (forall t : jsstring,
          t ∈ texts <-> (10 < length t)%nat /\ (2 <= occurrences t lines)%nat)
    /\ findDuplicateLines lines = length texts.
Proof.
  destruct (dup_state lines) as (texts & Hnodup & Hmem & Hcount & _).
  exists texts. repeat split; try assumption; now apply Hmem.
Qed.

Lemma occurrences_permutation (t : jsstring) (l1 l2 : list jsstring) :
  l1 ≡ₚ l2 -> occurrences t l1 = occurrences t l2.
Proof. intros H. unfold occurrences. now rewrite H. Qed.

(** X3. The duplicate count does not depend on the order of the lines. *)
Theorem duplicate_count_ignores_order (l1 l2 : list jsstring) :
  l1 ≡ₚ l2 -> findDuplicateLines l1 = findDuplicateLines l2.
Proof.
  intros Hperm.
  destruct (dup_state l1) as (t1 & Hnd1 & Hmem1 & Hc1 & _).
  destruct (dup_state l2) as (t2 & Hnd2 & Hmem2 & Hc2 & _).
  unfold findDuplicateLines. rewrite Hc1, Hc2.
  apply Permutation_length, NoDup_Permutation; try assumption.
  intros t. rewrite Hmem1, Hmem2, (occurrences_permutation t l1 l2 Hperm). reflexivity.
Qed.
End DuplicateCharacterisation.

Lemma duplicate_count_ignores_order_witness :
  Extension.findDuplicateLines
    [Js.str "return total + 1;"; Js.str "const total = 0;"; Js.str "return total + 1;"]
  = Extension.findDuplicateLines
      [Js.str "const total = 0;"; Js.str "return total + 1;"; Js.str "return total + 1;"].
Proof.
  apply duplicate_count_ignores_order. apply perm_swap.
Defined.

(** ** Arithmetic of clamps *)

Lemma num_le (a b : nat) : (a <= b)%nat <-> Js.num a <= Js.num b.
Proof. unfold Js.num. rewrite <- Zle_Qle. lia. Qed.

Lemma num_lt (a b : nat) : (a < b)%nat <-> Js.num a < Js.num b.
Proof. unfold Js.num. rewrite <- Zlt_Qlt. lia. Qed.

Lemma num_0 : Js.num 0 == 0.
Proof. reflexivity. Qed.

Lemma num_pos (n : nat) : (0 < n)%nat -> 1 <= Js.num n.
Proof. intros H. change 1 with (Js.num 1). now apply num_le. Qed.

Lemma Qmin_cases (x y : Q) : (x <= y /\ Qmin x y == x) \/ (y <= x /\ Qmin x y == y).
Proof.
  destruct (Q.min_spec x y) as [[H E] | [H E]]; [left | right]; split;
    try exact E; lra.
Qed.

Lemma Qmax_cases (x y : Q) : (x <= y /\ Qmax x y == y) \/ (y <= x /\ Qmax x y == x).
Proof.
  destruct (Q.max_spec x y) as [[H E] | [H E]]; [left | right]; split;
    try exact E; lra.
Qed.

(** Case analysis on every [Math.min] and [Math.max] in sight, then
    linear arithmetic. *)
Ltac minmax :=
  unfold Js.Math_min, Js.Math_max in *;
  repeat match goal with
         | |- context [Qmin ?x ?y] =>
             let C := fresh "C" in
             let v := fresh "v" in
             pose proof (Qmin_cases x y) as C;
             set (v := Qmin x y) in *; clearbody v;
             destruct C as [[? ?] | [? ?]]
         | _ : context [Qmin ?x ?y] |- _ =>
             let C := fresh "C" in
             let v := fresh "v" in
             pose proof (Qmin_cases x y) as C;
             set (v := Qmin x y) in *; clearbody v;
             destruct C as [[? ?] | [? ?]]
         | |- context [Qmax ?x ?y] =>
             let C := fresh "C" in
             let v := fresh "v" in
             pose proof (Qmax_cases x y) as C;
             set (v := Qmax x y) in *; clearbody v;
             destruct C as [[? ?] | [? ?]]
         | _ : context [Qmax ?x ?y] |- _ =>
             let C := fresh "C" in
             let v := fresh "v" in
             pose proof (Qmax_cases x y) as C;
             set (v := Qmax x y) in *; clearbody v;
             destruct C as [[? ?] | [? ?]]
         end;
  try lra.

(** ** The scores of the extension *)

Section ExtensionScores.
Import Js Extension.

(** Ten times the complexity metric is the number of matches plus one,
    up to 100. *)
Lemma complexity_times_ten (text : jsstring) :
  calculateComplexity text * 10 == Math_min 100 (num (totalMatches text) + 1).
Proof.
  unfold calculateComplexity. rewrite complexityCount_total, num_S.
  pose proof (num_nonneg (totalMatches text)).
  unfold Qdiv. change (/ 10) with (1 # 10).
  set (m := num (totalMatches text)) in *. minmax.
Qed.

Lemma clamped_score_99 (m d l : nat) :
  let q := Math_max 0 (Math_min 100
             (100 - Math_min 100 (num m + 1) - num d * 5 - num l * 15)) in
  q <= 99 /\ (q == 99 <-> m = 0%nat /\ d = 0%nat /\ l = 0%nat).
Proof.
  cbn zeta.
  pose proof (num_nonneg m) as Hm. pose proof (num_nonneg d) as Hd.
  pose proof (num_nonneg l) as Hl.
  assert (Hm0 : m = 0%nat \/ 1 <= num m)
    by (destruct m; [left; reflexivity | right; apply num_pos; lia]).
  assert (Hd0 : d = 0%nat \/ 1 <= num d)
    by (destruct d; [left; reflexivity | right; apply num_pos; lia]).
  assert (Hl0 : l = 0%nat \/ 1 <= num l)
    by (destruct l; [left; reflexivity | right; apply num_pos; lia]).
  split.
  - minmax.
  - split.
    + intros H.
      destruct Hm0 as [-> | Hm1], Hd0 as [-> | Hd1], Hl0 as [-> | Hl1];
        try (repeat split; reflexivity); exfalso;
        rewrite ?num_0 in H; minmax.
    + intros (-> & -> & ->). rewrite !num_0. minmax.
Qed.

(** X4. The extension never reports a perfect score: the quality score of
    [analyzeCodeQuality] is at most 99, and it is 99 exactly for a text
    without any match of the complexity patterns, without duplicate
    lines and without long functions. *)
Theorem quality_score_at_most_99 (text : jsstring) (extension : ext) :
  let a := analyzeCodeQuality text extension in
  qualityScore a <= 99
  /\ (qualityScore a == 99 <->
      totalMatches text = 0%nat
      /\ findDuplicateLines (split_lines text) = 0%nat
      /\ findLongFunctions text extension = 0%nat).
Proof.
  cbn zeta. rewrite analyzeCodeQuality_quality.
  unfold scoreQuality, rawQuality. rewrite (complexity_times_ten text).
  apply clamped_score_99.
Qed.

Lemma complexity_range (text : jsstring) :
  1 # 10 <= calculateComplexity text /\ calculateComplexity text <= 10.
Proof.
  pose proof (complexity_times_ten text) as Hc.
  pose proof (num_nonneg (totalMatches text)) as Hm.
  revert Hc. generalize (calculateComplexity text). intros c Hc.
  minmax.
Qed.

(** X5. The other scores of [analyzeCodeQuality], for every document: the
    bug risk lies between 1.5 and 100, the maintainability between 1
    and 9.8, and the performance is 10, 7, 4 or 1 for none, one, two or
    more long functions. *)
Theorem analysis_scores_in_range (text : jsstring) (extension : ext) :
  let a := analyzeCodeQuality text extension in
  let l := findLongFunctions text extension in
  (3 # 2 <= bugRisk a /\ bugRisk a <= 100)
  /\ (1 <= maintainability a /\ maintainability a <= 98 # 10)
  /\ performance a
     == match l with
        | 0%nat => 10
        | 1%nat => 7
        | 2%nat => 4
        | _ => 1
        end.
Proof.
  cbn zeta. unfold analyzeCodeQuality, score.
  cbn [bugRisk maintainability performance].
  unfold scoreBugRisk, scoreMaintainability, scorePerformance.
  destruct (complexity_range text) as [Hlo Hhi].
  pose proof (num_nonneg (findDuplicateLines (split_lines text))) as Hd.
  pose proof (num_nonneg (findLongFunctions text extension)) as Hl.
  generalize dependent (calculateComplexity text). intros c Hlo Hhi.
  split; [|split].
  - minmax.
  - minmax.
  - destruct (findLongFunctions text extension) as [|[|[|l]]];
      try reflexivity.
    assert (3 <= num (S (S (S l)))) by (change 3 with (num 3); apply num_le; lia).
    minmax.
Qed.

(** X6. The bug risk never falls when a metric grows. *)
Theorem bug_risk_monotone (c c' : Q) (d d' l l' : nat) :
  c <= c' -> (d <= d')%nat -> (l <= l')%nat ->
  scoreBugRisk c d l <= scoreBugRisk c' d' l'.
Proof.
  intros Hc Hd Hl. apply num_le in Hd, Hl. unfold scoreBugRisk. minmax.
Qed.

(** X7. [analyzeCodeQuality] reports no issue exactly for a text without
    duplicate lines, without long functions and with fewer than 50
    matches of the complexity patterns. *)
Theorem no_issue_reported (text : jsstring) (extension : ext) :
  issues (analyzeCodeQuality text extension) = []
  <-> findDuplicateLines (split_lines text) = 0%nat
      /\ findLongFunctions text extension = 0%nat
      /\ (totalMatches text < 50)%nat.
Proof.
  unfold analyzeCodeQuality, score. cbn [issues].
  assert (Hgt : gt (calculateComplexity text) 5 = true <-> (50 <= totalMatches text)%nat).
  { pose proof (complexity_times_ten text) as Hc.
    unfold gt. rewrite negb_true_iff.
    destruct (Qle_bool (calculateComplexity text) 5) eqn:E.
    - apply Qle_bool_iff in E. split; [discriminate|].
      intros H. apply num_le in H. change (num 50) with 50 in H.
      exfalso. revert Hc E. generalize (calculateComplexity text). intros c Hc E.
      minmax.
    - split; [intros _|reflexivity].
      destruct (Nat.le_gt_cases 50 (totalMatches text)) as [H | H]; [exact H|].
      exfalso. assert (Hle : calculateComplexity text <= 5).
      { assert (Hm : num (totalMatches text) <= 49)
          by (change 49 with (num 49); apply num_le; lia).
        revert Hc. generalize (calculateComplexity text). intros c Hc. minmax. }
      apply Qle_bool_iff in Hle. congruence. }
  split.
  - intros H.
    destruct (findDuplicateLines (split_lines text)) as [|d]; [|discriminate H].
    destruct (findLongFunctions text extension) as [|l]; [|discriminate H].
    destruct (gt (calculateComplexity text) 5) eqn:E; [discriminate H|].
    repeat split.
    destruct (Nat.le_gt_cases 50 (totalMatches text)) as [H' | H']; [|exact H'].
    apply Hgt in H'. discriminate H'.
  - intros (-> & -> & Hlt).
    destruct (gt (calculateComplexity text) 5) eqn:E; [|reflexivity].
    assert (50 <= totalMatches text)%nat by (now apply Hgt). lia.
Qed.
End ExtensionScores.

Lemma bug_risk_monotone_witness :
  Extension.scoreBugRisk (1 # 10) 0 0 <= Extension.scoreBugRisk (2 # 10) 1 0.
Proof.
  apply bug_risk_monotone; [discriminate | lia | lia].
Defined.

(** ** The pattern detector and the tracker *)

Section DetectorFacts.
Import Js CodePatternDetector.

(** X8. The detector's quality score lies between 40 and 100, and it is
    below 50 only for a text of more than 1000 non-blank lines with at
    least 11 matches of its complexity pattern. *)
Theorem detector_score_range (text : jsstring) :
  let q := calculateQualityScore text in
  40 <= q /\ q <= 100
  /\ (q < 50 ->
      (1000 < linesOfCode text)%nat
      /\ (11 <= length (matchAll complexityIndicator text))%nat).
Proof.
  cbn zeta. unfold calculateQualityScore.
  pose proof (num_nonneg (length (matchAll complexityIndicator text))) as Hk.
  assert (Hk11 : (11 <= length (matchAll complexityIndicator text))%nat
                 \/ num (length (matchAll complexityIndicator text)) <= 10).
  { destruct (Nat.le_gt_cases 11 (length (matchAll complexityIndicator text)));
      [now left | right]. change 10 with (num 10). apply num_le. lia. }
  generalize dependent (length (matchAll complexityIndicator text)). intros k Hk Hk11.
  destruct (Nat.ltb_spec 500 (linesOfCode text));
    destruct (Nat.ltb_spec 1000 (linesOfCode text)); try lia;
    (split; [|split]); try (minmax; fail);
    intros Hq; (split; [try lia | destruct Hk11 as [? | ?]; [assumption|]]);
    exfalso; revert Hq; minmax.
Qed.

Lemma detectPatterns_idle (text : jsstring) (tr : QualityTracker.t) :
  QualityTracker.isTracking tr = false -> detectPatterns text tr = tr.
Proof.
  intros H. destruct tr as [tracking start a]. cbn in H. subst tracking.
  unfold detectPatterns, QualityTracker.recordLongFunction,
    QualityTracker.recordDuplicateCode, QualityTracker.recordQualityAnalysis.
  destruct (hasLongFunctions text), (0 <? Extension.findDuplicatePatterns text)%nat;
    reflexivity.
Qed.

(** X9. A tracker that is not tracking records nothing, whatever documents
    the detector is run on. *)
Theorem idle_tracker_records_nothing (texts : list jsstring) (tr : QualityTracker.t) :
  QualityTracker.isTracking tr = false -> detectAll texts tr = tr.
Proof.
  intros H. unfold detectAll. induction texts as [|text texts IH]; [reflexivity|].
  cbn [fold_left]. now rewrite detectPatterns_idle.
Qed.

Lemma detectPatterns_tracking (text : jsstring) (tr : QualityTracker.t) :
  QualityTracker.isTracking tr = true ->
  let a := QualityTracker.recentActivity tr in
  let dups := Extension.findDuplicatePatterns text in
  detectPatterns text tr
  = {| QualityTracker.isTracking := true;
       QualityTracker.sessionStart := QualityTracker.sessionStart tr;
       QualityTracker.recentActivity :=
         {| QualityTracker.complexityIncreases :=
              if lt (calculateQualityScore text) 50
              then S (QualityTracker.complexityIncreases a)
              else QualityTracker.complexityIncreases a;
            QualityTracker.duplicateCodeDetected :=
              (QualityTracker.duplicateCodeDetected a + dups)%nat;
            QualityTracker.longFunctionsAdded :=
              QualityTracker.longFunctionsAdded a || hasLongFunctions text;
            QualityTracker.filesAnalyzed := S (QualityTracker.filesAnalyzed a);
            QualityTracker.issuesFound :=
              (QualityTracker.issuesFound a
               + ((if hasLongFunctions text then 1 else 0) + dups))%nat |} |}.
Proof.
  intros H. cbn zeta.
  unfold detectPatterns, QualityTracker.recordLongFunction,
    QualityTracker.recordDuplicateCode, QualityTracker.recordQualityAnalysis.
  destruct tr as [tracking start a]. cbn in H. subst tracking.
  destruct (hasLongFunctions text);
    destruct (Nat.ltb_spec 0 (Extension.findDuplicatePatterns text)) as [Hd | Hd];
    cbn; rewrite ?orb_true_r, ?orb_false_r; repeat f_equal; try lia.
Qed.

(** X10. While tracking, the tracker's counters are the exact totals over
    the documents the detector was run on: one file per document, the
    duplicates of each, one issue per document with a long function
    plus its duplicates, one complexity increase per document scoring
    below 50; the long-function flag is set once a document has one. *)
Theorem tracker_totals (texts : list jsstring) (tr : QualityTracker.t) :
  QualityTracker.isTracking tr = true ->
  let a := QualityTracker.recentActivity tr in
  let a' := QualityTracker.recentActivity (detectAll texts tr) in
  QualityTracker.isTracking (detectAll texts tr) = true
  /\ QualityTracker.filesAnalyzed a'
     = (QualityTracker.filesAnalyzed a + length texts)%nat
  /\ QualityTracker.duplicateCodeDetected a'
     = (QualityTracker.duplicateCodeDetected a
        + sum_list_with Extension.findDuplicatePatterns texts)%nat
  /\ QualityTracker.issuesFound a'
     = (QualityTracker.issuesFound a
        + sum_list_with Extension.findDuplicatePatterns texts
        + length (filter (fun text => hasLongFunctions text = true) texts))%nat
  /\ QualityTracker.complexityIncreases a'
     = (QualityTracker.complexityIncreases a
        + length (filter (fun text => lt (calculateQualityScore text) 50 = true) texts))%nat
  /\ QualityTracker.longFunctionsAdded a'
     = QualityTracker.longFunctionsAdded a || existsb hasLongFunctions texts.
Proof.
  cbn zeta. revert tr. induction texts as [|text texts IH]; intros tr Htr.
  - cbn. rewrite orb_false_r. repeat split; try lia. exact Htr.
  - unfold detectAll in *. cbn [fold_left].
    pose proof (detectPatterns_tracking text tr Htr) as Hstep. cbn zeta in Hstep.
    destruct (IH (detectPatterns text tr)) as (H1 & H2 & H3 & H4 & H5 & H6).
    { rewrite Hstep. reflexivity. }
    split; [exact H1|].
    rewrite H2, H3, H4, H5, H6, Hstep.
    cbn [QualityTracker.recentActivity QualityTracker.filesAnalyzed
         QualityTracker.duplicateCodeDetected QualityTracker.issuesFound
         QualityTracker.complexityIncreases QualityTracker.longFunctionsAdded
         length sum_list_with existsb].
    rewrite !filter_cons.
    destruct (hasLongFunctions text) eqn:Elong;
      destruct (lt (calculateQualityScore text) 50) eqn:Elt;
      repeat case_decide; try congruence;
      cbn [length]; rewrite ?orb_assoc, ?orb_false_r, ?orb_true_r;
      repeat split; lia.
Qed.
End DetectorFacts.

Lemma idle_tracker_records_nothing_witness :
  CodePatternDetector.detectAll [Scenario.functionOfLines 19]
    (QualityTracker.create Scenario.day0)
  = QualityTracker.create Scenario.day0.
Proof.
  apply idle_tracker_records_nothing. reflexivity.
Defined.

Lemma tracker_totals_witness :
  QualityTracker.filesAnalyzed
    (QualityTracker.recentActivity
       (CodePatternDetector.detectAll [Scenario.functionOfLines 19]
          (QualityTracker.startTracking Scenario.day0
             (QualityTracker.create Scenario.day0))))
  = 1%nat.
Proof.
  apply (tracker_totals [Scenario.functionOfLines 19]
           (QualityTracker.startTracking Scenario.day0
              (QualityTracker.create Scenario.day0))).
  reflexivity.
Defined.

Section TrackerPatternFacts.
Import Js QualityTracker.

(** X11. The pattern the tracker generates has a quality score between 0
    and 100, which is 0 from ten issues on; it estimates 50 lines per
    analysed file; and its session duration is not negative when the
    clock has not gone back since the session started. *)
Theorem generated_pattern_ranges (now_d now : Z) (projectType : string)
    (complexity : Q) (tr : t) :
  let p := generateQualityPattern now_d now projectType complexity tr in
  let a := recentActivity tr in
  (0 <= QualityPattern.qualityScore p /\ QualityPattern.qualityScore p <= 100)
  /\ (QualityPattern.qualityScore p == 0 <-> (10 <= issuesFound a)%nat)
  /\ QualityPattern.linesAnalyzed p == QualityPattern.filesModified p * 50
  /\ ((sessionStart tr <= now_d)%Z -> 0 <= QualityPattern.sessionDuration p).
Proof.
  cbn zeta. unfold generateQualityPattern.
  cbn [QualityPattern.qualityScore QualityPattern.linesAnalyzed
       QualityPattern.filesModified QualityPattern.sessionDuration].
  pose proof (num_nonneg (issuesFound (recentActivity tr))) as Hi.
  split; [|split; [|split]].
  - minmax.
  - split.
    + intros H. destruct (Nat.le_gt_cases 10 (issuesFound (recentActivity tr)))
        as [Hle | Hgt]; [exact Hle|].
      exfalso. assert (num (issuesFound (recentActivity tr)) <= 9)
        by (change 9 with (num 9); apply num_le; lia).
      revert H. minmax.
    + intros H. apply num_le in H. change (num 10) with 10 in H. minmax.
  - reflexivity.
  - intros H. unfold getSessionDuration. change 0 with (inject_Z 0).
    rewrite <- Zle_Qle. apply Z.div_pos; lia.
Qed.
End TrackerPatternFacts.

(** ** Quality issues *)

Section IssueFacts.
Import Js AnalysisEngine.

(** X12. [detectQualityIssues] reports a probability between 0 and 1, which
    is 0 exactly when it gives the standing message as its reason, that
    is when none of its four indicators fires; the severity is "high"
    exactly when long functions were added, and "medium" exactly when
    duplicate code was detected and no long function was added. *)
Theorem quality_issue_report (pm : ProjectMetrics.t)
    (a : QualityTracker.QualityActivity) :
  let r := detectQualityIssues pm a in
  let quiet :=
    (QualityTracker.complexityIncreases a <= 3)%nat
    /\ QualityTracker.duplicateCodeDetected a = 0%nat
    /\ QualityTracker.longFunctionsAdded a = false
    /\ ProjectMetrics.complexity pm <= 7 # 10 in
  (0 <= probability r /\ probability r <= 1)
  /\ (probability r == 0 <-> quiet)
  /\ (reason r = str "No specific quality issues detected" <-> quiet)
  /\ (severity r = "high"%string <-> QualityTracker.longFunctionsAdded a = true)
  /\ (severity r = "medium"%string <->
      (0 < QualityTracker.duplicateCodeDetected a)%nat
      /\ QualityTracker.longFunctionsAdded a = false).
Proof.
  cbn zeta.
  assert (E1 : (QualityTracker.complexityIncreases a <= 3)%nat
               <-> (3 <? QualityTracker.complexityIncreases a)%nat = false)
    by (symmetry; apply Nat.ltb_ge).
  assert (E2 : QualityTracker.duplicateCodeDetected a = 0%nat
               <-> (0 <? QualityTracker.duplicateCodeDetected a)%nat = false)
    by (rewrite Nat.ltb_ge; lia).
  assert (E2' : (0 < QualityTracker.duplicateCodeDetected a)%nat
                <-> (0 <? QualityTracker.duplicateCodeDetected a)%nat = true)
    by (symmetry; apply Nat.ltb_lt).
  assert (E4 : ProjectMetrics.complexity pm <= 7 # 10
               <-> gt (ProjectMetrics.complexity pm) (7 # 10) = false)
    by (unfold gt; rewrite negb_false_iff; symmetry; apply Qle_bool_iff).
  rewrite E1, E2, E2', E4. clear E1 E2 E2' E4.
  unfold detectQualityIssues.
  destruct (3 <? QualityTracker.complexityIncreases a)%nat,
    (0 <? QualityTracker.duplicateCodeDetected a)%nat,
    (QualityTracker.longFunctionsAdded a),
    (gt (ProjectMetrics.complexity pm) (7 # 10));
    cbn [probability reason severity];
    (split; [split; vm_compute; discriminate|]);
    (split; [split; [intros H; vm_compute in H; try discriminate H; auto
                    | intros (? & ? & ? & ?); try discriminate; reflexivity]|]);
    (split; [split; [intros H; vm_compute in H; try discriminate H; auto
                    | intros (? & ? & ? & ?); try discriminate; reflexivity]|]);
    (split; [split; [intros H; vm_compute in H; try discriminate H; auto
                    | intros ?; try discriminate; reflexivity]|]);
    (split; [intros H; vm_compute in H; try discriminate H; auto
            | intros (? & ?); try discriminate; reflexivity]).
Qed.
End IssueFacts.

(** ** Averages *)

Section AverageFacts.
Import Js.
Context {A : Type}.

Lemma sumOf_fold (f : A -> Q) (xs : list A) (acc : Q) :
  fold_left (fun sum x => sum + f x) xs acc == acc + sumOf f xs.
Proof.
  unfold sumOf. revert acc. induction xs as [|x xs IH]; intros acc; cbn [fold_left].
  - ring.
  - rewrite IH, (IH (0 + f x)). ring.
Qed.

Lemma sumOf_cons (f : A -> Q) (x : A) (xs : list A) :
  sumOf f (x :: xs) == f x + sumOf f xs.
Proof. unfold sumOf at 1. cbn [fold_left]. rewrite sumOf_fold. ring. Qed.

Lemma sumOf_bounds (f : A -> Q) (lo hi : Q) (xs : list A) :
  Forall (fun x => lo <= f x /\ f x <= hi) xs ->
  lo * num (length xs) <= sumOf f xs /\ sumOf f xs <= hi * num (length xs).
Proof.
  induction 1 as [|x xs [Hlo Hhi] _ [IHlo IHhi]].
  - change (num (length [])) with 0. unfold sumOf. cbn [fold_left]. split; lra.
  - rewrite sumOf_cons. cbn [length]. rewrite num_S. split; lra.
Qed.



(** The average of values between [lo] and [hi] lies between them. *)
Lemma average_bounds (f : A -> Q) (lo hi : Q) (xs : list A) :
  xs <> [] ->
  Forall (fun x => lo <= f x /\ f x <= hi) xs ->
  lo <= sumOf f xs / num (length xs) /\ sumOf f xs / num (length xs) <= hi.
Proof.
  intros Hne Hall. destruct (sumOf_bounds f lo hi xs Hall) as [Hlo Hhi].
  assert (Hn : 0 < num (length xs)).
  { destruct xs; [congruence|]. change 0 with (num 0). apply num_lt. cbn. lia. }
  split.
  - apply Qle_shift_div_l; [exact Hn | exact Hlo].
  - apply Qle_shift_div_r; [exact Hn | exact Hhi].
Qed.
End AverageFacts.

(** ** The regression model *)

Section RegressionTraining.
Import Js LinearRegressionModel.
Variable LocalTZA : Z -> Z.

Lemma predictValue_same (a b : t) (features : list Q) :
  sameParameters a b -> predictValue a features = predictValue b features.
Proof. intros [Hw Hb]. unfold predictValue. now rewrite Hw, Hb. Qed.

Lemma trainExample_same (a b : t) (example : list Q * Q) :
  sameParameters a b -> sameParameters (trainExample a example) (trainExample b example).
Proof.
  intros H. pose proof H as [Hw Hb]. destruct example as [f y].
  unfold sameParameters, trainExample. cbn [weights bias].
  now rewrite (predictValue_same a b f H), Hw, Hb.
Qed.

Lemma epoch_same (examples : list (list Q * Q)) (a b : t) :
  sameParameters a b ->
  sameParameters (fold_left trainExample examples a) (fold_left trainExample examples b).
Proof.
  revert a b. induction examples as [|ex examples IH]; intros a b H; [exact H|].
  cbn [fold_left]. apply IH, trainExample_same, H.
Qed.

Lemma training_same (features : list (list Q)) (targets : list Q) (a b : t) :
  sameParameters (trainLinearRegression a features targets)
       (trainLinearRegression b features targets).
Proof.
  unfold trainLinearRegression. induction epochs as [|n IH]; cbn [Nat.iter].
  - split; reflexivity.
  - apply epoch_same, IH.
Qed.

Lemma trainExample_length (n : nat) (m : t) (example : list Q * Q) :
  length (weights m) = n -> length (fst example) = n ->
  length (weights (trainExample m example)) = n.
Proof.
  intros Hw Hf. destruct example as [f y]. cbn [fst] in Hf.
  unfold trainExample. cbn [weights]. rewrite length_map, length_combine. lia.
Qed.

Lemma epoch_length (n : nat) (examples : list (list Q * Q)) (m : t) :
  Forall (fun example => length (fst example) = n) examples ->
  length (weights m) = n ->
  length (weights (fold_left trainExample examples m)) = n.
Proof.
  intros Hall. revert m. induction Hall as [|ex examples Hex _ IH]; intros m Hm;
    [exact Hm|].
  cbn [fold_left]. apply IH. now apply trainExample_length.
Qed.

Lemma extractFeatures_length (h : list QualityPattern.t) (targets : list Q) :
  Forall (fun example : list Q * Q => length (fst example) = 8%nat)
         (combine (extractFeatures LocalTZA h) targets).
Proof.
  revert targets. induction h as [|q h IH]; intros targets; [constructor|].
  destruct targets as [|y targets]; [constructor|].
  cbn [extractFeatures map combine]. constructor; [reflexivity | apply IH].
Qed.

(** X13. Training starts from zero: on a history of at least 5 samples the
    trained model does not depend on the model it replaces, so training
    again on the same history changes nothing; the trained model has
    one weight for each of the 8 features. *)
Theorem training_restarts_from_zero (m1 m2 : t) (h : list QualityPattern.t) :
  (5 <= length h)%nat ->
  train LocalTZA m1 h = train LocalTZA m2 h
  /\ train LocalTZA (train LocalTZA m1 h) h = train LocalTZA m1 h
  /\ isTrained (train LocalTZA m1 h) = true
  /\ length (weights (train LocalTZA m1 h)) = 8%nat.
Proof.
  intros Hlen.
  assert (Hany : forall a b, train LocalTZA a h = train LocalTZA b h).
  { intros a b. unfold train.
    destruct (Nat.ltb_spec (length h) 5) as [? | _]; [lia|].
    destruct (training_same (extractFeatures LocalTZA h)
                (map QualityPattern.qualityScore h) a b) as [Hw Hb].
    now rewrite Hw, Hb. }
  split; [apply Hany|]. split; [apply Hany|].
  unfold train. destruct (Nat.ltb_spec (length h) 5) as [? | _]; [lia|].
  cbn [isTrained weights]. split; [reflexivity|].
  unfold trainLinearRegression.
  assert (Hnum : length (hd [] (extractFeatures LocalTZA h)) = 8%nat)
    by (destruct h; [cbn in Hlen; lia | reflexivity]).
  rewrite Hnum. induction epochs as [|n IH]; cbn [Nat.iter].
  - reflexivity.
  - apply epoch_length; [apply extractFeatures_length | exact IH].
Qed.
End RegressionTraining.

Lemma training_restarts_from_zero_witness :
  LinearRegressionModel.isTrained
    (LinearRegressionModel.train Scenario.utc LinearRegressionModel.init
       (Scenario.trendSamples 5)) = true.
Proof.
  apply (training_restarts_from_zero Scenario.utc LinearRegressionModel.init
           LinearRegressionModel.init (Scenario.trendSamples 5)).
  simpl. lia.
Defined.

Section RegressionPrediction.
Import Js LinearRegressionModel.
Variable LocalTZA : Z -> Z.



End RegressionPrediction.


(** ** The time series model *)

Section TimeSeriesRanges.
Import Js TimeSeriesModel.
Variable LocalTZA : Z -> Z.

Lemma gt_false (x y : Q) : x <= y -> gt x y = false.
Proof. intros H. unfold gt. apply Qle_bool_iff in H. now rewrite H. Qed.

Lemma lt_true (x y : Q) : x < y -> lt x y = true.
Proof.
  intros H. unfold lt. destruct (Qle_bool y x) eqn:E; [|reflexivity].
  apply Qle_bool_iff in E. lra.
Qed.

Lemma lt_false (x y : Q) : y <= x -> lt x y = false.
Proof. intros H. unfold lt. apply Qle_bool_iff in H. now rewrite H. Qed.

(** X15. The three trend labels, for a history as the engine keeps it
    (at most 1000 samples, scores in [0,100]) of at least 7 samples
    whose scores are the integers [a + b * index].  On such a history
    every sum and product of [analyzeTrend] is an integer far below
    2^53 and its quotient is the integer [b], so the numbers of the
    host hold each of them exactly.  The trend coefficient after
    [train] is [b], and [predict] says "improving" when [b] is above
    2, "declining" when it is below -2 and "stable" in between, 2 and
    -2 included. *)
Theorem trend_label_of_linear_history (m : t) (now : Z) (h : list QualityPattern.t)
    (a b : Z) :
  (7 <= length h)%nat -> (length h <= 1000)%nat ->
  Forall (fun q => 0 <= QualityPattern.qualityScore q
                   /\ QualityPattern.qualityScore q <= 100) h ->
  linearFrom (inject_Z a) (inject_Z b) 0 (map QualityPattern.qualityScore h) ->
  let m' := train LocalTZA m h in
  trendCoefficient m' == inject_Z b
  /\ ((2 < b)%Z -> trend (predict LocalTZA m' now h) = improving)
  /\ ((b < -2)%Z -> trend (predict LocalTZA m' now h) = declining)
  /\ ((-2 <= b <= 2)%Z -> trend (predict LocalTZA m' now h) = stable).
Proof.
  intros Hlen _ _ Hlin. cbn zeta.
  destruct (train_long LocalTZA m h Hlen) as [Hinit Hcoef].
  assert (Hslope : trendCoefficient (train LocalTZA m h) == inject_Z b).
  { rewrite Hcoef. apply slope_linear with (a := inject_Z a); [|exact Hlin].
    rewrite length_map. lia. }
  split; [exact Hslope|].
  unfold predict. rewrite Hinit.
  destruct h as [|p h']; [cbn in Hlen; lia|].
  cbn [negb orb length Nat.eqb trend].
  generalize dependent (trendCoefficient (train LocalTZA m (p :: h'))).
  intros c _ Hc. split; [|split].
  - intros Hb. rewrite Zlt_Qlt in Hb. change (inject_Z 2) with 2 in Hb.
    rewrite gt_true; [reflexivity | lra].
  - intros Hb. rewrite Zlt_Qlt in Hb. change (inject_Z (-2)) with (-2) in Hb.
    rewrite gt_false, lt_true; [reflexivity | lra | lra].
  - intros [Hlo Hhi]. rewrite Zle_Qle in Hlo, Hhi.
    change (inject_Z (-2)) with (-2) in Hlo. change (inject_Z 2) with 2 in Hhi.
    rewrite gt_false, lt_false; [reflexivity | lra | lra].
Qed.

Lemma calculateConfidence_range (n : nat) :
  3 # 10 <= calculateConfidence n /\ calculateConfidence n <= 9 # 10.
Proof.
  unfold calculateConfidence.
  destruct (n <? 7)%nat; [split; discriminate|].
  destruct (n <? 30)%nat; [split; discriminate|].
  destruct (n <? 90)%nat; split; discriminate.
Qed.

Lemma clamped_round (x : Q) :
  let y := Math_max 0 (Math_min 100 (Math_round x)) in
  isInteger y /\ 0 <= y /\ y <= 100.
Proof.
  cbn zeta. split.
  - apply isInteger_max; [apply (isInteger_Z 0)|].
    apply isInteger_min; [apply (isInteger_Z 100) | apply isInteger_round].
  - apply (clamp_bounds 0 100). discriminate.
Qed.

(** X16. Whatever the model holds and whatever the history, the daily and
    weekly predictions are integers between 0 and 100 and the
    confidence lies between 0.3 and 0.9; a model that is not
    initialized, or an empty history, gives the default prediction. *)
Theorem trend_prediction_ranges (m : t) (now : Z) (h : list QualityPattern.t) :
  let p := predict LocalTZA m now h in
  (isInteger (daily p) /\ 0 <= daily p /\ daily p <= 100)
  /\ (isInteger (weekly p) /\ 0 <= weekly p /\ weekly p <= 100)
  /\ (3 # 10 <= confidence p /\ confidence p <= 9 # 10)
  /\ (isInitialized m = false \/ h = [] -> p = defaultPrediction).
Proof.
  cbn zeta. unfold predict.
  destruct (isInitialized m); cbn [negb orb];
    destruct h as [|q h']; cbn [length Nat.eqb].
  2: { cbn [daily weekly confidence].
       repeat split; try apply clamped_round;
         try apply (calculateConfidence_range (S (length h'))).
       intros [H | H]; discriminate H. }
  all: cbn; repeat split; try discriminate; exists 75%Z; reflexivity.
Qed.
End TimeSeriesRanges.

Lemma trend_label_of_linear_history_witness :
  TimeSeriesModel.trend
    (TimeSeriesModel.predict Scenario.utc
       (TimeSeriesModel.train Scenario.utc TimeSeriesModel.init
          (Scenario.stepSamples 80 (-2) 7))
       Scenario.day0 (Scenario.stepSamples 80 (-2) 7))
  = TimeSeriesModel.stable.
Proof.
  apply (trend_label_of_linear_history Scenario.utc TimeSeriesModel.init Scenario.day0
           (Scenario.stepSamples 80 (-2) 7) 80 (-2)).
  - simpl. lia.
  - simpl. lia.
  - repeat (apply Forall_cons_2; [split; discriminate|]). apply Forall_nil_2.
  - cbn. repeat split; reflexivity.
  - lia.
Defined.

Section SeasonalFacts.
Import Js TimeSeriesModel.
Variable LocalTZA : Z -> Z.

Lemma dayOfWeek_range (timestamp : Z) : (dayOfWeek LocalTZA timestamp < 7)%nat.
Proof.
  unfold dayOfWeek, getDay.
  pose proof (Z.mod_pos_bound (LocalTime LocalTZA timestamp / 86400000 + 4) 7). lia.
Qed.

(** The sums and counts of [analyzeSeasonality] while it runs over
    scores between [lo] and [hi]: seven of each, every sum between
    [lo] and [hi] times its count. *)
Lemma seasonStep_invariant (lo hi : Q) (h : list QualityPattern.t) :
  Forall (fun q => lo <= QualityPattern.qualityScore q
                   /\ QualityPattern.qualityScore q <= hi) h ->
  forall (fs : list Q) (cs : list nat),
    length fs = 7%nat ->
    Forall2 (fun s c => lo * num c <= s /\ s <= hi * num c) fs cs ->
    let st := fold_left (seasonStep LocalTZA) h (fs, cs) in
    length st.1 = 7%nat
    /\ Forall2 (fun s c => lo * num c <= s /\ s <= hi * num c) st.1 st.2.
Proof.
  induction 1 as [|q h [Hqlo Hqhi] _ IH]; intros fs cs Hlen Hrel; cbn zeta.
  - split; assumption.
  - cbn [fold_left].
    pose proof (dayOfWeek_range (QualityPattern.timestamp q)) as Hd.
    destruct (lookup_lt_is_Some_2 fs (dayOfWeek LocalTZA (QualityPattern.timestamp q)))
      as [s Hs]; [lia|].
    destruct (Forall2_lookup_l _ _ _ _ _ Hrel Hs) as (c & Hc & Hsc).
    assert (Estep : seasonStep LocalTZA (fs, cs) q
                    = (<[dayOfWeek LocalTZA (QualityPattern.timestamp q)
                         := s + QualityPattern.qualityScore q]> fs,
                       <[dayOfWeek LocalTZA (QualityPattern.timestamp q) := S c]> cs)).
    { unfold seasonStep. now rewrite Hs, Hc. }
    rewrite Estep. apply IH.
    + now rewrite length_insert.
    + apply Forall2_insert; [exact Hrel|]. rewrite num_S. lra.
Qed.

(** X17. After [train] on at least 7 samples whose scores lie in [0,100]
    there are seven seasonal factors, one per weekday, each between 0
    and 100, and the seasonal effect [predict] reports lies between
    -100 and 100. *)
Theorem seasonal_factors_in_range (m : t) (now : Z) (h : list QualityPattern.t) :
  (7 <= length h)%nat ->
  Forall (fun q => 0 <= QualityPattern.qualityScore q
                   /\ QualityPattern.qualityScore q <= 100) h ->
  let m' := train LocalTZA m h in
  length (seasonalFactors m') = 7%nat
  /\ Forall (fun x => 0 <= x /\ x <= 100) (seasonalFactors m')
  /\ (-100 <= seasonality (predict LocalTZA m' now h)
      /\ seasonality (predict LocalTZA m' now h) <= 100).
Proof.
  intros Hlen Hall. cbn zeta.
  assert (Hfactors : length (seasonalFactors (train LocalTZA m h)) = 7%nat
                     /\ Forall (fun x => 0 <= x /\ x <= 100)
                               (seasonalFactors (train LocalTZA m h))).
  { unfold train. destruct (Nat.ltb_spec (length h) 7) as [? | _]; [lia|].
    cbn [seasonalFactors]. unfold analyzeSeasonality.
    destruct (seasonStep_invariant 0 100 h Hall (repeat 0 7) (repeat 0%nat 7))
      as [Hl Hrel]; [reflexivity | |].
    { cbn [repeat]. repeat constructor; vm_compute; discriminate. }
    cbn zeta in Hl, Hrel.
    destruct (fold_left (seasonStep LocalTZA) h (repeat 0 7, repeat 0%nat 7))
      as [fs cs]. cbn [fst snd seasonalFactors] in *.
    split; [now rewrite length_imap|].
    apply Forall_lookup. intros i x Hx. rewrite list_lookup_imap in Hx.
    destruct (fs !! i) as [s|] eqn:Hs; [|discriminate Hx].
    cbn [fmap option_fmap option_map] in Hx. apply (inj Some) in Hx. subst x.
    destruct (Forall2_lookup_l _ _ _ _ _ Hrel Hs) as (c & Hc & Hlo & Hhi).
    rewrite Hc. cbn [default from_option id].
    destruct (Nat.ltb_spec 0 c) as [Hpos | _]; [|split; discriminate].
    assert (0 < num c) by (change 0 with (num 0); now apply num_lt).
    split.
    - apply Qle_shift_div_l; [assumption | lra].
    - apply Qle_shift_div_r; [assumption | lra]. }
  destruct Hfactors as [Hl Hrange]. split; [exact Hl | split; [exact Hrange|]].
  destruct (train_long LocalTZA m h Hlen) as [Hinit _].
  unfold predict. rewrite Hinit.
  destruct h as [|q h']; [cbn in Hlen; lia|].
  cbn [negb orb length Nat.eqb seasonality]. unfold calculateSeasonality.
  generalize dependent (seasonalFactors (train LocalTZA m (q :: h'))).
  intros fs Hl Hrange. destruct fs as [|f fs']; [discriminate Hl|].
  set (factors := f :: fs') in *.
  assert (Hsum : 0 <= sumOf (fun factor : Q => factor) factors
                 /\ sumOf (fun factor : Q => factor) factors <= 700).
  { destruct (sumOf_bounds (fun factor : Q => factor) 0 100 factors Hrange) as [H0 H1].
    rewrite Hl in H0, H1. change (num 7) with 7 in *. split; lra. }
  pose proof (dayOfWeek_range now) as Hd.
  destruct (lookup_lt_is_Some_2 factors (dayOfWeek LocalTZA now)) as [x Hx]; [lia|].
  rewrite Hx. cbn [default from_option id].
  pose proof (Forall_lookup_1 _ _ _ _ Hrange Hx) as [Hx0 Hx1].
  unfold Qdiv. change (/ 7) with (1 # 7). split; lra.
Qed.
End SeasonalFacts.

Lemma seasonal_factors_in_range_witness :
  length (TimeSeriesModel.seasonalFactors
            (TimeSeriesModel.train Scenario.utc TimeSeriesModel.init
               (Scenario.trendSamples 7))) = 7%nat.
Proof.
  destruct (seasonal_factors_in_range Scenario.utc TimeSeriesModel.init Scenario.day0
              (Scenario.trendSamples 7)) as (H & _); [| |exact H].
  - simpl. lia.
  - unfold Scenario.trendSamples. cbn [map seq].
    repeat (apply Forall_cons_2; [split; vm_compute; discriminate|]).
    apply Forall_nil_2.
Defined.

(** ** The orchestrator *)

Section EngineTraining.
Import Js AnalysisEngine.
Variable LocalTZA : Z -> Z.

Lemma recordQuality_below_threshold (e : t) (p : QualityPattern.t) :
  (length (qualityHistory e) < 10)%nat ->
  regressionModel (recordQuality LocalTZA e p) = regressionModel e
  /\ timeSeriesModel (recordQuality LocalTZA e p) = timeSeriesModel e
  /\ length (qualityHistory (recordQuality LocalTZA e p)) = S (length (qualityHistory e)).
Proof.
  intros Hlen.
  assert (Hpush : length (qualityHistory e ++ [p]) = S (length (qualityHistory e)))
    by (rewrite length_app; cbn; lia).
  unfold recordQuality.
  destruct (Nat.ltb_spec 1000 (length (qualityHistory e ++ [p]))) as [? | _]; [lia|].
  unfold updateModels. cbn [qualityHistory].
  destruct (Nat.ltb_spec 10 (length (qualityHistory e ++ [p]))) as [? | _]; [lia|].
  cbn. repeat split. exact Hpush.
Qed.

Lemma recordQuality_above_threshold (e : t) (p : QualityPattern.t) :
  (10 <= length (qualityHistory e))%nat ->
  LinearRegressionModel.isTrained (regressionModel (recordQuality LocalTZA e p)) = true
  /\ TimeSeriesModel.isInitialized (timeSeriesModel (recordQuality LocalTZA e p)) = true.
Proof.
  intros Hlen.
  pose proof (recordQuality_history LocalTZA e p) as Hh.
  assert (Hnew : (10 < length (slice_last 1000 (qualityHistory e ++ [p])))%nat).
  { rewrite slice_last_length, length_app. cbn [length]. lia. }
  unfold recordQuality in *. unfold updateModels in *. cbn [qualityHistory] in *.
  set (history := if (1000 <? length (qualityHistory e ++ [p]))%nat
                  then slice_last 1000 (qualityHistory e ++ [p])
                  else qualityHistory e ++ [p]) in *.
  assert (Hhist : history = slice_last 1000 (qualityHistory e ++ [p])).
  { destruct (10 <? length history)%nat; exact Hh. }
  rewrite <- Hhist in Hnew.
  destruct (Nat.ltb_spec 10 (length history)) as [_ | ?]; [|lia].
  cbn [regressionModel timeSeriesModel]. split.
  - apply train_trained. lia.
  - apply train_long. lia.
Qed.

(** X18. The models are left alone while the history holds at most 10
    samples and are trained from the 11th on: recording samples that
    bring the history to at most 10 changes neither model, and
    recording one more sample onto a history of at least 10 leaves the
    regression model trained and the time series model initialized. *)
Theorem models_trained_from_eleventh_sample (e : t) (ps : list QualityPattern.t)
    (p : QualityPattern.t) :
  ((length (qualityHistory e) + length ps <= 10)%nat ->
   regressionModel (recordAll LocalTZA e ps) = regressionModel e
   /\ timeSeriesModel (recordAll LocalTZA e ps) = timeSeriesModel e)
  /\ ((10 <= length (qualityHistory e))%nat ->
      LinearRegressionModel.isTrained (regressionModel (recordQuality LocalTZA e p)) = true
      /\ TimeSeriesModel.isInitialized (timeSeriesModel (recordQuality LocalTZA e p))
         = true).
Proof.
  split; [|apply recordQuality_above_threshold].
  revert e. induction ps as [|q ps IH]; intros e Hlen; [split; reflexivity|].
  cbn [length] in Hlen. unfold recordAll in *. cbn [fold_left].
  destruct (recordQuality_below_threshold e q) as (Hr & Ht & Hl); [lia|].
  destruct (IH (recordQuality LocalTZA e q)) as [Hr' Ht']; [lia|].
  now rewrite Hr', Ht', Hr, Ht.
Qed.

(** X19. A restarted engine finds the history the previous one held: the
    history loaded from the store that [recordQuality] wrote is the
    history [recordQuality] left in memory. *)
Theorem history_survives_restart (e : t) (p : QualityPattern.t) :
  qualityHistory (loadHistoricalData (init (storage (recordQuality LocalTZA e p))))
  = qualityHistory (recordQuality LocalTZA e p).
Proof.
  unfold loadHistoricalData, init. cbn [qualityHistory storage].
  apply recordQuality_persists.
Qed.
End EngineTraining.

Section EngineResult.
Import Js AnalysisEngine.
Variable LocalTZA : Z -> Z.

Lemma calculateQualityScore_range (recent : list QualityPattern.t) :
  Forall (fun q => 0 <= QualityPattern.qualityScore q
                   /\ QualityPattern.qualityScore q <= 100) recent ->
  isInteger (calculateQualityScore recent)
  /\ 0 <= calculateQualityScore recent /\ calculateQualityScore recent <= 100.
Proof.
  intros Hall. unfold calculateQualityScore.
  destruct recent as [|q qs] eqn:E.
  - split; [exists 75%Z; reflexivity | split; discriminate].
  - rewrite <- E in *. assert (Hne : recent <> []) by (subst; discriminate).
    split; [apply isInteger_round|].
    destruct (average_bounds QualityPattern.qualityScore 0 100 recent Hne Hall).
    now apply (Math_round_bounds 0 100).
Qed.

(** X20. For every engine, project metrics and clock reading, the bug risk
    of [generateAnalysis] lies between 0 and 100; the recommendations
    are at most three triggered ones followed by the two standing
    ones, and the first of the triggered ones, on the bug risk, is
    given exactly when the bug risk is above 50; and when the recorded
    scores lie in [0,100], so does the overall quality, an integer. *)
Theorem analysis_risk_and_recommendations (e : t) (pm : ProjectMetrics.t)
    (now now_r now_t : Z) :
  let r := generateAnalysis LocalTZA e pm now now_r now_t in
  (0 <= bugRisk r /\ bugRisk r <= 100)
  /\ (exists triggered : list string,
        recommendations r
        = triggered ++ ["Maintain consistent coding standards"%string;
                        "Add comprehensive unit tests"%string]
        /\ (length triggered <= 3)%nat
        /\ ("High bug risk detected - consider refactoring complex functions"%string
            ∈ triggered <-> 50 < bugRisk r))
  /\ (Forall (fun q => 0 <= QualityPattern.qualityScore q
                       /\ QualityPattern.qualityScore q <= 100) (qualityHistory e) ->
      isInteger (overallQuality r)
      /\ 0 <= overallQuality r /\ overallQuality r <= 100).
Proof.
  cbn zeta. unfold generateAnalysis.
  cbn [bugRisk recommendations overallQuality].
  split; [|split].
  - unfold calculateBugRisk. split; [|apply Q.le_min_l].
    apply Q.min_glb; [discriminate | apply Q.le_max_l].
  - unfold generateQualityRecommendations.
    match goal with
    | |- context [gt ?x 50] => generalize x
    end.
    intros risk. eexists. split; [rewrite !app_assoc; reflexivity|].
    assert (Hrisk : gt risk 50 = true <-> 50 < risk).
    { unfold gt. rewrite negb_true_iff. split.
      - intros H. apply Qnot_le_lt. intros Hle. apply Qle_bool_iff in Hle. congruence.
      - intros H. destruct (Qle_bool risk 50) eqn:E; [|reflexivity].
        apply Qle_bool_iff in E. lra. }
    destruct (gt risk 50) eqn:E1;
      destruct (gt (ProjectMetrics.complexity pm) (7 # 10));
      destruct (existsb _ _); cbn [app length];
      (split; [lia|]); rewrite <- Hrisk;
      rewrite ?elem_of_cons, ?elem_of_nil;
      (split; [intros H; repeat destruct H as [H | H]; try discriminate H;
               try reflexivity; try contradiction
              | intros H; try discriminate H; auto]).
  - intros Hall. apply calculateQualityScore_range.
    unfold getRecentQuality. apply Forall_forall. intros q Hq.
    apply list_elem_of_filter in Hq as [_ Hq].
    rewrite Forall_forall in Hall. now apply Hall.
Qed.
End EngineResult.

(** ** The persistence adapter *)

Ltac distinct_keys := let H := fresh in intros H; vm_compute in H; discriminate H.

Ltac store_lookup :=
  unfold DataStorage.exportAllData, DataStorage.importAllData, DataStorage.clearAllData,
    DataStorage.saveQualityHistory, DataStorage.saveUserSettings,
    DataStorage.saveModelData, DataStorage.saveSessionData,
    DataStorage.loadQualityHistory, DataStorage.loadUserSettings,
    DataStorage.loadModelData, DataStorage.loadSessionData, DataStorage.update;
  repeat first
    [ rewrite lookup_insert_eq
    | rewrite lookup_delete_eq
    | rewrite lookup_insert_ne by distinct_keys
    | rewrite lookup_delete_ne by distinct_keys ].

Section StorageOperations.
Import Js DataStorage.

(** X21. Each save method is read back by its load method, the history cut
    to its last 1000 entries and the sessions to their last 100, and
    changes nothing of what the other three load methods return. *)
Theorem save_then_load (g : gmap string value) (h : list QualityPattern.t)
    (s : UserSettings) (md : ModelData) (ss : list SessionData) :
  (loadQualityHistory (saveQualityHistory h g) = slice_last 1000 h
   /\ loadUserSettings (saveQualityHistory h g) = loadUserSettings g
   /\ loadModelData (saveQualityHistory h g) = loadModelData g
   /\ loadSessionData (saveQualityHistory h g) = loadSessionData g)
  /\ (loadUserSettings (saveUserSettings s g) = s
      /\ loadQualityHistory (saveUserSettings s g) = loadQualityHistory g
      /\ loadModelData (saveUserSettings s g) = loadModelData g
      /\ loadSessionData (saveUserSettings s g) = loadSessionData g)
  /\ (loadModelData (saveModelData md g) = Some md
      /\ loadQualityHistory (saveModelData md g) = loadQualityHistory g
      /\ loadUserSettings (saveModelData md g) = loadUserSettings g
      /\ loadSessionData (saveModelData md g) = loadSessionData g)
  /\ (loadSessionData (saveSessionData ss g) = slice_last 100 ss
      /\ loadQualityHistory (saveSessionData ss g) = loadQualityHistory g
      /\ loadUserSettings (saveSessionData ss g) = loadUserSettings g
      /\ loadModelData (saveSessionData ss g) = loadModelData g).
Proof. repeat split; store_lookup; reflexivity. Qed.

(** X22. After [clearAllData] the four loads return their defaults (no
    history, the default settings, no model data, no sessions), and
    every other key of the store is left as it was. *)
Theorem clear_restores_defaults (g : gmap string value) :
  loadQualityHistory (clearAllData g) = []
  /\ loadUserSettings (clearAllData g) = defaultSettings
  /\ loadModelData (clearAllData g) = None
  /\ loadSessionData (clearAllData g) = []
  /\ exportAllData (clearAllData g)
     = {| qualityHistory := []; userSettings := defaultSettings;
          modelData := defaultModelData; sessionData := [] |}
  /\ (forall k : string,
        k <> key "qualityHistory" -> k <> key "userSettings" ->
        k <> key "modelData" -> k <> key "sessionData" ->
        clearAllData g !! k = g !! k).
Proof.
  assert (H : loadQualityHistory (clearAllData g) = []
              /\ loadUserSettings (clearAllData g) = defaultSettings
              /\ loadModelData (clearAllData g) = None
              /\ loadSessionData (clearAllData g) = [])
    by (repeat split; store_lookup; reflexivity).
  destruct H as (H1 & H2 & H3 & H4).
  repeat split; try assumption.
  - unfold exportAllData. now rewrite H1, H2, H3, H4.
  - intros k K1 K2 K3 K4. unfold clearAllData, update.
    now rewrite !lookup_delete_ne by congruence.
Qed.

(** X23. [migrateData] never touches what the four loads return, removes
    the three keys of the old format when the old settings are
    present, and running it a second time changes nothing. *)
Theorem migration_keeps_data (g : gmap string value) :
  exportAllData (migrateData g) = exportAllData g
  /\ loadModelData (migrateData g) = loadModelData g
  /\ migrateData (migrateData g) = migrateData g
  /\ (forall v : value,
        g !! "windsuCredit.userSettings"%string = Some v -> truthy v = true ->
        migrateData g !! "windsuCredit.userSettings"%string = None
        /\ migrateData g !! "windsuCredit.usageHistory"%string = None
        /\ migrateData g !! "windsuCredit.modelData"%string = None).
Proof.
  unfold migrateData.
  destruct (g !! "windsuCredit.userSettings"%string) as [v|] eqn:Hv.
  - destruct (truthy v) eqn:Ht.
    + repeat split.
      * store_lookup. reflexivity.
      * store_lookup. reflexivity.
      * unfold update. rewrite !lookup_delete_ne by distinct_keys.
        now rewrite lookup_delete_eq.
      * unfold update. rewrite !lookup_delete_ne by distinct_keys.
        now rewrite lookup_delete_eq.
      * unfold update. rewrite !lookup_delete_ne by distinct_keys.
        now rewrite lookup_delete_eq.
      * unfold update. now rewrite lookup_delete_eq.
    + repeat split; rewrite ?Hv, ?Ht; try reflexivity.
      all: congruence.
  - repeat split; rewrite ?Hv; try reflexivity.
    all: congruence.
Qed.
End StorageOperations.

(** ** The backend's analysis *)

Section BackendResult.
Import Js Backend.

Lemma inheritedNames_long (t : jsstring) :
  t ∈ inheritedNames -> (10 < length t)%nat.
Proof.
  unfold inheritedNames. cbn [map]. rewrite !elem_of_cons, elem_of_nil.
  intros H. repeat (destruct H as [-> | H]; [vm_compute; lia|]). destruct H.
Qed.

Lemma groupLines_throws (lines : list jsstring) :
  forall (g : gmap jsstring (list nat)) (index : nat),
    groupLines g lines index = None
    <-> exists line, line ∈ lines /\ trim line ∈ inheritedNames.
Proof.
  induction lines as [|line rest IH]; intros g index; cbn [groupLines].
  - split; [discriminate|]. intros (l & Hl & _). now apply elem_of_nil in Hl.
  - unfold groupStep. destruct (Nat.ltb_spec 10 (length (trim line))) as [Hlong | Hshort].
    + case_bool_decide as Hin.
      * split; [|reflexivity]. intros _. exists line. split; [left|exact Hin].
      * rewrite IH. split.
        -- intros (l & Hl & Hn). exists l. split; [now right|exact Hn].
        -- intros (l & Hl & Hn). apply elem_of_cons in Hl as [-> | Hl]; [contradiction|].
           now exists l.
    + rewrite IH. split.
      * intros (l & Hl & Hn). exists l. split; [now right|exact Hn].
      * intros (l & Hl & Hn). apply elem_of_cons in Hl as [-> | Hl].
        -- apply inheritedNames_long in Hn. lia.
        -- now exists l.
Qed.

(** X24. [analyzeCode] throws exactly on a text with a line that, trimmed,
    is the name of a property every object inherits (such as
    [constructor] or [hasOwnProperty]); on every other text it returns
    a result. *)
Theorem backend_throws_exactly_on_inherited_names (code : jsstring) :
  analyzeCode code = None
  <-> exists line, line ∈ split_lines code /\ trim line ∈ inheritedNames.
Proof.
  rewrite <- (groupLines_throws (split_lines code) ∅ 0).
  unfold analyzeCode. destruct (groupLines ∅ (split_lines code) 0); split; congruence.
Qed.

Lemma groupLines_duplicates (lines : list jsstring) :
  forall (g g' : gmap jsstring (list nat)) (index : nat),
    groupLines g lines index = Some g' ->
    (countDuplicates g'
     <= countDuplicates g
        + length (filter (fun line => (0 <? length (trim line))%nat) lines))%nat.
Proof.
  induction lines as [|line rest IH]; intros g g' index Hrun; cbn [groupLines] in Hrun.
  - apply (inj Some) in Hrun. subst g'. lia.
  - rewrite filter_cons. unfold groupStep in Hrun.
    destruct (Nat.ltb_spec 10 (length (trim line))) as [Hlong | Hshort].
    + case_bool_decide; [discriminate Hrun|].
      apply IH in Hrun. rewrite countDuplicates_insert in Hrun.
      rewrite decide_True by (apply Is_true_true, Nat.ltb_lt; lia).
      cbn [length].
      destruct (length (default [] (g !! trim line)) =? 0)%nat; lia.
    + apply IH in Hrun. case_decide; cbn [length]; lia.
Qed.

Lemma backend_score (c d l : nat) :
  scoreQuality c d l == num (100 - (8 * c + 3 * d + 12 * l)).
Proof.
  unfold scoreQuality, num.
  assert (Hc : 0 <= inject_Z (Z.of_nat c)) by (rewrite <- (Zle_Qle 0); lia).
  assert (Hd : 0 <= inject_Z (Z.of_nat d)) by (rewrite <- (Zle_Qle 0); lia).
  assert (Hl : 0 <= inject_Z (Z.of_nat l)) by (rewrite <- (Zle_Qle 0); lia).
  destruct (le_lt_dec (8 * c + 3 * d + 12 * l) 100) as [Hle | Hgt].
  - replace (Z.of_nat (100 - (8 * c + 3 * d + 12 * l)))
      with (100 - (8 * Z.of_nat c + 3 * Z.of_nat d + 12 * Z.of_nat l))%Z by lia.
    unfold Z.sub. rewrite inject_Z_plus, inject_Z_opp, !inject_Z_plus, !inject_Z_mult.
    assert (H : inject_Z 8 * inject_Z (Z.of_nat c) + inject_Z 3 * inject_Z (Z.of_nat d)
                + inject_Z 12 * inject_Z (Z.of_nat l) <= 100).
    { rewrite <- !inject_Z_mult, <- !inject_Z_plus. change 100 with (inject_Z 100).
      rewrite <- Zle_Qle. lia. }
    change (inject_Z 8) with 8 in *. change (inject_Z 3) with 3 in *.
    change (inject_Z 12) with 12 in *. change (inject_Z 100) with 100.
    minmax.
  - replace (100 - (8 * c + 3 * d + 12 * l))%nat with 0%nat by lia.
    assert (H : 100 < inject_Z 8 * inject_Z (Z.of_nat c) + inject_Z 3 * inject_Z (Z.of_nat d)
                + inject_Z 12 * inject_Z (Z.of_nat l)).
    { rewrite <- !inject_Z_mult, <- !inject_Z_plus. change 100 with (inject_Z 100).
      rewrite <- Zlt_Qlt. lia. }
    change (inject_Z 8) with 8 in *. change (inject_Z 3) with 3 in *.
    change (inject_Z 12) with 12 in *. change (inject_Z (Z.of_nat 0)) with 0.
    minmax.
Qed.

Lemma ge_num (n k : nat) : ge (num n) (num k) = true <-> (k <= n)%nat.
Proof. unfold ge. rewrite Qle_bool_iff. symmetry. apply num_le. Qed.

(** X25. Of a result of [analyzeCode]: the quality score is 100 minus the
    penalty 8 * complexity + 3 * duplicateLines + 12 * longFunctions,
    stopped at 0; the grade is A for a penalty of at most 20, B up to
    40, C up to 60 and D above; and the metrics satisfy
    duplicateLines <= nonEmptyLines <= totalLines with at least one
    line. *)
Theorem backend_grade_by_penalty (code : jsstring) (a : Analysis) :
  analyzeCode code = Some a ->
  let m := metrics a in
  let penalty := (8 * complexity m + 3 * duplicateLines m + 12 * longFunctions m)%nat in
  qualityScore a == num (100 - penalty)
  /\ (analysisGrade a = A <-> (penalty <= 20)%nat)
  /\ (analysisGrade a = B <-> (20 < penalty <= 40)%nat)
  /\ (analysisGrade a = C <-> (40 < penalty <= 60)%nat)
  /\ (analysisGrade a = D <-> (60 < penalty)%nat)
  /\ (1 <= totalLines m)%nat
  /\ (duplicateLines m <= nonEmptyLines m <= totalLines m)%nat.
Proof.
  unfold analyzeCode. intros Hrun.
  destruct (groupLines ∅ (split_lines code) 0) as [g|] eqn:Hg; [|discriminate Hrun].
  apply (inj Some) in Hrun. subst a. cbn zeta.
  cbn [metrics qualityScore analysisGrade complexity duplicateLines longFunctions
       totalLines nonEmptyLines].
  set (c := fold_left _ complexityPatterns 0%nat).
  set (l := length (matchAll longFunction code)).
  set (d := countDuplicates g).
  pose proof (backend_score c d l) as Hs.
  set (p := (8 * c + 3 * d + 12 * l)%nat) in *.
  assert (G : forall k : nat, ge (scoreQuality c d l) (num k) = true <-> (k <= 100 - p)%nat).
  { intros k. rewrite <- ge_num. unfold ge. rewrite !Qle_bool_iff, Hs. reflexivity. }
  pose proof (G 80%nat) as G80. pose proof (G 60%nat) as G60. pose proof (G 40%nat) as G40.
  change (num 80) with 80 in G80. change (num 60) with 60 in G60.
  change (num 40) with 40 in G40. clear G.
  split; [exact Hs|].
  assert (Hgrade :
    (if ge (scoreQuality c d l) 80 then A
     else if ge (scoreQuality c d l) 60 then B
     else if ge (scoreQuality c d l) 40 then C else D)
    = if (p <=? 20)%nat then A else if (p <=? 40)%nat then B
      else if (p <=? 60)%nat then C else D).
  { destruct (ge (scoreQuality c d l) 80) eqn:E80.
    - assert (80 <= 100 - p)%nat by (apply G80; reflexivity).
      rewrite (proj2 (Nat.leb_le p 20)) by lia. reflexivity.
    - assert (~ (80 <= 100 - p)%nat) by (rewrite <- G80; discriminate).
      rewrite (proj2 (Nat.leb_gt p 20)) by lia.
      destruct (ge (scoreQuality c d l) 60) eqn:E60.
      + assert (60 <= 100 - p)%nat by (apply G60; reflexivity).
        rewrite (proj2 (Nat.leb_le p 40)) by lia. reflexivity.
      + assert (~ (60 <= 100 - p)%nat) by (rewrite <- G60; discriminate).
        rewrite (proj2 (Nat.leb_gt p 40)) by lia.
        destruct (ge (scoreQuality c d l) 40) eqn:E40.
        * assert (40 <= 100 - p)%nat by (apply G40; reflexivity).
          rewrite (proj2 (Nat.leb_le p 60)) by lia. reflexivity.
        * assert (~ (40 <= 100 - p)%nat) by (rewrite <- G40; discriminate).
          rewrite (proj2 (Nat.leb_gt p 60)) by lia. reflexivity. }
  rewrite Hgrade. clear Hgrade G80 G60 G40 Hs.
  assert (Hlen : (1 <= length (split_lines code))%nat).
  { destruct code as [|ch code]; [cbn; lia|].
    rewrite split_lines_length. lia. }
  split; [|split; [|split; [|split; [|split; [exact Hlen|split]]]]].
  - destruct (Nat.leb_spec p 20), (Nat.leb_spec p 40), (Nat.leb_spec p 60);
      split; intros; try congruence; try lia.
  - destruct (Nat.leb_spec p 20), (Nat.leb_spec p 40), (Nat.leb_spec p 60);
      split; intros; try congruence; try lia.
  - destruct (Nat.leb_spec p 20), (Nat.leb_spec p 40), (Nat.leb_spec p 60);
      split; intros; try congruence; try lia.
  - destruct (Nat.leb_spec p 20), (Nat.leb_spec p 40), (Nat.leb_spec p 60);
      split; intros; try congruence; try lia.
  - apply groupLines_duplicates in Hg. rewrite countDuplicates_empty in Hg. exact Hg.
  - apply length_filter.
Qed.
End BackendResult.

Lemma backend_grade_by_penalty_witness :
  exists a : Backend.Analysis,
    Backend.analyzeCode (Js.str "if (ready) { launch(); } else { wait(); }") = Some a
    /\ Backend.qualityScore a == 84
    /\ (Backend.analysisGrade a = Backend.A
        <-> (8 * Backend.complexity (Backend.metrics a)
             + 3 * Backend.duplicateLines (Backend.metrics a)
             + 12 * Backend.longFunctions (Backend.metrics a) <= 20)%nat).
Proof.
  eexists. split; [vm_compute; reflexivity|].
  split; [reflexivity|].
  refine (proj1 (proj2 (backend_grade_by_penalty
            (Js.str "if (ready) { launch(); } else { wait(); }") _ _))).
  vm_compute. reflexivity.
Defined.

(** ** The project analyzer *)

Section AnalyzerFacts.
Import Js ProjectAnalyzer.

Lemma lookupOr_bounds (table : list (string * Q)) (lo hi : Q) (key : string) :
  Forall (fun kv => lo <= kv.2 /\ kv.2 <= hi) table ->
  lo <= 1 # 2 -> 1 # 2 <= hi ->
  lo <= lookupOr table key /\ lookupOr table key <= hi.
Proof.
  intros Hall Hlo Hhi. induction Hall as [|[k v] rest Hkv _ IH]; cbn [lookupOr].
  - split; assumption.
  - destruct (String.eqb k key); [exact Hkv | exact IH].
Qed.

Lemma languageComplexity_bounds (lang : string) :
  2 # 10 <= lookupOr languageComplexityMap lang
  /\ lookupOr languageComplexityMap lang <= 95 # 100.
Proof.
  apply lookupOr_bounds; [|discriminate|discriminate].
  unfold languageComplexityMap.
  repeat (apply Forall_cons_2; [split; discriminate|]). apply Forall_nil_2.
Qed.

Lemma projectTypeComplexity_bounds (projectType : string) :
  5 # 10 <= getProjectTypeComplexity projectType
  /\ getProjectTypeComplexity projectType <= 9 # 10.
Proof.
  apply lookupOr_bounds; [|discriminate|discriminate].
  unfold projectTypeComplexityMap.
  repeat (apply Forall_cons_2; [split; discriminate|]). apply Forall_nil_2.
Qed.

Lemma getLanguageComplexity_bounds (languages : list string) :
  languages <> [] ->
  2 # 10 <= getLanguageComplexity languages
  /\ getLanguageComplexity languages <= 95 # 100.
Proof.
  intros Hne. apply average_bounds; [exact Hne|].
  apply Forall_forall. intros lang _. apply languageComplexity_bounds.
Qed.

Lemma detectLanguages_nonempty (extensions : option (list string)) :
  detectLanguages extensions <> [].
Proof.
  unfold detectLanguages. destruct extensions as [exts|]; [|discriminate].
  destruct (omap (languageOf languageMap) exts); cbn; discriminate.
Qed.

Lemma detected_type_has_dependencies (rootFiles : list string)
    (allDeps : option (list string)) :
  detectProjectType rootFiles allDeps <> "Unknown"%string ->
  checkForDependencies rootFiles = true.
Proof.
  unfold detectProjectType, checkForDependencies, dependencyFiles. cbn [existsb].
  destruct (bool_decide ("package.json"%string ∈ rootFiles)); [reflexivity|].
  destruct (bool_decide ("requirements.txt"%string ∈ rootFiles)); [reflexivity|].
  destruct (bool_decide ("Cargo.toml"%string ∈ rootFiles)); [reflexivity|].
  destruct (bool_decide ("go.mod"%string ∈ rootFiles)); [reflexivity|].
  destruct (bool_decide ("pom.xml"%string ∈ rootFiles)); [reflexivity|].
  intros Hne. now contradiction Hne.
Qed.

Lemma analyzeGitActivity_range (recentFiles : option nat) :
  0 <= analyzeGitActivity recentFiles /\ analyzeGitActivity recentFiles <= 1.
Proof.
  destruct recentFiles as [n|]; cbn [analyzeGitActivity]; [|split; discriminate].
  pose proof (num_nonneg n) as Hn.
  unfold Qdiv. change (/ 10) with (1 # 10). minmax.
Qed.

Lemma calculateComplexity_range (factors : Factors) :
  languages factors <> [] ->
  (if hasDependencies factors then 225 # 1000 else 125 # 1000)
  <= calculateComplexity factors
  /\ calculateComplexity factors <= 389 # 400.
Proof.
  intros Hne. unfold calculateComplexity.
  pose proof (getLanguageComplexity_bounds (languages factors) Hne) as [Hl1 Hl2].
  pose proof (projectTypeComplexity_bounds (projectType factors)) as [Hp1 Hp2].
  pose proof (num_nonneg (fileCount factors)) as Hf.
  pose proof (num_nonneg (totalLines factors)) as Ht.
  set (lang := getLanguageComplexity _) in *. clearbody lang.
  set (type := getProjectTypeComplexity _) in *. clearbody type.
  unfold Qdiv. change (/ 100) with (1 # 100). change (/ 10000) with (1 # 10000).
  destruct (hasDependencies factors); minmax.
Qed.

(** X26. Of the metrics [performAnalysis] builds, whatever the traversal
    found: the complexity lies in [0.125, 0.9725], so its cap at 1.0
    is never reached, and in [0.225, 0.9725] when a dependency file is
    present; at least one language is reported; the git activity lies
    in [0,1]; a project type other than Unknown comes with
    hasDependencies; and the engine's performance score for them is an
    integer between 5 and 8. *)
Theorem analyzed_project_complexity (fileCount totalLines : nat)
    (rootFiles : list string) (allDeps extensions : option (list string))
    (hasTests : bool) (recentFiles : option nat) :
  let m := performAnalysis fileCount totalLines rootFiles allDeps extensions
                           hasTests recentFiles in
  (125 # 1000 <= ProjectMetrics.complexity m /\ ProjectMetrics.complexity m <= 389 # 400)
  /\ (ProjectMetrics.hasDependencies m = true -> 225 # 1000 <= ProjectMetrics.complexity m)
  /\ ProjectMetrics.languages m <> []
  /\ (0 <= ProjectMetrics.gitActivity m /\ ProjectMetrics.gitActivity m <= 1)
  /\ (ProjectMetrics.projectType m <> "Unknown"%string ->
      ProjectMetrics.hasDependencies m = true)
  /\ (forall recent : list QualityPattern.t,
        isInteger (AnalysisEngine.calculatePerformance m recent)
        /\ 5 <= AnalysisEngine.calculatePerformance m recent
        /\ AnalysisEngine.calculatePerformance m recent <= 8).
Proof.
  cbn zeta. unfold performAnalysis, metricsOf.
  cbn [ProjectMetrics.complexity ProjectMetrics.hasDependencies ProjectMetrics.languages
       ProjectMetrics.gitActivity ProjectMetrics.projectType].
  set (factors := {| fileCount := fileCount |}).
  pose proof (calculateComplexity_range factors (detectLanguages_nonempty extensions))
    as [Hlo Hhi].
  assert (Hdeps : hasDependencies factors = checkForDependencies rootFiles) by reflexivity.
  rewrite Hdeps in *. clear Hdeps.
  split; [|split; [|split; [|split; [|split]]]].
  - split; [|exact Hhi]. destruct (checkForDependencies rootFiles); lra.
  - intros Hd. rewrite Hd in Hlo. exact Hlo.
  - apply detectLanguages_nonempty.
  - apply analyzeGitActivity_range.
  - apply detected_type_has_dependencies.
  - intros recent. unfold AnalysisEngine.calculatePerformance.
    cbn [ProjectMetrics.complexity].
    assert (Hc : 125 # 1000 <= calculateComplexity factors)
      by (destruct (checkForDependencies rootFiles); lra).
    set (c := calculateComplexity factors) in *. clearbody c.
    split; [apply isInteger_round|].
    apply (Math_round_bounds 5 8);
      change (inject_Z 5) with 5; change (inject_Z 8) with 8; minmax.
Qed.

(** X27. The overall score of [getComplexityBreakdown] for the metrics
    [performAnalysis] builds lies in [0.19, 0.94], and the weights of
    its seven factors add up to 1. *)
Theorem breakdown_overall_range (fileCount totalLines : nat)
    (rootFiles : list string) (allDeps extensions : option (list string))
    (hasTests : bool) (recentFiles : option nat) :
  let m := performAnalysis fileCount totalLines rootFiles allDeps extensions
                           hasTests recentFiles in
  19 # 100 <= breakdownOverall m
  /\ breakdownOverall m <= 94 # 100
  /\ sumOf snd (breakdownFactors m) == 1.
Proof.
  cbn zeta. unfold breakdownOverall, breakdownFactors, performAnalysis, metricsOf.
  cbn [ProjectMetrics.complexity ProjectMetrics.hasDependencies ProjectMetrics.languages
       ProjectMetrics.gitActivity ProjectMetrics.projectType ProjectMetrics.fileCount
       ProjectMetrics.totalLines ProjectMetrics.hasTests
       ProjectAnalyzer.fileCount ProjectAnalyzer.totalLines ProjectAnalyzer.hasTests
       hasDependencies languages projectType gitActivity].
  unfold sumOf. cbn [fold_left fst snd].
  pose proof (getLanguageComplexity_bounds _ (detectLanguages_nonempty extensions))
    as [Hl1 Hl2].
  pose proof (projectTypeComplexity_bounds (detectProjectType rootFiles allDeps))
    as [Hp1 Hp2].
  pose proof (analyzeGitActivity_range recentFiles) as [Hg1 Hg2].
  pose proof (num_nonneg fileCount) as Hf.
  pose proof (num_nonneg totalLines) as Ht.
  unfold normalizeGitActivity, normalizeFileCount, normalizeLineCount.
  set (lang := getLanguageComplexity _) in *. clearbody lang.
  set (type := getProjectTypeComplexity _) in *. clearbody type.
  set (git := analyzeGitActivity _) in *. clearbody git.
  set (deps := if checkForDependencies rootFiles then 8 # 10 else 2 # 10).
  assert (Hd : 2 # 10 <= deps /\ deps <= 8 # 10)
    by (subst deps; destruct (checkForDependencies rootFiles); split; discriminate).
  clearbody deps.
  set (tests := if hasTests then 6 # 10 else 9 # 10).
  assert (Hs : 6 # 10 <= tests /\ tests <= 9 # 10)
    by (subst tests; destruct hasTests; split; discriminate).
  clearbody tests. destruct Hd as [Hd1 Hd2]. destruct Hs as [Hs1 Hs2].
  split; [|split; [|reflexivity]].
  - unfold Qdiv at 1. change (/ 100) with (1 # 100) at 1.
    match goal with |- _ <= Math_round ?x * _ =>
      assert (H : 19 <= Math_round x); [apply (Math_round_bounds 19 94)|lra] end.
    + change (inject_Z 19) with 19. change (inject_Z 94) with 94.
      unfold Qdiv. change (/ 200) with (1 # 200). change (/ 50000) with (1 # 50000).
      minmax.
    + change (inject_Z 19) with 19. change (inject_Z 94) with 94.
      unfold Qdiv. change (/ 200) with (1 # 200). change (/ 50000) with (1 # 50000).
      minmax.
  - unfold Qdiv at 1. change (/ 100) with (1 # 100) at 1.
    match goal with |- Math_round ?x * _ <= _ =>
      assert (H : Math_round x <= 94); [apply (Math_round_bounds 19 94)|lra] end.
    + change (inject_Z 19) with 19. change (inject_Z 94) with 94.
      unfold Qdiv. change (/ 200) with (1 # 200). change (/ 50000) with (1 # 50000).
      minmax.
    + change (inject_Z 19) with 19. change (inject_Z 94) with 94.
      unfold Qdiv. change (/ 200) with (1 # 200). change (/ 50000) with (1 # 50000).
      minmax.
Qed.
End AnalyzerFacts.

Section AnalyzerCache.
Import Js ProjectAnalyzer.

(** X28. The cache of [analyzeCurrentProject]: with no cached metrics, or
    cached metrics of five minutes or more ago, a successful analysis
    at [now] returns its metrics; every call less than five minutes
    after [now] then returns those metrics and leaves the cache as it
    is, whatever the workspace has become.  A call without a workspace
    folder or with a failing analysis never changes the cache. *)
Theorem analysis_cached_for_five_minutes (a : t) (now later : Z)
    (metrics : ProjectMetrics.t) (ws : workspace) :
  cachedMetrics a = None \/ (lastAnalysisTime a + 300000 <= now)%Z ->
  (later < now + 300000)%Z ->
  let a' := (analyzeCurrentProject now (Analyzed metrics) a).1 in
  (analyzeCurrentProject now (Analyzed metrics) a).2 = metrics
  /\ analyzeCurrentProject later ws a' = (a', metrics)
  /\ (analyzeCurrentProject now NoWorkspace a).1 = a
  /\ (analyzeCurrentProject now AnalysisFails a).1 = a
  /\ (analyzeCurrentProject now NoWorkspace a).2 = getDefaultMetrics
  /\ (analyzeCurrentProject now AnalysisFails a).2 = getDefaultMetrics.
Proof.
  intros Hstale Hsoon. cbn zeta.
  assert (Hfirst : analyzeCurrentProject now (Analyzed metrics) a
                   = ({| cachedMetrics := Some metrics; lastAnalysisTime := now |},
                      metrics)).
  { unfold analyzeCurrentProject. destruct (cachedMetrics a) as [cached|] eqn:Hc;
      [|reflexivity].
    destruct Hstale as [Hnone | Hold]; [discriminate Hnone|].
    rewrite (proj2 (Z.ltb_ge _ _)); [reflexivity|].
    unfold cacheValidityMs. lia. }
  rewrite Hfirst. cbn [fst snd].
  split; [reflexivity|]. split.
  - unfold analyzeCurrentProject. cbn [cachedMetrics lastAnalysisTime].
    rewrite (proj2 (Z.ltb_lt _ _)); [reflexivity|].
    unfold cacheValidityMs. lia.
  - unfold analyzeCurrentProject. destruct (cachedMetrics a) as [cached|] eqn:Hc.
    + destruct Hstale as [Hnone | Hold]; [discriminate Hnone|].
      rewrite (proj2 (Z.ltb_ge _ _)) by (unfold cacheValidityMs; lia).
      repeat split.
    + repeat split.
Qed.
End AnalyzerCache.

Lemma analysis_cached_for_five_minutes_witness :
  ProjectAnalyzer.analyzeCurrentProject 1704110699999 ProjectAnalyzer.AnalysisFails
    (ProjectAnalyzer.analyzeCurrentProject 1704110400000
       (ProjectAnalyzer.Analyzed Scenario.defaultMetrics) ProjectAnalyzer.init).1
  = ((ProjectAnalyzer.analyzeCurrentProject 1704110400000
        (ProjectAnalyzer.Analyzed Scenario.defaultMetrics) ProjectAnalyzer.init).1,
     Scenario.defaultMetrics).
Proof.
  refine (proj1 (proj2 (analysis_cached_for_five_minutes ProjectAnalyzer.init
            1704110400000 1704110699999 Scenario.defaultMetrics
            ProjectAnalyzer.AnalysisFails _ _))).
  - left. reflexivity.
  - reflexivity.
Defined.

Section CascadeFacts.
Import Js ProjectAnalyzer.

Lemma rule_keeps (fires : bool) (weight : Q) (reason : string) (files : Q)
    (st : Q * list string * Q) :
  0 < weight -> 0 <= files ->
  (0 <= st.1.1 /\ (st.1.1 == 0 <-> st.1.2 = []) /\ 1 <= st.2) ->
  0 <= (rule fires weight reason files st).1.1
  /\ ((rule fires weight reason files st).1.1 == 0
      <-> (rule fires weight reason files st).1.2 = [])
  /\ 1 <= (rule fires weight reason files st).2.
Proof.
  destruct st as [[p rs] f]. cbn [fst snd rule]. intros Hw Hf (Hp & Hiff & H1).
  destruct fires; cbn [fst snd]; [|now repeat split; try apply Hiff].
  split; [lra|]. split; [|lra]. split.
  - intros H. lra.
  - intros H. now destruct rs.
Qed.

Lemma Math_round_ge_1 (x : Q) : 1 <= x -> 1 <= Math_round x.
Proof.
  intros H. unfold Math_round. change 1 with (inject_Z 1). rewrite <- Zle_Qle.
  transitivity (Qfloor (inject_Z 1 + (1 # 2))).
  - rewrite Qfloor_half. lia.
  - apply Qfloor_resp_le. change (inject_Z 1) with 1. lra.
Qed.

(** X29. The result of [analyzeCascadePotential], whatever the file: the
    probability lies in [0,1] and is 0 exactly when no reason is
    given; the estimated number of files is an integer, at least 1. *)
Theorem cascade_potential_range (fileName fileExtension : jsstring)
    (fileContent : option jsstring) :
  let r := analyzeCascadePotential fileName fileExtension fileContent in
  0 <= probability r /\ probability r <= 1
  /\ (probability r == 0 <-> reasons r = [])
  /\ isInteger (estimatedFiles r) /\ 1 <= estimatedFiles r.
Proof.
  cbn zeta. unfold analyzeCascadePotential. cbv zeta.
  set (st := if bool_decide (fileExtension ∈ map str [".ts"; ".tsx"; ".d.ts"]%string)
            then _ else _).
  assert (Hinv : 0 <= st.1.1 /\ (st.1.1 == 0 <-> st.1.2 = []) /\ 1 <= st.2);
    [subst st|destruct st as [[p rs] f]].
  - assert (Hinit : 0 <= (0, @nil string, 1).1.1
                    /\ ((0, @nil string, 1).1.1 == 0 <-> (0, @nil string, 1).1.2 = [])
                    /\ 1 <= (0, @nil string, 1).2)
      by (cbn [fst snd]; repeat split; discriminate).
    destruct (bool_decide (fileExtension ∈ _));
      (apply rule_keeps; [reflexivity | discriminate |]);
      destruct fileContent as [[|ch content]|];
      repeat (apply rule_keeps;
              [ reflexivity
              | first [ discriminate
                      | apply Qmult_le_0_compat; [apply num_nonneg | discriminate] ]
              | ]);
      exact Hinit.
  - cbn [fst snd] in Hinv. destruct Hinv as (Hp & Hiff & Hf).
    cbn [probability reasons estimatedFiles].
    split; [minmax|]. split; [minmax|]. split; [|split].
    + rewrite <- Hiff. split; intros H; minmax.
    + apply isInteger_round.
    + now apply Math_round_ge_1.
Qed.
End CascadeFacts.

(** ** The server's analysis *)

Section ServerFacts.
Import Js Server.

Lemma num_add (a b : nat) : num (a + b) == num a + num b.
Proof. unfold num. now rewrite Nat2Z.inj_add, inject_Z_plus. Qed.

Lemma num_mul (a b : nat) : num (a * b) == num a * num b.
Proof. unfold num. now rewrite Nat2Z.inj_mul, inject_Z_mult. Qed.

Lemma num_sub (a b : nat) : (b <= a)%nat -> num (a - b) == num a - num b.
Proof.
  intros H. unfold num. rewrite Nat2Z.inj_sub by exact H.
  unfold Z.sub, Qminus. now rewrite inject_Z_plus, inject_Z_opp.
Qed.

Lemma server_score (n d : nat) :
  Math_max 0 (Math_min 100 (100 - Math_min 10 (num n / 10) * 10 - num d * 5))
  == num (100 - (Nat.min n 100 + 5 * d)).
Proof.
  pose proof (num_nonneg n) as Hn. pose proof (num_nonneg d) as Hd.
  unfold Qdiv. change (/ 10) with (1 # 10).
  destruct (le_lt_dec (Nat.min n 100 + 5 * d) 100) as [Hle | Hgt].
  - rewrite num_sub, num_add, num_mul by exact Hle.
    change (num 100) with 100. change (num 5) with 5.
    assert (Hsum : num (Nat.min n 100) + 5 * num d <= 100).
    { change 5 with (num 5). change 100 with (num 100).
      rewrite <- num_mul, <- num_add. now apply num_le. }
    destruct (le_lt_dec n 100) as [Hn100 | Hn100].
    + rewrite Nat.min_l in * by exact Hn100.
      assert (num n <= 100) by (change 100 with (num 100); now apply num_le).
      minmax.
    + rewrite Nat.min_r in * by lia. change (num 100) with 100 in *.
      assert (100 < num n) by (change 100 with (num 100); now apply num_lt).
      minmax.
  - replace (100 - (Nat.min n 100 + 5 * d))%nat with 0%nat by lia.
    change (num 0) with 0.
    assert (Hsum : 100 < num (Nat.min n 100) + 5 * num d).
    { change 5 with (num 5). change 100 with (num 100) at 1.
      rewrite <- num_mul, <- num_add. now apply num_lt. }
    destruct (le_lt_dec n 100) as [Hn100 | Hn100].
    + rewrite Nat.min_l in * by exact Hn100.
      assert (num n <= 100) by (change 100 with (num 100); now apply num_le).
      minmax.
    + rewrite Nat.min_r in * by lia. change (num 100) with 100 in *.
      assert (100 < num n) by (change 100 with (num 100); now apply num_lt).
      minmax.
Qed.

(** X30. Of the result of [performCodeAnalysis], with n the number of
    matches of [if (], [for (], [while (] and [switch (] and d the
    number of duplicated lines: the quality score is
    100 - min(n, 100) - 5 * d stopped at 0, hence 100 exactly for a
    text without match and without duplicate; complexity lies in
    [0,10], bug risk in [0,100], maintainability and performance in
    [1,10]; no issue is listed exactly when d = 0 and n <= 50; and
    linesOfCode never exceeds the number of lines. *)
Theorem server_analysis_scores (code : jsstring) :
  let a := performCodeAnalysis code in
  let n := length (matchAll complexityIndicator code) in
  let d := findDuplicateLines (split_lines code) in
  qualityScore a == num (100 - (Nat.min n 100 + 5 * d))
  /\ (qualityScore a == 100 <-> n = 0%nat /\ d = 0%nat)
  /\ (0 <= complexity a /\ complexity a <= 10)
  /\ (0 <= bugRisk a /\ bugRisk a <= 100)
  /\ (1 <= maintainability a /\ maintainability a <= 10)
  /\ (1 <= performance a /\ performance a <= 10)
  /\ (issues a = [] <-> d = 0%nat /\ (n <= 50)%nat)
  /\ (linesOfCode a <= length (split_lines code))%nat.
Proof.
  cbn zeta. unfold performCodeAnalysis.
  cbn [qualityScore complexity bugRisk maintainability performance issues linesOfCode].
  set (n := length (matchAll complexityIndicator code)).
  set (d := findDuplicateLines (split_lines code)).
  pose proof (num_nonneg n) as Hn. pose proof (num_nonneg d) as Hd.
  assert (Hq : Math_round (Math_max 0 (Math_min 100
                 (100 - Math_min 10 (num n / 10) * 10 - num d * 5)))
               == num (100 - (Nat.min n 100 + 5 * d))).
  { rewrite (Math_round_comp _ _ (server_score n d)). unfold num.
    now rewrite Math_round_inject. }
  split; [exact Hq|]. split; [|split; [|split; [|split; [|split; [|split]]]]].
  - rewrite Hq. change 100 with (num 100). split.
    + intros H. unfold num in H. apply (proj1 (inject_Z_injective _ _)) in H. lia.
    + intros [-> ->]. reflexivity.
  - unfold Qdiv. change (/ 10) with (1 # 10). split; minmax.
  - unfold Qdiv. change (/ 10) with (1 # 10). split; minmax.
  - unfold Qdiv. change (/ 10) with (1 # 10). split; minmax.
  - unfold Qdiv. change (/ 10) with (1 # 10). split; minmax.
  - destruct (Nat.ltb_spec 0 d) as [Hpos | Hzero].
    + split; [discriminate|]. intros [-> _]. lia.
    + assert (d = 0%nat) as Hd0 by lia. rewrite Hd0. cbn [app].
      destruct (le_lt_dec n 50) as [H50 | H50].
      * rewrite gt_false; [tauto|].
        apply (proj1 (num_le n 50)) in H50. change (num 50) with 50 in H50.
        unfold Qdiv. change (/ 10) with (1 # 10). minmax.
      * rewrite gt_true; [split; [discriminate | lia]|].
        apply (proj1 (num_lt 50 n)) in H50. change (num 50) with 50 in H50.
        unfold Qdiv. change (/ 10) with (1 # 10). minmax.
  - apply length_filter.
Qed.
End ServerFacts.
